(** * Material image generation endpoint: model and properties

    Shallow embedding of [backend/controllers/material_controller.py]
    (the Flask view [generate_material_image]) together with the library
    functions it calls: Python's [str.strip], [pathlib], [tempfile.mkdtemp],
    [shutil.rmtree], [open] and werkzeug's [secure_filename].

    Python text is a list of Unicode code points; the file system is a
    finite map from resolved absolute paths to nodes; the handler runs in a
    state-and-exception monad that also records the calls it makes. *)

From Stdlib Require Import NArith String Ascii List Lia SpecFloat.
From stdpp Require Import base option list gmap fin_maps.

Import ListNotations.
Local Open Scope N_scope.

(** ** Python values used by the handler *)

Module Py.

(** A Python [str]: its code points. *)
Definition pystr := list N.

(** The code points of an ASCII literal. *)
Definition py (s : string) : pystr := map N_of_ascii (list_ascii_of_string s).

(** [str.isspace] on one character: CPython's [_PyUnicode_IsWhitespace]. *)
Definition isspace (c : N) : bool :=
  ((9 <=? c) && (c <=? 13)) || ((28 <=? c) && (c <=? 32))
  || (c =? 133) || (c =? 160) || (c =? 5760)
  || ((8192 <=? c) && (c <=? 8202))
  || (c =? 8232) || (c =? 8233) || (c =? 8239) || (c =? 8287) || (c =? 12288).

Fixpoint drop_while (p : N -> bool) (s : pystr) : pystr :=
  match s with
  | [] => []
  | c :: s' => if p c then drop_while p s' else s
  end.

(** [s.lstrip(chars)] / [s.rstrip(chars)] / [s.strip(chars)] for a set of
    characters given as a predicate. *)
Definition lstrip_by (p : N -> bool) (s : pystr) : pystr := drop_while p s.
Definition rstrip_by (p : N -> bool) (s : pystr) : pystr :=
  rev (drop_while p (rev s)).
Definition strip_by (p : N -> bool) (s : pystr) : pystr :=
  rstrip_by p (lstrip_by p s).

(** [s.strip()] *)
Definition strip (s : pystr) : pystr := strip_by isspace s.

(** [c in chars] *)
Definition char_in (chars : pystr) (c : N) : bool :=
  existsb (N.eqb c) chars.

(** [s.split()]: the maximal runs of non-whitespace characters.
    [cur] is the run being read, reversed. *)
Fixpoint split_ws_from (cur : pystr) (s : pystr) : list pystr :=
  match s with
  | [] => match cur with [] => [] | _ => [rev cur] end
  | c :: s' =>
      if isspace c
      then match cur with
           | [] => split_ws_from [] s'
           | _ => rev cur :: split_ws_from [] s'
           end
      else split_ws_from (c :: cur) s'
  end.
Definition split_ws (s : pystr) : list pystr := split_ws_from [] s.

(** [s.split(sep)] for a one-character separator: every field, empty ones
    included. *)
Fixpoint split_on_from (sep : N) (cur : pystr) (s : pystr) : list pystr :=
  match s with
  | [] => [rev cur]
  | c :: s' =>
      if c =? sep then rev cur :: split_on_from sep [] s'
      else split_on_from sep (c :: cur) s'
  end.
Definition split_on (sep : N) (s : pystr) : list pystr :=
  split_on_from sep [] s.

(** [sep.join(parts)] *)
Fixpoint join (sep : pystr) (parts : list pystr) : pystr :=
  match parts with
  | [] => []
  | [x] => x
  | x :: rest => x ++ sep ++ join sep rest
  end.

(** [s.replace(old, new)] for one-character [old] and [new]. *)
Definition replace_char (old new : N) (s : pystr) : pystr :=
  map (fun c => if c =? old then new else c) s.

(** Truth value of a [str]: non-empty. *)
Definition str_bool (s : pystr) : bool :=
  match s with [] => false | _ => true end.

(** Truth value of an optional [str] ([None] is false). *)
Definition opt_str_bool (o : option pystr) : bool :=
  match o with Some s => str_bool s | None => false end.

(** [a or b] on an optional [str] with a [str] default. *)
Definition str_or (a : option pystr) (b : pystr) : pystr :=
  match a with
  | Some s => if str_bool s then s else b
  | None => b
  end.

Definition pystr_eqb (a b : pystr) : bool := bool_decide (a = b).

End Py.
Import Py.

(** ** werkzeug.utils.secure_filename (POSIX) *)

Module Werkzeug.

(** [_filename_ascii_strip_re = re.compile(r"[^A-Za-z0-9_.-]")]: the
    characters the expression leaves in place. *)
Definition filename_char_ok (c : N) : bool :=
  ((65 <=? c) && (c <=? 90)) || ((97 <=? c) && (c <=? 122))
  || ((48 <=? c) && (c <=? 57))
  || (c =? 95) || (c =? 46) || (c =? 45).

(** [filename.encode("ascii", "ignore").decode("ascii")] *)
Definition encode_ascii_ignore (s : pystr) : pystr :=
  List.filter (fun c => c <? 128) s.

Section secure_filename.
(** [unicodedata.normalize("NFKD", _)], a table of the Unicode database. *)
Variable normalize_NFKD : pystr -> pystr.

(** On POSIX [os.sep] is "/" and [os.path.altsep] is [None]; the branch
    for Windows device names does not apply. *)
Definition secure_filename (filename : pystr) : pystr :=
  let filename := normalize_NFKD filename in
  let filename := encode_ascii_ignore filename in
  let filename := replace_char 47 32 filename in
  strip_by (char_in (py "._"))
    (List.filter filename_char_ok (join (py "_") (split_ws filename))).
End secure_filename.

End Werkzeug.
Import Werkzeug.

(** ** pathlib.PurePosixPath *)

Module Pathlib.

(** The anchor of a path: none, the root "/", or the root "//" that
    POSIX leaves to the implementation and pathlib keeps apart. *)
Inductive anchor := Relative | Root | DoubleRoot.

Definition is_anchored (a : anchor) : bool :=
  match a with Relative => false | _ => true end.

(** A path: its anchor and its parts after the anchor. *)
Record Path := mkPath { anchor_of_path : anchor; parts : list pystr }.

(** A path component that pathlib keeps: not empty and not ".". *)
Definition kept_part (c : pystr) : bool :=
  negb (pystr_eqb c []) && negb (pystr_eqb c (py ".")).

Definition parse_parts (s : pystr) : list pystr :=
  List.filter kept_part (split_on 47 s).

Definition is_absolute_str (s : pystr) : bool :=
  match s with 47 :: _ => true | _ => false end.

(** The anchor of a path given as text: exactly two leading slashes make
    the root "//", one slash or three and more make the root "/". *)
Definition anchor_of (s : pystr) : anchor :=
  if is_absolute_str s then
    match s with
    | _ :: rest =>
        if is_absolute_str rest && negb (is_absolute_str (tl rest))
        then DoubleRoot else Root
    | [] => Root
    end
  else Relative.

(** [Path(s)] *)
Definition Path_of (s : pystr) : Path :=
  mkPath (anchor_of s) (parse_parts s).

(** [p / s]: an absolute right operand replaces the left one. *)
Definition joinpath (p : Path) (s : pystr) : Path :=
  if is_absolute_str s then Path_of s
  else mkPath (anchor_of_path p) (parts p ++ parse_parts s).

(** [str(p)] *)
Definition Path_str (p : Path) : pystr :=
  match anchor_of_path p, parts p with
  | Root, ps => 47 :: join [47] ps
  | DoubleRoot, ps => 47 :: 47 :: join [47] ps
  | Relative, [] => py "."
  | Relative, ps => join [47] ps
  end.

(** [p.name]: the final part, or "" when there is none. *)
Definition Path_name (p : Path) : pystr := List.last (parts p) [].

End Pathlib.
Import Pathlib.

(** ** The file system *)

Module Fs.

Definition bytes := list N.

Inductive node := Dir | File (content : bytes).

(** Keys are resolved absolute paths, as lists of components ([[]] is the
    root). *)
Abbreviation FS := (gmap (list pystr) node).

(** How the kernel walks the components of a path string: ".." moves to the
    parent (the root is its own parent); symbolic links are not modelled. *)
Definition walk (base : list pystr) (comps : list pystr) : list pystr :=
  fold_left (fun at_ c => if pystr_eqb c (py "..") then removelast at_
                          else at_ ++ [c]) comps base.

(** The node a path string denotes for a process whose working directory is
    [cwd]. *)
Definition os_target (cwd : list pystr) (s : pystr) : list pystr :=
  walk (if is_absolute_str s then [] else cwd) (parse_parts s).

Definition parent (p : list pystr) : list pystr := removelast p.

(** [shutil.rmtree(p, ignore_errors=True)]: [p] and everything below it. *)
Definition remove_tree (p : list pystr) (fs : FS) : FS :=
  filter (fun kv => ¬ p `prefix_of` kv.1) fs.

End Fs.
Import Fs.

(** ** Exceptions *)

Module Exn.

(** The exceptions of class [Exception], the ones the handler's
    [except Exception] catches. [SystemExit], [KeyboardInterrupt] and
    [GeneratorExit], which that clause lets through, are not values of
    this type. *)
Inductive exn :=
| KeyError (key : pystr)
| AttributeError (type_name attr : pystr)
| IsADirectoryError (path : pystr)
| FileNotFoundError (path : pystr)
| NotADirectoryError (path : pystr)
| Raised (message : pystr).   (* raised by a collaborator or a library *)

(** [repr] of text that has no quote, backslash or control character. *)
Definition repr (s : pystr) : pystr := py "'" ++ s ++ py "'".

(** [str(e)] *)
Definition exn_str (e : exn) : pystr :=
  match e with
  | KeyError key => repr key
  | AttributeError type_name attr =>
      repr type_name ++ py " object has no attribute " ++ repr attr
  | IsADirectoryError path => py "[Errno 21] Is a directory: " ++ repr path
  | FileNotFoundError path =>
      py "[Errno 2] No such file or directory: " ++ repr path
  | NotADirectoryError path => py "[Errno 20] Not a directory: " ++ repr path
  | Raised message => message
  end.

Inductive result (A : Type) : Type :=
| Ok (a : A)
| Raise (e : exn).
Arguments Ok {A} a.
Arguments Raise {A} e.

End Exn.
Import Exn.

(** ** The request, the configuration and the collaborators *)

Module Flask.

(** [werkzeug.datastructures.FileStorage]: the declared file name and the
    uploaded bytes. *)
Record FileStorage := mkFile { filename : option pystr; stream : bytes }.

(** [FileStorage.__bool__] is [bool(self.filename)]. *)
Definition FileStorage_bool (f : FileStorage) : bool :=
  opt_str_bool (filename f).

(** The value of [request.get_json()]. *)
#[local] Set Warnings "-register-all".
Inductive json :=
| JNull
| JBool (b : bool)
| JNum (z : Z)
| JFloat (x : spec_float)
| JStr (s : pystr)
| JList (l : list json)
| JDict (d : list (pystr * json)).

Definition json_bool (j : json) : bool :=
  match j with
  | JNull => false
  | JBool b => b
  | JNum z => negb (Z.eqb z 0)
  | JFloat x => match x with S754_zero _ => false | _ => true end
  | JStr s => str_bool s
  | JList l => match l with [] => false | _ => true end
  | JDict d => match d with [] => false | _ => true end
  end.

(** [type(j).__name__] *)
Definition json_type_name (j : json) : pystr :=
  match j with
  | JNull => py "NoneType"
  | JBool _ => py "bool"
  | JNum _ => py "int"
  | JFloat _ => py "float"
  | JStr _ => py "str"
  | JList _ => py "list"
  | JDict _ => py "dict"
  end.

(** [d.get(key)] on the items of a dict or of a MultiDict (whose [get] and
    [to_dict] take the first value of a key). *)
Fixpoint dict_get {V : Type} (d : list (pystr * V)) (key : pystr) : option V :=
  match d with
  | [] => None
  | (k, v) :: rest => if pystr_eqb k key then Some v else dict_get rest key
  end.

(** [MultiDict.getlist(key)] *)
Definition getlist {V : Type} (d : list (pystr * V)) (key : pystr) : list V :=
  map snd (List.filter (fun kv => pystr_eqb (fst kv) key) d).

(** The body of the request: [request.is_json] with the outcome of
    [request.get_json()], or [request.form] and [request.files]. *)
Inductive Request :=
| JsonRequest (get_json : result json)
| FormRequest (form : list (pystr * pystr)) (files : list (pystr * FileStorage)).

(** [current_app.config]; a key that is not set is [None] here and a
    [KeyError] in [config[key]]. *)
Record Config := mkConfig {
  GOOGLE_API_KEY : option pystr;
  GOOGLE_API_BASE : option pystr;
  UPLOAD_FOLDER : option pystr;
  DEFAULT_ASPECT_RATIO : option pystr;
  DEFAULT_RESOLUTION : option pystr
}.

End Flask.
Import Flask.

Module Services.

(** A row of [models.Project]. *)
Record Project := mkProject { id : pystr; updated_at : N }.

(** What [AIService.generate_image] returns when it returns an image. *)
Record Image := mkImage { image_data : bytes }.

(** The keyword arguments of [ai_service.generate_image]. *)
Record GenArgs := mkGenArgs {
  prompt : pystr;
  ref_image_path : option pystr;
  aspect_ratio : pystr;
  resolution : pystr;
  additional_ref_images : option (list pystr)
}.

(** The collaborators of the handler, none of which is part of the
    controller: the database, the two services, the process environment and
    the choices of the standard library. Each may raise; the services may
    also change the file system. *)
Record Env := mkEnv {
  normalize_NFKD : pystr -> pystr;
  cwd : list pystr;
  (* Project.query.get(project_id) *)
  Project_query_get : pystr -> result (option Project);
  (* bool(project) *)
  Project_bool : Project -> bool;
  (* AIService(api_key, api_base) *)
  AIService_init : pystr -> pystr -> result unit;
  (* FileService(upload_folder) *)
  FileService_init : pystr -> FS -> result unit * FS;
  (* the directory tempfile.mkdtemp(dir=...) makes, as the path it returns *)
  mkdtemp_pick : pystr -> FS -> result pystr;
  (* what makes open(dst, "wb") fail beyond the shape of the file tree: a
     name that is too long, a permission, a full or read-only disk *)
  open_fault : pystr -> FS -> option exn;
  (* what makes the copy of the bytes into the file opened at dst, or its
     closing, fail: the error and the bytes that had reached the file *)
  write_fault : pystr -> bytes -> FS -> option (exn * bytes);
  (* ai_service.generate_image(...) *)
  generate_image : GenArgs -> FS -> result (option Image) * FS;
  (* bool(image) *)
  Image_bool : Image -> bool;
  (* file_service.save_material_image(image, project_id) *)
  save_material_image : option Image -> pystr -> FS -> result pystr * FS;
  (* file_service.get_file_url(project_id, file_type, filename) *)
  get_file_url : pystr -> pystr -> pystr -> result pystr;
  (* db.session.commit() *)
  session_commit : result unit
}.

End Services.
Import Services.

(** ** Responses *)

Module Utils.

(** The values the handler returns, named after the helpers of [utils]
    that build them. *)
Inductive Response :=
| success_response (image_url relative_path : pystr)
| error_response (code message : pystr) (status : N)
| not_found (resource : pystr)
| bad_request (message : pystr).

(** Modelled from the spec: the helpers [success_response], [not_found] and
    [bad_request] of [utils] are not part of the controller; the spec gives
    their HTTP statuses as 200-class, 404 and 400. [error_response] is given
    its status by the caller. *)
Definition status_code (r : Response) : N :=
  match r with
  | success_response _ _ => 200
  | error_response _ _ status => status
  | not_found _ => 404
  | bad_request _ => 400
  end.

End Utils.
Import Utils.

(** ** The monad of the handler *)

Module Run.

(** What the handler does to the world, in order. *)
Inductive Event :=
| EvMkdtemp (made : pystr) (dir : list pystr)
    (* tempfile.mkdtemp returned [made], the directory [dir] *)
| EvSave (file : FileStorage) (target : list pystr) (outcome : result unit)
    (* file.save(...) opened [target] for writing *)
| EvGenerate (args : GenArgs) (fs : FS) (outcome : result (option Image))
    (* ai_service.generate_image called with [args] on the file system [fs] *)
| EvSaveMaterial (image : option Image) (project_id : pystr)
    (outcome : result pystr)
| EvRmtree (dir : list pystr)
| EvCommit
| EvRollback.

(** A computation: from the file system to a value or an exception, the new
    file system and the events of the computation. *)
Definition M (A : Type) : Type := FS -> result A * FS * list Event.

Definition ret {A} (a : A) : M A := fun fs => (Ok a, fs, []).

Definition raise {A} (e : exn) : M A := fun fs => (Raise e, fs, []).

Definition bind {A B} (m : M A) (k : A -> M B) : M B :=
  fun fs =>
    match m fs with
    | (Ok a, fs1, t1) =>
        match k a fs1 with (r, fs2, t2) => (r, fs2, t1 ++ t2) end
    | (Raise e, fs1, t1) => (Raise e, fs1, t1)
    end.

Definition emit (ev : Event) : M unit := fun fs => (Ok tt, fs, [ev]).

Definition get_fs : M FS := fun fs => (Ok fs, fs, []).

Definition lift {A} (r : result A) : M A := fun fs => (r, fs, []).

(** The three components of the outcome of a run. *)
Definition value_of {A} (o : result A * FS * list Event) : result A := o.1.1.
Definition fs_of {A} (o : result A * FS * list Event) : FS := o.1.2.
Definition trace_of {A} (o : result A * FS * list Event) : list Event := o.2.

(** [try: body finally: cleanup] *)
Definition try_finally {A} (body : M A) (cleanup : M unit) : M A :=
  fun fs =>
    match body fs with
    | (r, fs1, t1) =>
        match cleanup fs1 with
        | (Ok _, fs2, t2) => (r, fs2, t1 ++ t2)
        | (Raise e, fs2, t2) => (Raise e, fs2, t1 ++ t2)
        end
    end.

(** [try: body except Exception as e: handler(e)] *)
Definition try_except {A} (body : M A) (handler : exn -> M A) : M A :=
  fun fs =>
    match body fs with
    | (Ok a, fs1, t1) => (Ok a, fs1, t1)
    | (Raise e, fs1, t1) =>
        match handler e fs1 with (r, fs2, t2) => (r, fs2, t1 ++ t2) end
    end.

End Run.
Import Run.

(** Equality of the values that occur in events is decidable. *)
Module Decide.

#[export] Instance FileStorage_eq_dec : EqDecision FileStorage.
Proof. solve_decision. Defined.
#[export] Instance exn_eq_dec : EqDecision exn.
Proof. solve_decision. Defined.
#[export] Instance result_eq_dec {A} `{EqDecision A} : EqDecision (result A).
Proof. solve_decision. Defined.
#[export] Instance node_eq_dec : EqDecision node.
Proof. solve_decision. Defined.
#[export] Instance Image_eq_dec : EqDecision Image.
Proof. solve_decision. Defined.
#[export] Instance GenArgs_eq_dec : EqDecision GenArgs.
Proof. solve_decision. Defined.
#[export] Instance Event_eq_dec : EqDecision Event.
Proof. solve_decision. Defined.

End Decide.
Import Decide.

Declare Scope py_scope.
Delimit Scope py_scope with py.
Notation "'let!' x := m 'in' k" := (bind m (fun x => k))
  (at level 10, x name, m at level 100, k at level 200,
   format "'[v' 'let!'  x  :=  m  'in' '/' k ']'") : py_scope.
Notation "'run!' m 'in' k" := (bind m (fun _ => k))
  (at level 10, m at level 100, k at level 200,
   format "'[v' 'run!'  m  'in' '/' k ']'") : py_scope.
Local Open Scope py_scope.

(** ** The operating system and the libraries, as computations *)

Section handler.
Variable E : Env.
Variable config : Config.
Variable request : Request.

(** [current_app.config[key]] *)
Definition config_get (key : string) (value : option pystr) : M pystr :=
  match value with
  | Some v => ret v
  | None => raise (KeyError (py key))
  end.

(** [tempfile.mkdtemp(dir=dir)]: makes a directory and returns its
    absolute path. *)
Definition tempfile_mkdtemp (dir : pystr) : M pystr :=
  fun fs =>
    match mkdtemp_pick E dir fs with
    | Raise e => (Raise e, fs, [])
    | Ok s =>
        let target := os_target (cwd E) s in
        (Ok s, <[target := Dir]> fs, [EvMkdtemp s target])
    end.

(** [open(dst, "wb")] on [target], the node [dst] denotes: the system may
    refuse it for a reason of its own; otherwise the file tree decides. *)
Definition open_for_writing (fs : FS) (target : list pystr) (dst : pystr)
    : result unit :=
  match open_fault E dst fs with
  | Some e => Raise e
  | None =>
      match fs !! target with
      | Some Dir => Raise (IsADirectoryError dst)
      | _ =>
          match fs !! parent target with
          | Some Dir => Ok tt
          | Some (File _) => Raise (NotADirectoryError dst)
          | None => Raise (FileNotFoundError dst)
          end
      end
  end.

(** [f.save(dst)]: [open(dst, "wb")], then the bytes of the upload are
    copied into the file and the file is closed; a copy that fails leaves
    the file with the bytes that reached it. *)
Definition FileStorage_save (f : FileStorage) (dst : pystr) : M unit :=
  fun fs =>
    let target := os_target (cwd E) dst in
    match open_for_writing fs target dst with
    | Raise e => (Raise e, fs, [EvSave f target (Raise e)])
    | Ok _ =>
        match write_fault E dst (stream f) fs with
        | Some (e, reached) =>
            (Raise e, <[target := File reached]> fs,
             [EvSave f target (Raise e)])
        | None =>
            (Ok tt, <[target := File (stream f)]> fs,
             [EvSave f target (Ok tt)])
        end
    end.

(** [p.exists()] *)
Definition Path_exists (p : Path) : M bool :=
  fun fs =>
    (Ok (bool_decide (is_Some (fs !! os_target (cwd E) (Path_str p)))), fs, []).

(** [shutil.rmtree(p, ignore_errors=True)] *)
Definition shutil_rmtree (p : Path) : M unit :=
  fun fs =>
    let target := os_target (cwd E) (Path_str p) in
    (Ok tt, remove_tree target fs, [EvRmtree target]).

(** [db.session.commit()] and [db.session.rollback()] *)
Definition db_session_commit : M unit :=
  run! lift (session_commit E) in emit EvCommit.
Definition db_session_rollback : M unit := emit EvRollback.

(** The calls into the services. *)
Definition ai_service_generate_image (args : GenArgs) : M (option Image) :=
  fun fs =>
    match generate_image E args fs with
    | (r, fs') => (r, fs', [EvGenerate args fs r])
    end.

Definition file_service_save_material_image (image : option Image)
    (project_id : pystr) : M pystr :=
  fun fs =>
    match save_material_image E image project_id fs with
    | (r, fs') => (r, fs', [EvSaveMaterial image project_id r])
    end.

Definition new_FileService (upload_folder : pystr) : M unit :=
  fun fs =>
    match FileService_init E upload_folder fs with
    | (r, fs') => (r, fs', [])
    end.

(** Truth values: [bool(project)], [bool(image)] with [None] false. *)
Definition project_truthy (project : option Project) : bool :=
  match project with Some p => Project_bool E p | None => false end.
Definition image_truthy (image : option Image) : bool :=
  match image with Some i => Image_bool E i | None => false end.

(** ** The handler *)

(** [data.get('prompt', '')] *)
Definition data_get_prompt (data : json) : M json :=
  match data with
  | JDict d =>
      ret (match dict_get d (py "prompt") with
           | Some v => v
           | None => JStr []
           end)
  | _ => raise (AttributeError (json_type_name data) (py "get"))
  end.

(** [v.strip()] *)
Definition json_strip (v : json) : M pystr :=
  match v with
  | JStr s => ret (strip s)
  | _ => raise (AttributeError (json_type_name v) (py "strip"))
  end.

(** Lines 33-43: the prompt, the main reference image and the extra
    reference images of the request. *)
Definition parse_request : M (pystr * option FileStorage * list FileStorage) :=
  match request with
  | JsonRequest get_json =>
      let! body := lift get_json in
      let data := if json_bool body then body else JDict [] in
      let! v := data_get_prompt data in
      let! prompt := json_strip v in
      let ref_file := None in
      let extra_files := [] in
      ret (prompt, ref_file, extra_files)
  | FormRequest form files =>
      let data := form in
      let prompt := strip (str_or (dict_get data (py "prompt")) []) in
      let ref_file := dict_get files (py "ref_image") in
      let extra_files := getlist files (py "extra_images") in
      ret (prompt, ref_file, extra_files)
  end.

(** Lines 58-63: the main reference image, when there is one. *)
Definition save_ref_file (temp_dir : Path) (ref_file : option FileStorage)
    : M (option Path) :=
  match ref_file with
  | Some f =>
      if FileStorage_bool f && opt_str_bool (filename f) then
        let ref_filename :=
          secure_filename (normalize_NFKD E) (str_or (filename f) (py "ref.png")) in
        let ref_path := joinpath temp_dir ref_filename in
        run! FileStorage_save f (Path_str ref_path) in
        ret (Some ref_path)
      else ret None
  | None => ret None
  end.

(** Lines 66-73: the loop over the extra reference images. *)
Fixpoint save_extra_files (temp_dir : Path) (extra_files : list FileStorage)
    (additional_ref_images : list pystr) : M (list pystr) :=
  match extra_files with
  | [] => ret additional_ref_images
  | extra :: rest =>
      if negb (FileStorage_bool extra) || negb (opt_str_bool (filename extra))
      then save_extra_files temp_dir rest additional_ref_images
      else
        let extra_filename :=
          secure_filename (normalize_NFKD E) (default [] (filename extra)) in
        let extra_path := joinpath temp_dir extra_filename in
        run! FileStorage_save extra (Path_str extra_path) in
        save_extra_files temp_dir rest
          (additional_ref_images ++ [Path_str extra_path])
  end.

(** [xs or None] *)
Definition list_or_None (xs : list pystr) : option (list pystr) :=
  match xs with [] => None | _ => Some xs end.

(** Lines 58-73: the reference images are written into the temporary
    directory. *)
Definition save_reference_files (temp_dir : Path)
    (ref_file : option FileStorage) (extra_files : list FileStorage)
    : M (option Path * list pystr) :=
  let! ref_path := save_ref_file temp_dir ref_file in
  let! additional_ref_images := save_extra_files temp_dir extra_files [] in
  ret (ref_path, additional_ref_images).

(** Lines 75-104: the image is generated, stored, and the answer built. *)
Definition generate_and_store (project_id : pystr) (project : option Project)
    (prompt : pystr) (ref_path : option Path)
    (additional_ref_images : list pystr) : M Response :=
  let ref_image_path := option_map Path_str ref_path in
  let! aspect_ratio :=
    config_get "DEFAULT_ASPECT_RATIO" (DEFAULT_ASPECT_RATIO config) in
  let! resolution :=
    config_get "DEFAULT_RESOLUTION" (DEFAULT_RESOLUTION config) in
  let! image :=
    ai_service_generate_image
      (mkGenArgs prompt ref_image_path aspect_ratio resolution
         (list_or_None additional_ref_images)) in
  if negb (image_truthy image) then
    ret (error_response (py "AI_SERVICE_ERROR")
           (py "Failed to generate image") 503)
  else
    let! relative_path :=
      file_service_save_material_image image project_id in
    let relative := Path_of relative_path in
    let filename := Path_name relative in
    let! image_url :=
      lift (get_file_url E project_id (py "materials") filename) in
    (* project.updated_at = project.updated_at *)
    run! db_session_commit in
    ret (success_response image_url relative_path).

(** Lines 58-104: the body of the inner [try]. *)
Definition workspace_body (project_id : pystr) (project : option Project)
    (prompt : pystr) (ref_file : option FileStorage)
    (extra_files : list FileStorage) (temp_dir : Path) : M Response :=
  let! saved := save_reference_files temp_dir ref_file extra_files in
  generate_and_store project_id project prompt (fst saved) (snd saved).

(** Lines 105-108: the [finally] clause. *)
Definition cleanup (temp_dir : Path) : M unit :=
  let! there := Path_exists temp_dir in
  if there then shutil_rmtree temp_dir else ret tt.

(** Lines 28-108: the body of the outer [try]. *)
Definition handler_body (project_id : pystr) : M Response :=
  let! project := lift (Project_query_get E project_id) in
  if negb (project_truthy project) then ret (not_found (py "Project"))
  else
    let! parsed := parse_request in
    match parsed with
    | (prompt, ref_file, extra_files) =>
        if negb (str_bool prompt) then
          ret (bad_request (py "prompt is required"))
        else
          let! api_key := config_get "GOOGLE_API_KEY" (GOOGLE_API_KEY config) in
          let! api_base :=
            config_get "GOOGLE_API_BASE" (GOOGLE_API_BASE config) in
          run! lift (AIService_init E api_key api_base) in
          let! upload_folder :=
            config_get "UPLOAD_FOLDER" (UPLOAD_FOLDER config) in
          run! new_FileService upload_folder in
          let! upload_folder :=
            config_get "UPLOAD_FOLDER" (UPLOAD_FOLDER config) in
          let! made := tempfile_mkdtemp upload_folder in
          let temp_dir := Path_of made in
          try_finally
            (workspace_body project_id project prompt ref_file extra_files
               temp_dir)
            (cleanup temp_dir)
    end.

(** Lines 110-112: the [except Exception] clause. *)
Definition on_exception (e : exn) : M Response :=
  run! db_session_rollback in
  ret (error_response (py "AI_SERVICE_ERROR") (exn_str e) 503).

(** [generate_material_image(project_id)], lines 18-112. *)
Definition generate_material_image (project_id : pystr) : M Response :=
  try_except (handler_body project_id) on_exception.

End handler.


(** ** Notions used in the statements *)

Module Notions.

(** A name that denotes an entry of the directory it is joined to: not
    empty, without separator, and neither "." nor "..". *)
Definition plain_name (n : pystr) : Prop :=
  n <> [] /\ ~ In 47 n /\ n <> py "." /\ n <> py "..".

(** [target] is an entry directly inside the directory [dir]. *)
Definition strictly_inside (dir target : list pystr) : Prop :=
  exists n, plain_name n /\ target = dir ++ [n].

(** A part as pathlib keeps it: without separator, not empty and not ".". *)
Definition part_ok (c : pystr) : Prop := ~ In 47 c /\ kept_part c = true.

(** An upload that counts as supplied: it has a non-empty declared name. *)
Definition named (f : FileStorage) : bool := opt_str_bool (filename f).

(** The main reference image of a request, when one is supplied. *)
Definition valid_ref (ref_file : option FileStorage) : option FileStorage :=
  match ref_file with
  | Some f => if named f then Some f else None
  | None => None
  end.

(** The uploads the handler writes, in the order it writes them. *)
Definition uploads (ref_file : option FileStorage)
    (extra_files : list FileStorage) : list FileStorage :=
  option_list (valid_ref ref_file) ++ List.filter named extra_files.

Section in_env.
Variable E : Env.

(** The base name an upload is stored under. *)
Definition sanitized (f : FileStorage) : pystr :=
  secure_filename (normalize_NFKD E) (default [] (filename f)).

(** The path, as text, an upload is stored at when the temporary directory
    is the one [mkdtemp] returned as [made]; and the node it denotes. *)
Definition stored_path (made : pystr) (f : FileStorage) : pystr :=
  Path_str (joinpath (Path_of made) (sanitized f)).
Definition write_target (made : pystr) (f : FileStorage) : list pystr :=
  os_target (cwd E) (stored_path made f).

(** The uploads written one after the other, up to the first write that
    raises. *)
Fixpoint write_all (made : pystr) (us : list FileStorage) : M unit :=
  match us with
  | [] => ret tt
  | f :: rest =>
      run! FileStorage_save E f (stored_path made f) in
      write_all made rest
  end.

(** The file system after the uploads [us] have all been written. *)
Definition written (made : pystr) (us : list FileStorage) (fs : FS) : FS :=
  fold_left (fun fs f => <[write_target made f := File (stream f)]> fs) us fs.
End in_env.

(** The last of the uploads [us] written at [target], if any. *)
Definition last_writer (E : Env) (made : pystr) (target : list pystr)
    (us : list FileStorage) : option FileStorage :=
  fold_left
    (fun found g =>
       if bool_decide (write_target E made g = target) then Some g else found)
    us None.

(** The runs of lines 76-104, from the call of [generate_image] with the
    arguments [a] on the file system [fs]: one constructor for each way the
    block ends. *)
Inductive generated (E : Env) (project_id : pystr) (a : GenArgs) (fs : FS)
    : result Response -> FS -> list Event -> Prop :=
| generate_raises e fs1 :
    generate_image E a fs = (Raise e, fs1) ->
    generated E project_id a fs (Raise e) fs1 [EvGenerate a fs (Raise e)]
| generate_no_image image fs1 :
    generate_image E a fs = (Ok image, fs1) ->
    image_truthy E image = false ->
    generated E project_id a fs
      (Ok (error_response (py "AI_SERVICE_ERROR")
             (py "Failed to generate image") 503))
      fs1 [EvGenerate a fs (Ok image)]
| store_raises image fs1 e fs2 :
    generate_image E a fs = (Ok image, fs1) ->
    image_truthy E image = true ->
    save_material_image E image project_id fs1 = (Raise e, fs2) ->
    generated E project_id a fs (Raise e) fs2
      [EvGenerate a fs (Ok image);
       EvSaveMaterial image project_id (Raise e)]
| url_raises image fs1 relative_path fs2 e :
    generate_image E a fs = (Ok image, fs1) ->
    image_truthy E image = true ->
    save_material_image E image project_id fs1 = (Ok relative_path, fs2) ->
    get_file_url E project_id (py "materials")
      (Path_name (Path_of relative_path)) = Raise e ->
    generated E project_id a fs (Raise e) fs2
      [EvGenerate a fs (Ok image);
       EvSaveMaterial image project_id (Ok relative_path)]
| commit_raises image fs1 relative_path fs2 image_url e :
    generate_image E a fs = (Ok image, fs1) ->
    image_truthy E image = true ->
    save_material_image E image project_id fs1 = (Ok relative_path, fs2) ->
    get_file_url E project_id (py "materials")
      (Path_name (Path_of relative_path)) = Ok image_url ->
    session_commit E = Raise e ->
    generated E project_id a fs (Raise e) fs2
      [EvGenerate a fs (Ok image);
       EvSaveMaterial image project_id (Ok relative_path)]
| stored image fs1 relative_path fs2 image_url :
    generate_image E a fs = (Ok image, fs1) ->
    image_truthy E image = true ->
    save_material_image E image project_id fs1 = (Ok relative_path, fs2) ->
    get_file_url E project_id (py "materials")
      (Path_name (Path_of relative_path)) = Ok image_url ->
    session_commit E = Ok tt ->
    generated E project_id a fs
      (Ok (success_response image_url relative_path)) fs2
      [EvGenerate a fs (Ok image);
       EvSaveMaterial image project_id (Ok relative_path);
       EvCommit].

(** The kinds of events, and how many events of a kind a trace has. *)
Inductive kind :=
| KMkdtemp | KSave | KGenerate | KSaveMaterial | KRmtree | KCommit | KRollback.

Definition kind_of (ev : Event) : kind :=
  match ev with
  | EvMkdtemp _ _ => KMkdtemp
  | EvSave _ _ _ => KSave
  | EvGenerate _ _ _ => KGenerate
  | EvSaveMaterial _ _ _ => KSaveMaterial
  | EvRmtree _ => KRmtree
  | EvCommit => KCommit
  | EvRollback => KRollback
  end.

Definition kind_eqb (a b : kind) : bool :=
  match a, b with
  | KMkdtemp, KMkdtemp | KSave, KSave | KGenerate, KGenerate
  | KSaveMaterial, KSaveMaterial | KRmtree, KRmtree
  | KCommit, KCommit | KRollback, KRollback => true
  | _, _ => false
  end.

Definition count (k : kind) (tr : list Event) : nat :=
  length (List.filter (fun ev => kind_eqb (kind_of ev) k) tr).

(** The writes of uploads in a trace. *)
Definition saves (tr : list Event) : list Event :=
  List.filter (fun ev => kind_eqb (kind_of ev) KSave) tr.

(** Modelled from the spec: [FileService.save_material_image] is not part of
    the controller. The spec (4.4) has the storage capability return "a
    relative path of the form {projectId}/materials/{generatedFileName}";
    a generated file name is one path part. *)
Definition material_relative_path (project_id file_name : pystr) : pystr :=
  project_id ++ py "/materials/" ++ file_name.

(** Modelled from the spec: what the spec (4.4) says of every path that
    [FileService.save_material_image], which is not part of the controller,
    returns. *)
Definition storage_follows_spec (E : Env) : Prop :=
  forall image project_id fs relative_path fs',
    save_material_image E image project_id fs = (Ok relative_path, fs') ->
    exists file_name,
      part_ok file_name /\
      relative_path = material_relative_path project_id file_name.

(** A multipart request without the extra images that have no name. *)
Definition without_unnamed_extras (files : list (pystr * FileStorage))
    : list (pystr * FileStorage) :=
  List.filter
    (fun kv => negb (pystr_eqb (fst kv) (py "extra_images")) || named (snd kv))
    files.

(** A value with which the body of the outer [try] ends before it has made
    a temporary directory: an exception or one of the two refusals. *)
Definition early_value (v : result Response) : Prop :=
  match v with
  | Raise _ => True
  | Ok r => r = not_found (py "Project") \/ r = bad_request (py "prompt is required")
  end.

(** The text a request gives as its prompt: a missing prompt is the empty
    text, a JSON prompt that is not text is no prompt text. *)
Definition supplied_prompt (request : Request) : option pystr :=
  match request with
  | JsonRequest (Ok (JDict d)) =>
      match dict_get d (py "prompt") with
      | Some (JStr s) => Some s
      | Some _ => None
      | None => Some []
      end
  | JsonRequest _ => None
  | FormRequest form _ => Some (default [] (dict_get form (py "prompt")))
  end.

(** The uploads of a request, as the handler reads them: only a multipart
    request has any. *)
Definition ref_file_of (request : Request) : option FileStorage :=
  match request with
  | FormRequest _ files => dict_get files (py "ref_image")
  | JsonRequest _ => None
  end.
Definition extra_files_of (request : Request) : list FileStorage :=
  match request with
  | FormRequest _ files => getlist files (py "extra_images")
  | JsonRequest _ => []
  end.

(** The state of a request that has made its temporary directory: the
    prompt it carries on, the directory as [mkdtemp] returned it, and the
    file system just after that. *)
Record Workspace := mkWorkspace {
  ws_project : option Project;
  ws_prompt : pystr;
  ws_made : pystr;
  ws_fs : FS
}.

Definition enters_workspace (E : Env) (config : Config) (request : Request)
    (project_id : pystr) (fs : FS) (w : Workspace) : Prop :=
  exists api_key api_base upload_folder fs0 ref_file extra_files,
    Project_query_get E project_id = Ok (ws_project w) /\
    project_truthy E (ws_project w) = true /\
    parse_request request fs = (Ok (ws_prompt w, ref_file, extra_files), fs, []) /\
    ref_file = ref_file_of request /\ extra_files = extra_files_of request /\
    str_bool (ws_prompt w) = true /\
    GOOGLE_API_KEY config = Some api_key /\
    GOOGLE_API_BASE config = Some api_base /\
    AIService_init E api_key api_base = Ok tt /\
    UPLOAD_FOLDER config = Some upload_folder /\
    FileService_init E upload_folder fs = (Ok tt, fs0) /\
    mkdtemp_pick E upload_folder fs0 = Ok (ws_made w) /\
    ws_fs w = <[os_target (cwd E) (ws_made w) := Dir]> fs0.

(** The runs of lines 58-104, the body of the inner [try], in the workspace
    [w] of a request with the uploads [ref_file] and [extra_files]: the
    writes, then the configuration of the call, then the call. *)
Inductive in_workspace (E : Env) (config : Config) (project_id : pystr)
    (w : Workspace) (ref_file : option FileStorage)
    (extra_files : list FileStorage)
    : result Response -> FS -> list Event -> Prop :=
| write_raises e :
    let o := write_all E (ws_made w) (uploads ref_file extra_files) (ws_fs w) in
    value_of o = Raise e ->
    in_workspace E config project_id w ref_file extra_files
      (Raise e) (fs_of o) (trace_of o)
| config_missing key :
    let o := write_all E (ws_made w) (uploads ref_file extra_files) (ws_fs w) in
    value_of o = Ok tt ->
    DEFAULT_ASPECT_RATIO config = None \/ DEFAULT_RESOLUTION config = None ->
    in_workspace E config project_id w ref_file extra_files
      (Raise (KeyError key)) (fs_of o) (trace_of o)
| generate_called ar res r fs2 tg :
    let o := write_all E (ws_made w) (uploads ref_file extra_files) (ws_fs w) in
    value_of o = Ok tt ->
    DEFAULT_ASPECT_RATIO config = Some ar ->
    DEFAULT_RESOLUTION config = Some res ->
    generated E project_id
      (mkGenArgs (ws_prompt w)
         (option_map (stored_path E (ws_made w)) (valid_ref ref_file))
         ar res
         (list_or_None
            (map (stored_path E (ws_made w)) (List.filter named extra_files))))
      (fs_of o) r fs2 tg ->
    in_workspace E config project_id w ref_file extra_files
      r fs2 (trace_of o ++ tg).


End Notions.
Import Notions.

(** ** A concrete deployment, for examples *)

Module Scenario.

(** A POSIX host on which the application runs in [/srv], with one project
    "p1", an image service that returns an image and a storage service
    that writes it below the upload folder. *)
Definition the_image : Image := mkImage [137; 80; 78; 71].

Definition posix_env : Env := {|
  normalize_NFKD := fun s => s;
  cwd := [py "srv"];
  Project_query_get := fun pid =>
    if pystr_eqb pid (py "p1") then Ok (Some (mkProject pid 0)) else Ok None;
  Project_bool := fun _ => true;
  AIService_init := fun _ _ => Ok tt;
  FileService_init := fun _ fs => (Ok tt, fs);
  mkdtemp_pick := fun dir _ => Ok (dir ++ py "/tmpab12cd34");
  open_fault := fun dst _ =>
    if (255 <? N.of_nat (length (Path_name (Path_of dst))))%N
    then Some (Raised (py "[Errno 36] File name too long: " ++ repr dst))
    else None;
  write_fault := fun _ _ _ => None;
  generate_image := fun _ fs => (Ok (Some the_image), fs);
  Image_bool := fun _ => true;
  save_material_image := fun _ pid fs =>
    (Ok (pid ++ py "/materials/m1.png"),
     <[ [py "srv"; py "uploads"; pid; py "materials"; py "m1.png"]
        := File [137; 80; 78; 71] ]> fs);
  get_file_url := fun pid file_type name =>
    Ok (py "/files/" ++ pid ++ py "/" ++ file_type ++ py "/" ++ name);
  session_commit := Ok tt
|}.

(** The same host with an image service that returns no image. *)
Definition no_image_env : Env := {|
  normalize_NFKD := normalize_NFKD posix_env;
  cwd := cwd posix_env;
  Project_query_get := Project_query_get posix_env;
  Project_bool := Project_bool posix_env;
  AIService_init := AIService_init posix_env;
  FileService_init := FileService_init posix_env;
  mkdtemp_pick := mkdtemp_pick posix_env;
  open_fault := open_fault posix_env;
  write_fault := write_fault posix_env;
  generate_image := fun _ fs => (Ok None, fs);
  Image_bool := Image_bool posix_env;
  save_material_image := save_material_image posix_env;
  get_file_url := get_file_url posix_env;
  session_commit := session_commit posix_env
|}.

(** The same host with an image service that raises. *)
Definition failing_env : Env := {|
  normalize_NFKD := normalize_NFKD posix_env;
  cwd := cwd posix_env;
  Project_query_get := Project_query_get posix_env;
  Project_bool := Project_bool posix_env;
  AIService_init := AIService_init posix_env;
  FileService_init := FileService_init posix_env;
  mkdtemp_pick := mkdtemp_pick posix_env;
  open_fault := open_fault posix_env;
  write_fault := write_fault posix_env;
  generate_image := fun _ fs => (Raise (Raised (py "quota exceeded")), fs);
  Image_bool := Image_bool posix_env;
  save_material_image := save_material_image posix_env;
  get_file_url := get_file_url posix_env;
  session_commit := session_commit posix_env
|}.

(** The same host with a full disk: a file can be made, but no byte can
    be written to it. *)
Definition full_disk_env : Env := {|
  normalize_NFKD := normalize_NFKD posix_env;
  cwd := cwd posix_env;
  Project_query_get := Project_query_get posix_env;
  Project_bool := Project_bool posix_env;
  AIService_init := AIService_init posix_env;
  FileService_init := FileService_init posix_env;
  mkdtemp_pick := mkdtemp_pick posix_env;
  open_fault := open_fault posix_env;
  write_fault := fun _ content _ =>
    match content with
    | [] => None
    | _ => Some (Raised (py "[Errno 28] No space left on device"), [])
    end;
  generate_image := generate_image posix_env;
  Image_bool := Image_bool posix_env;
  save_material_image := save_material_image posix_env;
  get_file_url := get_file_url posix_env;
  session_commit := session_commit posix_env
|}.

Definition app_config : Config :=
  mkConfig (Some (py "key")) (Some (py "https://api.example"))
    (Some (py "/srv/uploads")) (Some (py "16:9")) (Some (py "2K")).

Definition disk : FS :=
  {[ [] := Dir; [py "srv"] := Dir; [py "srv"; py "uploads"] := Dir ]}.

(** The temporary directory [posix_env] makes, as text and as a node. *)
Definition tmp_made : pystr := py "/srv/uploads/tmpab12cd34".
Definition tmp_dir : list pystr := [py "srv"; py "uploads"; py "tmpab12cd34"].

(** [{"prompt": "a red cube"}] *)
Definition json_cube : Request :=
  JsonRequest (Ok (JDict [(py "prompt", JStr (py "a red cube"))])).

(** [{"prompt": "  "}] *)
Definition json_blank : Request :=
  JsonRequest (Ok (JDict [(py "prompt", JStr (py "  "))])).

(** A form with a main reference image and three extra images, one of them
    without a name and two whose names sanitize to "a_b.png". *)
Definition evil_png : FileStorage := mkFile (Some (py "../../evil.png")) [1].
Definition a_b_first : FileStorage := mkFile (Some (py "a b.png")) [2].
Definition unnamed : FileStorage := mkFile (Some []) [3].
Definition a_b_second : FileStorage := mkFile (Some (py "a/b.png")) [4].

Definition uploads_form : list (pystr * pystr) :=
  [(py "prompt", py " a red cube ")].
Definition uploads_files : list (pystr * FileStorage) :=
  [(py "ref_image", evil_png); (py "extra_images", a_b_first);
   (py "extra_images", unnamed); (py "extra_images", a_b_second)].
Definition form_uploads : Request := FormRequest uploads_form uploads_files.

(** What [generate_image] is called with for [form_uploads], and the file
    system it is called on. *)
Definition a_b_path : pystr := py "/srv/uploads/tmpab12cd34/a_b.png".
Definition uploads_args : GenArgs :=
  mkGenArgs (py "a red cube") (Some (py "/srv/uploads/tmpab12cd34/evil.png"))
    (py "16:9") (py "2K") (Some [a_b_path; a_b_path]).
Definition uploads_fs : FS :=
  <[tmp_dir ++ [py "a_b.png"] := File (stream a_b_second)]>
    (<[tmp_dir ++ [py "evil.png"] := File (stream evil_png)]>
       (<[tmp_dir := Dir]> disk)).

(** What [generate_image] is called with for [json_cube]. *)
Definition cube_args : GenArgs :=
  mkGenArgs (py "a red cube") None (py "16:9") (py "2K") None.

(** [{"prompt": null}] *)
Definition json_null : Request :=
  JsonRequest (Ok (JDict [(py "prompt", JNull)])).

(** A form whose main reference image is declared as "../..". *)
Definition dot_dot : FileStorage := mkFile (Some (py "../..")) [5].
Definition form_dot_dot : Request :=
  FormRequest [(py "prompt", py "a red cube")] [(py "ref_image", dot_dot)].

(** A form whose first extra image has a name of 260 characters, longer
    than the 255 a directory entry may have, and whose second is "ok.png". *)
Definition long_name : pystr := repeat 97%N 256 ++ py ".png".
Definition too_long : FileStorage := mkFile (Some long_name) [6].
Definition ok_png : FileStorage := mkFile (Some (py "ok.png")) [7].
Definition form_too_long : Request :=
  FormRequest [(py "prompt", py "a red cube")]
    [(py "extra_images", too_long); (py "extra_images", ok_png)].

End Scenario.

(** ** Conditions on the collaborators *)

Module Conditions.

(** The services leave the file system as they find it. *)
Definition services_leave_files (E : Env) : Prop :=
  (forall u fs, snd (FileService_init E u fs) = fs) /\
  (forall a fs, snd (generate_image E a fs) = fs) /\
  (forall image pid fs, snd (save_material_image E image pid fs) = fs).

(** The directory [mkdtemp] makes in the configured upload folder, for a
    request that starts on the file system [fs], is made where nothing
    exists, at or below it. *)
Definition mkdtemp_is_fresh (E : Env) (config : Config) (fs : FS) : Prop :=
  forall u made,
    UPLOAD_FOLDER config = Some u ->
    mkdtemp_pick E u (snd (FileService_init E u fs)) = Ok made ->
    forall q,
      os_target (cwd E) made `prefix_of` q ->
      snd (FileService_init E u fs) !! q = None.

(** The system refuses none of the writes of the uploads of the request
    into the directory [mkdtemp] makes for it. *)
Definition writes_allowed (E : Env) (config : Config) (request : Request)
    (fs : FS) : Prop :=
  forall u made f fs',
    UPLOAD_FOLDER config = Some u ->
    mkdtemp_pick E u (snd (FileService_init E u fs)) = Ok made ->
    In f (uploads (ref_file_of request) (extra_files_of request)) ->
    open_fault E (stored_path E made f) fs' = None /\
    write_fault E (stored_path E made f) (stream f) fs' = None.

(** Every key the handler reads is set. *)
Definition config_complete (config : Config) : Prop :=
  GOOGLE_API_KEY config <> None /\ GOOGLE_API_BASE config <> None /\
  UPLOAD_FOLDER config <> None /\ DEFAULT_ASPECT_RATIO config <> None /\
  DEFAULT_RESOLUTION config <> None.

(** Every collaborator does its work: the constructors return, [mkdtemp]
    makes a directory, the image service returns an image that counts as
    one, the storage stores it and gives its URL, the commit passes. *)
Record all_well (E : Env) : Prop := {
  AIService_returns : forall k b, AIService_init E k b = Ok tt;
  FileService_returns : forall u fs, fst (FileService_init E u fs) = Ok tt;
  mkdtemp_returns : forall u fs, exists made, mkdtemp_pick E u fs = Ok made;
  image_returned :
    forall a fs,
      exists image,
        fst (generate_image E a fs) = Ok image /\ image_truthy E image = true;
  image_stored :
    forall image pid fs,
      exists relative_path,
        fst (save_material_image E image pid fs) = Ok relative_path;
  url_returned :
    forall pid file_type name, exists url, get_file_url E pid file_type name = Ok url;
  commit_passes : session_commit E = Ok tt
}.

(** The deployment of [Scenario] with a storage that keeps the material
    elsewhere than on the local disk. *)
Definition remote_env : Env := {|
  normalize_NFKD := normalize_NFKD Scenario.posix_env;
  cwd := cwd Scenario.posix_env;
  Project_query_get := Project_query_get Scenario.posix_env;
  Project_bool := Project_bool Scenario.posix_env;
  AIService_init := AIService_init Scenario.posix_env;
  FileService_init := FileService_init Scenario.posix_env;
  mkdtemp_pick := mkdtemp_pick Scenario.posix_env;
  open_fault := open_fault Scenario.posix_env;
  write_fault := write_fault Scenario.posix_env;
  generate_image := generate_image Scenario.posix_env;
  Image_bool := Image_bool Scenario.posix_env;
  save_material_image := fun _ pid fs => (Ok (pid ++ py "/materials/m1.png"), fs);
  get_file_url := get_file_url Scenario.posix_env;
  session_commit := session_commit Scenario.posix_env
|}.

(** [{"prompt": 7}], [null] and [["a red cube"]] as JSON bodies. *)
Definition json_number : Request :=
  JsonRequest (Ok (JDict [(py "prompt", JNum 7)])).
Definition json_null_body : Request := JsonRequest (Ok JNull).

(** [{"prompt": 1.5}] *)
Definition json_float : Request :=
  JsonRequest (Ok (JDict [(py "prompt", JFloat (S754_finite false 3 (-1)))])).
Definition json_list_body : Request :=
  JsonRequest (Ok (JList [JStr (py "a red cube")])).

(** A JSON request whose body cannot be read: [get_json] raises werkzeug's
    [BadRequest]. *)
Definition json_unreadable : Request :=
  JsonRequest
    (Raise (Raised (py "400 Bad Request: Failed to decode JSON object"))).

(** The configuration of [Scenario] without its API key, and without its
    default resolution. *)
Definition config_no_key : Config :=
  mkConfig None (Some (py "https://api.example")) (Some (py "/srv/uploads"))
    (Some (py "16:9")) (Some (py "2K")).
Definition config_no_resolution : Config :=
  mkConfig (Some (py "key")) (Some (py "https://api.example"))
    (Some (py "/srv/uploads")) (Some (py "16:9")) None.

End Conditions.

(** * Properties *)

(** ** Text *)

Section text_lemmas.
Implicit Types (s : pystr) (p : N -> bool).

Lemma drop_while_In p s c : In c (drop_while p s) -> In c s.
Proof.
  induction s as [|x s IH]; simpl; [tauto|].
  destruct (p x); simpl; tauto.
Qed.

Lemma drop_while_head p s :
  match drop_while p s with [] => True | c :: _ => p c = false end.
Proof.
  induction s as [|x s IH]; simpl; [exact I|].
  destruct (p x) eqn:Hx; [exact IH | exact Hx].
Qed.

Lemma drop_while_app_last p s c :
  p c = false -> drop_while p (s ++ [c]) = drop_while p s ++ [c].
Proof.
  intros Hc. induction s as [|x s IH]; simpl.
  - now rewrite Hc.
  - destruct (p x); [exact IH | reflexivity].
Qed.

Lemma strip_by_In p s c : In c (strip_by p s) -> In c s.
Proof.
  unfold strip_by, rstrip_by, lstrip_by. intros H.
  apply in_rev in H. apply drop_while_In in H. apply in_rev in H.
  now apply drop_while_In in H.
Qed.

Lemma strip_by_head p s :
  match strip_by p s with [] => True | c :: _ => p c = false end.
Proof.
  unfold strip_by, rstrip_by, lstrip_by.
  pose proof (drop_while_head p s) as Hh.
  destruct (drop_while p s) as [|c r]; simpl; [exact I|].
  rewrite (drop_while_app_last p (rev r) c Hh), rev_app_distr. simpl. exact Hh.
Qed.

Lemma strip_nil : strip [] = [].
Proof. reflexivity. Qed.

Lemma split_on_from_no_sep sep cur s :
  ~ In sep s -> split_on_from sep cur s = [rev cur ++ s].
Proof.
  revert cur. induction s as [|x s IH]; intros cur Hs; simpl.
  - now rewrite app_nil_r.
  - destruct (N.eqb_spec x sep) as [->|Hne].
    + exfalso. apply Hs. now left.
    + rewrite IH by (intros Hin; apply Hs; now right).
      simpl. now rewrite <- app_assoc.
Qed.

Lemma split_on_no_sep sep s : ~ In sep s -> split_on sep s = [s].
Proof. intros H. unfold split_on. now rewrite split_on_from_no_sep. Qed.

Lemma split_on_from_fields sep cur s :
  ~ In sep cur -> Forall (fun f => ~ In sep f) (split_on_from sep cur s).
Proof.
  revert cur. induction s as [|x s IH]; intros cur Hc; simpl.
  - constructor; [|constructor]. now rewrite <- in_rev.
  - destruct (N.eqb_spec x sep) as [->|Hne].
    + constructor; [now rewrite <- in_rev | apply IH; simpl; tauto].
    + apply IH. simpl. intros [H|H]; [congruence | tauto].
Qed.

(** Splitting [cur ++ field ++ sep ++ rest] starts with the field. *)
Lemma split_on_from_app sep cur f rest :
  ~ In sep f ->
  split_on_from sep cur (f ++ sep :: rest) =
  (rev cur ++ f) :: split_on_from sep [] rest.
Proof.
  revert cur. induction f as [|x f IH]; intros cur Hf; simpl.
  - rewrite N.eqb_refl. now rewrite app_nil_r.
  - destruct (N.eqb_spec x sep) as [->|Hne].
    + exfalso. apply Hf. now left.
    + rewrite IH by (intros Hin; apply Hf; now right).
      simpl. now rewrite <- app_assoc.
Qed.

Lemma split_on_cons_sep sep s : split_on sep (sep :: s) = [] :: split_on sep s.
Proof. unfold split_on. simpl. now rewrite N.eqb_refl. Qed.

Lemma split_on_join sep (ps : list pystr) :
  ps <> [] -> Forall (fun f => ~ In sep f) ps ->
  split_on sep (join [sep] ps) = ps.
Proof.
  intros Hne Hall. induction Hall as [|f ps Hf Hall IH]; [now destruct Hne|].
  destruct ps as [|g ps].
  - simpl. now apply split_on_no_sep.
  - change (join [sep] (f :: g :: ps)) with (f ++ sep :: join [sep] (g :: ps)).
    unfold split_on. rewrite split_on_from_app by exact Hf. simpl.
    f_equal. apply IH. discriminate.
Qed.

Lemma split_on_from_nonempty sep cur s : split_on_from sep cur s <> [].
Proof.
  revert cur. induction s as [|c s IH]; intros cur; simpl; [discriminate|].
  destruct (c =? sep); [discriminate | apply IH].
Qed.

Lemma split_on_from_last sep cur x n d :
  ~ In sep n -> List.last (split_on_from sep cur (x ++ sep :: n)) d = n.
Proof.
  intros Hn. revert cur. induction x as [|c x IH]; intros cur; simpl.
  - rewrite N.eqb_refl. now rewrite split_on_from_no_sep.
  - destruct (c =? sep); [|apply IH].
    specialize (IH []).
    destruct (split_on_from sep [] (x ++ sep :: n)) eqn:Hs; [|exact IH].
    now apply split_on_from_nonempty in Hs.
Qed.

Lemma split_on_last sep x n :
  ~ In sep n -> List.last (split_on sep (x ++ sep :: n)) [] = n.
Proof. apply split_on_from_last. Qed.
End text_lemmas.

(** ** File names and paths *)

Section path_lemmas.
Variable nfkd : pystr -> pystr.

Lemma secure_filename_chars name c :
  In c (secure_filename nfkd name) -> filename_char_ok c = true.
Proof.
  unfold secure_filename. intros H. apply strip_by_In in H.
  apply filter_In in H. tauto.
Qed.

Lemma secure_filename_no_sep name : ~ In 47 (secure_filename nfkd name).
Proof. intros H. apply secure_filename_chars in H. discriminate. Qed.

Lemma secure_filename_head name :
  match secure_filename nfkd name with
  | [] => True
  | c :: _ => c <> 46 /\ c <> 95
  end.
Proof.
  unfold secure_filename.
  match goal with |- context [strip_by ?p ?s] =>
    pose proof (strip_by_head p s) as H; destruct (strip_by p s) as [|c r]
  end; [exact I|].
  split; intros ->; discriminate.
Qed.

(** What [secure_filename] returns is empty or names a directory entry. *)
Lemma secure_filename_plain name :
  secure_filename nfkd name = [] \/ plain_name (secure_filename nfkd name).
Proof.
  pose proof (secure_filename_no_sep name) as Hsep.
  pose proof (secure_filename_head name) as Hh.
  destruct (secure_filename nfkd name) as [|c r]; [now left | right].
  destruct Hh as [Hdot _].
  repeat split; [discriminate | exact Hsep | |];
    intros H; vm_compute in H; congruence.
Qed.
End path_lemmas.

Lemma plain_name_kept n : plain_name n -> kept_part n = true.
Proof.
  intros (Hne & _ & Hdot & _). unfold kept_part, pystr_eqb.
  rewrite !bool_decide_eq_false_2 by assumption. reflexivity.
Qed.

Lemma parse_parts_plain n : plain_name n -> parse_parts n = [n].
Proof.
  intros Hn. unfold parse_parts.
  rewrite split_on_no_sep by apply Hn. simpl.
  now rewrite plain_name_kept.
Qed.

Lemma is_absolute_str_no_sep n : ~ In 47 n -> is_absolute_str n = false.
Proof.
  destruct n as [|c n]; [reflexivity|]. simpl. intros H.
  destruct (N.eq_dec c 47) as [->|Hne]; [exfalso; apply H; now left|].
  destruct c as [|q]; [reflexivity|].
  do 6 (destruct q as [q|q|]; try reflexivity). congruence.
Qed.

Lemma joinpath_plain p n :
  plain_name n -> joinpath p n = mkPath (anchor_of_path p) (parts p ++ [n]).
Proof.
  intros Hn. unfold joinpath.
  rewrite is_absolute_str_no_sep by apply Hn.
  now rewrite parse_parts_plain.
Qed.

Lemma joinpath_empty p : joinpath p [] = p.
Proof.
  unfold joinpath. simpl. unfold parse_parts. simpl.
  rewrite app_nil_r. now destruct p.
Qed.

Lemma parse_parts_ok s : Forall part_ok (parse_parts s).
Proof.
  unfold parse_parts. apply List.Forall_forall. intros c Hc.
  apply filter_In in Hc. destruct Hc as [Hc Hk]. split; [|exact Hk].
  pose proof (split_on_from_fields 47 [] s (fun H => H)) as Hall.
  rewrite List.Forall_forall in Hall. now apply Hall.
Qed.

Lemma filter_kept_all ps : Forall part_ok ps -> List.filter kept_part ps = ps.
Proof.
  induction 1 as [|c ps [_ Hk] _ IH]; simpl; [reflexivity|].
  now rewrite Hk, IH.
Qed.

Lemma Forall_part_ok_no_sep ps :
  Forall part_ok ps -> Forall (fun f => ~ In 47 f) ps.
Proof. apply List.Forall_impl. now intros c [H _]. Qed.

Lemma parse_parts_Path_str p :
  Forall part_ok (parts p) -> parse_parts (Path_str p) = parts p.
Proof.
  destruct p as [a ps]. unfold Path_str, parse_parts. cbn [anchor_of_path parts].
  intros Hok. destruct a.
  - destruct ps as [|c ps]; [reflexivity|].
    rewrite split_on_join; [|discriminate|now apply Forall_part_ok_no_sep].
    now apply filter_kept_all.
  - destruct ps as [|c ps]; [reflexivity|].
    rewrite split_on_cons_sep.
    rewrite split_on_join; [|discriminate|now apply Forall_part_ok_no_sep].
    change (List.filter kept_part (c :: ps) = c :: ps).
    now apply filter_kept_all.
  - destruct ps as [|c ps]; [reflexivity|].
    rewrite !split_on_cons_sep.
    rewrite split_on_join; [|discriminate|now apply Forall_part_ok_no_sep].
    change (List.filter kept_part (c :: ps) = c :: ps).
    now apply filter_kept_all.
Qed.

Lemma is_absolute_Path_str p :
  Forall part_ok (parts p) ->
  is_absolute_str (Path_str p) = is_anchored (anchor_of_path p).
Proof.
  destruct p as [a ps]. simpl. intros Hok. unfold Path_str. simpl.
  destruct a; [|reflexivity|reflexivity].
  destruct ps as [|c ps]; [reflexivity|].
  inversion Hok as [|? ? [Hsep Hk] _]; subst.
  destruct c as [|x c]; [discriminate|].
  assert (x <> 47) by (intros ->; apply Hsep; now left).
  assert (is_absolute_str (x :: c) = false) as Hc.
  { apply is_absolute_str_no_sep. exact Hsep. }
  destruct ps; simpl in *; exact Hc.
Qed.

Lemma os_target_Path_str cwd p :
  Forall part_ok (parts p) ->
  os_target cwd (Path_str p) =
  walk (if is_anchored (anchor_of_path p) then [] else cwd) (parts p).
Proof.
  intros Hok. unfold os_target.
  now rewrite parse_parts_Path_str, is_absolute_Path_str.
Qed.

Lemma is_anchored_anchor_of s : is_anchored (anchor_of s) = is_absolute_str s.
Proof.
  unfold anchor_of. destruct (is_absolute_str s) eqn:Hs; [|reflexivity].
  destruct s as [|c rest]; [reflexivity|].
  now destruct (is_absolute_str rest && negb (is_absolute_str (tl rest))).
Qed.

Lemma os_target_Path_of cwd s :
  os_target cwd (Path_str (Path_of s)) = os_target cwd s.
Proof.
  rewrite os_target_Path_str by apply parse_parts_ok.
  unfold Path_of. cbn [anchor_of_path parts].
  now rewrite is_anchored_anchor_of.
Qed.

Lemma walk_snoc base ps n :
  n <> py ".." -> walk base (ps ++ [n]) = walk base ps ++ [n].
Proof.
  intros Hn. unfold walk. rewrite fold_left_app. simpl.
  unfold pystr_eqb. now rewrite bool_decide_eq_false_2.
Qed.

Lemma plain_name_part_ok n : plain_name n -> part_ok n.
Proof. intros Hn. split; [apply Hn | now apply plain_name_kept]. Qed.

(** Where a file joined to the temporary directory under a plain name
    lands. *)
Lemma os_target_joinpath_plain cwd made n :
  plain_name n ->
  os_target cwd (Path_str (joinpath (Path_of made) n)) = os_target cwd made ++ [n].
Proof.
  intros Hn. rewrite joinpath_plain by exact Hn.
  rewrite os_target_Path_str; simpl.
  - rewrite walk_snoc by apply Hn. rewrite is_anchored_anchor_of. reflexivity.
  - apply Forall_app. split; [apply parse_parts_ok|].
    constructor; [now apply plain_name_part_ok | constructor].
Qed.

Lemma last_filter {A} (p : A -> bool) l d :
  l <> [] -> p (List.last l d) = true ->
  List.last (List.filter p l) d = List.last l d.
Proof.
  intros Hne Hp. rewrite (app_removelast_last d Hne) at 1.
  rewrite List.filter_app. cbn [List.filter]. rewrite Hp. apply last_last.
Qed.

(** The name of a path of the form [dir/name]. *)
Lemma Path_name_of_joined dir name :
  part_ok name -> Path_name (Path_of (dir ++ 47 :: name)) = name.
Proof.
  intros [Hsep Hk]. unfold Path_name, Path_of, parse_parts. cbn [parts].
  pose proof (split_on_last 47 dir name Hsep) as Hlast.
  rewrite last_filter; [exact Hlast | apply split_on_from_nonempty|].
  now rewrite Hlast.
Qed.

Lemma os_target_joinpath_empty cwd made :
  os_target cwd (Path_str (joinpath (Path_of made) [])) = os_target cwd made.
Proof. rewrite joinpath_empty. apply os_target_Path_of. Qed.

(** ** Runs of the handler *)

Ltac run_step :=
  match goal with
  | H : context [match ?x with _ => _ end] |- _ => destruct x eqn:?
  | |- context [match ?x with _ => _ end] => destruct x eqn:?
  end.

Section monad_lemmas.
Context {A B : Type}.
Implicit Types (m : M A) (k : A -> M B).

Lemma outcome_eta (o : result A * FS * list Event) :
  o = (value_of o, fs_of o, trace_of o).
Proof. now destruct o as [[? ?] ?]. Qed.

Lemma bind_ret a k fs : bind (ret a) k fs = k a fs.
Proof. unfold bind, ret. now destruct (k a fs) as [[? ?] ?]. Qed.

Lemma bind_lift_Ok a k fs : bind (lift (Ok a)) k fs = k a fs.
Proof. apply bind_ret. Qed.

Lemma bind_lift_Raise e k fs : bind (lift (Raise e)) k fs = (Raise e, fs, []).
Proof. reflexivity. Qed.

Lemma bind_raise e k fs : bind (raise e) k fs = (Raise e, fs, []).
Proof. reflexivity. Qed.

Lemma bind_Ok m k fs a fs1 t1 :
  m fs = (Ok a, fs1, t1) ->
  bind m k fs =
  (value_of (k a fs1), fs_of (k a fs1), t1 ++ trace_of (k a fs1)).
Proof. intros H. unfold bind. rewrite H. now destruct (k a fs1) as [[? ?] ?]. Qed.

Lemma bind_Ok_nil m k fs a fs1 :
  m fs = (Ok a, fs1, []) -> bind m k fs = k a fs1.
Proof. intros H. unfold bind. rewrite H. now destruct (k a fs1) as [[? ?] ?]. Qed.

Lemma bind_run m k fs :
  bind m k fs =
  match value_of (m fs) with
  | Ok a =>
      let o := k a (fs_of (m fs)) in
      (value_of o, fs_of o, trace_of (m fs) ++ trace_of o)
  | Raise e => (Raise e, fs_of (m fs), trace_of (m fs))
  end.
Proof.
  unfold bind. destruct (m fs) as [[[a|e] fs1] t1]; [|reflexivity].
  unfold value_of, fs_of, trace_of. cbn. now destruct (k a fs1) as [[? ?] ?].
Qed.

Lemma bind_inv m k fs r fs' tr :
  bind m k fs = (r, fs', tr) ->
  (exists a fs1 t1 t2,
     m fs = (Ok a, fs1, t1) /\ k a fs1 = (r, fs', t2) /\ tr = t1 ++ t2) \/
  (exists e, m fs = (Raise e, fs', tr) /\ r = Raise e).
Proof.
  unfold bind. destruct (m fs) as [[[a|e] fs1] t1].
  - destruct (k a fs1) as [[r2 fs2] t2] eqn:Hk. intros [= <- <- <-].
    left. now exists a, fs1, t1, t2.
  - intros [= <- <- <-]. right. now exists e.
Qed.

Lemma bind_Raise m k fs e fs1 t1 :
  m fs = (Raise e, fs1, t1) -> bind m k fs = (Raise e, fs1, t1).
Proof. intros H. unfold bind. now rewrite H. Qed.
End monad_lemmas.

Lemma parse_request_pure request fs :
  parse_request request fs = (value_of (parse_request request ∅), fs, []).
Proof.
  destruct request as [[j|e]|form files]; try reflexivity.
  unfold parse_request. rewrite !bind_lift_Ok.
  destruct (json_bool j).
  - destruct j as [| | | | |l|d]; try reflexivity.
    simpl. rewrite !bind_ret. destruct (dict_get d (py "prompt")) as [[]|]; reflexivity.
  - reflexivity.
Qed.

Lemma parse_request_files request fs prompt ref_file extra_files :
  parse_request request fs = (Ok (prompt, ref_file, extra_files), fs, []) ->
  ref_file = ref_file_of request /\ extra_files = extra_files_of request.
Proof.
  destruct request as [[j|e]|form files]; unfold parse_request, bind, lift, ret;
    simpl; intros H; repeat run_step; simplify_eq; auto.
Qed.

(** *** Writing the uploads *)

Section writes.
Variable E : Env.
Variable made : pystr.

Lemma named_str_or f d :
  named f = true -> str_or (filename f) d = default [] (filename f).
Proof.
  unfold named, opt_str_bool, str_or. destruct (filename f) as [s|]; [|discriminate].
  simpl. now intros ->.
Qed.

(** One write: the event it leaves, and its outcomes. *)
Lemma FileStorage_save_run f fs :
  let target := write_target E made f in
  let dst := stored_path E made f in
  FileStorage_save E f dst fs =
  match open_for_writing E fs target dst with
  | Raise e => (Raise e, fs, [EvSave f target (Raise e)])
  | Ok _ =>
      match write_fault E dst (stream f) fs with
      | Some (e, reached) =>
          (Raise e, <[target := File reached]> fs, [EvSave f target (Raise e)])
      | None =>
          (Ok tt, <[target := File (stream f)]> fs, [EvSave f target (Ok tt)])
      end
  end.
Proof. reflexivity. Qed.

(** The loop over the extra images writes the named ones, in order. *)
Lemma save_extra_files_write_all xs acc fs :
  save_extra_files E (Path_of made) xs acc fs =
  let o := write_all E made (List.filter named xs) fs in
  (match value_of o with
   | Ok _ => Ok (acc ++ map (stored_path E made) (List.filter named xs))
   | Raise e => Raise e
   end, fs_of o, trace_of o).
Proof.
  revert acc fs. induction xs as [|x xs IH]; intros acc fs.
  - simpl. now rewrite app_nil_r.
  - cbn [save_extra_files List.filter].
    change (FileStorage_bool x) with (named x).
    change (opt_str_bool (filename x)) with (named x).
    destruct (named x) eqn:Hx; cbn [negb orb]; [|apply IH].
    cbn [write_all].
    change (Path_str (joinpath (Path_of made)
              (secure_filename (normalize_NFKD E) (default [] (filename x)))))
      with (stored_path E made x).
    destruct (FileStorage_save E x (stored_path E made x) fs)
      as [[[[]|e] fs1] t1] eqn:Hsave.
    + rewrite !(bind_Ok _ _ _ _ _ _ Hsave). rewrite IH.
      cbn [map]. rewrite <- app_assoc. reflexivity.
    + rewrite !(bind_Raise _ _ _ _ _ _ Hsave). reflexivity.
Qed.

(** Lines 58-73 as one sequence of writes. *)
Lemma save_reference_files_write_all ref_file xs fs :
  save_reference_files E (Path_of made) ref_file xs fs =
  let o := write_all E made (uploads ref_file xs) fs in
  (match value_of o with
   | Ok _ =>
       Ok (option_map (fun f => joinpath (Path_of made) (sanitized E f))
             (valid_ref ref_file),
           map (stored_path E made) (List.filter named xs))
   | Raise e => Raise e
   end, fs_of o, trace_of o).
Proof.
  assert (forall (p : option Path) fs1,
    (let! additional_ref_images := save_extra_files E (Path_of made) xs [] in
     ret (p, additional_ref_images)) fs1 =
    let o := write_all E made (List.filter named xs) fs1 in
    (match value_of o with
     | Ok _ => Ok (p, map (stored_path E made) (List.filter named xs))
     | Raise e => Raise e
     end, fs_of o, trace_of o)) as Hextra.
  { intros p fs1. rewrite bind_run, save_extra_files_write_all. cbv zeta.
    destruct (write_all E made (List.filter named xs) fs1) as [[[[]|e] fs2] t2];
      unfold value_of, fs_of, trace_of; cbn; rewrite ?app_nil_r; reflexivity. }
  unfold save_reference_files, uploads, valid_ref, save_ref_file.
  destruct ref_file as [f|].
  - change (FileStorage_bool f) with (named f).
    change (opt_str_bool (filename f)) with (named f).
    destruct (named f) eqn:Hf; cbn [andb option_map].
    + rewrite (named_str_or f _ Hf).
      change (secure_filename (normalize_NFKD E) (default [] (filename f)))
        with (sanitized E f).
      change (Path_str (joinpath (Path_of made) (sanitized E f)))
        with (stored_path E made f).
      change (option_list (Some f) ++ List.filter named xs)
        with (f :: List.filter named xs).
      cbn [write_all].
      destruct (FileStorage_save E f (stored_path E made f) fs)
        as [[[[]|e] fs1] t1] eqn:Hsave.
      * assert ((run! FileStorage_save E f (stored_path E made f) in
                 ret (Some (joinpath (Path_of made) (sanitized E f)))) fs =
                (Ok (Some (joinpath (Path_of made) (sanitized E f))), fs1, t1))
          as Hfirst.
        { rewrite (bind_Ok _ _ _ _ _ _ Hsave). cbn. now rewrite app_nil_r. }
        rewrite (bind_Ok _ _ _ _ _ _ Hfirst), (bind_Ok _ _ _ _ _ _ Hsave).
        rewrite Hextra. cbv zeta.
        destruct (write_all E made (List.filter named xs) fs1)
          as [[[[]|e] fs2] t2]; reflexivity.
      * assert ((run! FileStorage_save E f (stored_path E made f) in
                 ret (Some (joinpath (Path_of made) (sanitized E f)))) fs =
                (Raise e, fs1, t1)) as Hfirst
          by (now rewrite (bind_Raise _ _ _ _ _ _ Hsave)).
        rewrite (bind_Raise _ _ _ _ _ _ Hfirst), (bind_Raise _ _ _ _ _ _ Hsave).
        reflexivity.
    + change (option_list None ++ List.filter named xs)
        with (List.filter named xs).
      rewrite bind_ret. apply Hextra.
  - change (option_list None ++ List.filter named xs)
      with (List.filter named xs).
    rewrite bind_ret. apply Hextra.
Qed.
End writes.

Section write_all_lemmas.
Variable E : Env.
Variable made : pystr.

Lemma write_all_cons f us fs :
  write_all E made (f :: us) fs =
  match open_for_writing E fs (write_target E made f) (stored_path E made f) with
  | Raise e => (Raise e, fs, [EvSave f (write_target E made f) (Raise e)])
  | Ok _ =>
      match write_fault E (stored_path E made f) (stream f) fs with
      | Some (e, reached) =>
          (Raise e, <[write_target E made f := File reached]> fs,
           [EvSave f (write_target E made f) (Raise e)])
      | None =>
          let o :=
            write_all E made us
              (<[write_target E made f := File (stream f)]> fs) in
          (value_of o, fs_of o,
           EvSave f (write_target E made f) (Ok tt) :: trace_of o)
      end
  end.
Proof.
  cbn [write_all]. rewrite bind_run, FileStorage_save_run. cbv zeta.
  destruct (open_for_writing E fs _ _) as [[]|e]; [|reflexivity].
  destruct (write_fault E _ _ fs) as [[e reached]|]; reflexivity.
Qed.

(** The three ways the first write of a sequence goes. *)
Ltac first_write fs Hopen :=
  rewrite write_all_cons;
  destruct (open_for_writing E fs _ _) as [[]|?e] eqn:Hopen;
    [destruct (write_fault E _ _ fs) as [[?e ?reached]|]|]; cbn.

Lemma write_all_events us fs ev :
  In ev (trace_of (write_all E made us fs)) ->
  exists f o, ev = EvSave f (write_target E made f) o /\ In f us.
Proof.
  revert fs. induction us as [|f us IH]; intros fs; [intros []|].
  first_write fs Hopen.
  - intros [<-|[]]. exists f, (Raise e). auto.
  - intros [<-|H]; [exists f, (Ok tt); auto|].
    apply IH in H as (g & o & -> & Hg). exists g, o. auto.
  - intros [<-|[]]. exists f, (Raise e). auto.
Qed.

Lemma write_all_Ok us fs :
  value_of (write_all E made us fs) = Ok tt ->
  trace_of (write_all E made us fs) =
    map (fun f => EvSave f (write_target E made f) (Ok tt)) us /\
  fs_of (write_all E made us fs) = written E made us fs.
Proof.
  revert fs. induction us as [|f us IH]; intros fs; [now split|].
  first_write fs Hopen; try discriminate.
  intros H. apply IH in H as [-> ->]. now split.
Qed.

Lemma open_for_writing_Dir fs target dst :
  fs !! target = Some Dir -> open_for_writing E fs target dst <> Ok tt.
Proof.
  unfold open_for_writing. intros ->. now destruct (open_fault E dst fs).
Qed.

(** A write leaves every directory in place. *)
Lemma write_all_keeps_Dir us fs q :
  fs !! q = Some Dir -> fs_of (write_all E made us fs) !! q = Some Dir.
Proof.
  revert fs. induction us as [|f us IH]; intros fs Hq; [exact Hq|].
  assert (open_for_writing E fs (write_target E made f) (stored_path E made f)
          = Ok tt -> write_target E made f <> q) as Hne
    by (intros Hopen <-; exact (open_for_writing_Dir _ _ _ Hq Hopen)).
  first_write fs Hopen.
  - unfold fs_of. cbn. rewrite lookup_insert_ne; [exact Hq | now apply Hne].
  - apply IH. rewrite lookup_insert_ne; [exact Hq | now apply Hne].
  - exact Hq.
Qed.

(** Where an upload is written: the temporary directory itself when its
    sanitized name is empty, an entry of it otherwise. *)
Lemma write_target_cases f :
  (sanitized E f = [] /\
   write_target E made f = os_target (cwd E) made) \/
  (plain_name (sanitized E f) /\
   write_target E made f = os_target (cwd E) made ++ [sanitized E f]).
Proof.
  unfold write_target, stored_path.
  destruct (secure_filename_plain (normalize_NFKD E) (default [] (filename f)))
    as [Hn|Hn]; [left | right]; fold (sanitized E f) in Hn; split; try exact Hn.
  - rewrite Hn. apply os_target_joinpath_empty.
  - now apply os_target_joinpath_plain.
Qed.

(** A write that succeeds while the temporary directory exists lands on an
    entry of that directory. *)
Lemma write_all_Ok_event us fs f target :
  fs !! os_target (cwd E) made = Some Dir ->
  In (EvSave f target (Ok tt)) (trace_of (write_all E made us fs)) ->
  plain_name (sanitized E f) /\
  target = os_target (cwd E) made ++ [sanitized E f].
Proof.
  revert fs. induction us as [|g us IH]; intros fs Hdir; [intros []|].
  first_write fs Hopen.
  - intros [Heq|[]]. discriminate.
  - intros [Heq|H].
    + injection Heq as -> <-.
      destruct (write_target_cases f) as [[_ Ht]|[Hn Ht]]; [|now rewrite Ht].
      exfalso. rewrite Ht in Hopen. exact (open_for_writing_Dir _ _ _ Hdir Hopen).
    + apply IH in H; [exact H|].
      rewrite lookup_insert_ne; [exact Hdir|].
      intros Heq. rewrite Heq in Hopen.
      exact (open_for_writing_Dir _ _ _ Hdir Hopen).
  - intros [Heq|[]]. discriminate.
Qed.

(** A sequence of writes that raises has written the uploads before the
    one whose write raised, and none after it. *)
Lemma write_all_Raise us fs e :
  value_of (write_all E made us fs) = Raise e ->
  exists before f after,
    us = before ++ f :: after /\
    trace_of (write_all E made us fs) =
      map (fun g => EvSave g (write_target E made g) (Ok tt)) before ++
      [EvSave f (write_target E made f) (Raise e)].
Proof.
  revert fs. induction us as [|f us IH]; intros fs; [discriminate|].
  first_write fs Hopen.
  - intros [= ->]. now exists [], f, us.
  - intros H. apply IH in H as (before & g & after & -> & ->).
    now exists (f :: before), g, after.
  - intros [= ->]. now exists [], f, us.
Qed.

Lemma written_snoc us g fs :
  written E made (us ++ [g]) fs =
  <[write_target E made g := File (stream g)]> (written E made us fs).
Proof. unfold written. now rewrite fold_left_app. Qed.

Lemma last_writer_snoc target us g :
  last_writer E made target (us ++ [g]) =
  if bool_decide (write_target E made g = target) then Some g
  else last_writer E made target us.
Proof. unfold last_writer. now rewrite fold_left_app. Qed.

(** After all the writes, a path holds what its last writer put there. *)
Lemma written_lookup us fs target :
  written E made us fs !! target =
  match last_writer E made target us with
  | Some g => Some (File (stream g))
  | None => fs !! target
  end.
Proof.
  induction us as [|g us IH] using rev_ind; [reflexivity|].
  rewrite written_snoc, last_writer_snoc.
  destruct (bool_decide_reflect (write_target E made g = target)) as [<-|Hne].
  - apply lookup_insert_eq.
  - rewrite lookup_insert_ne by exact Hne. exact IH.
Qed.

(** The last writer of a path is the last upload of the list written
    there. *)
Lemma last_writer_split target us :
  match last_writer E made target us with
  | Some g =>
      exists before after,
        us = before ++ g :: after /\
        write_target E made g = target /\
        Forall (fun h => write_target E made h <> target) after
  | None => Forall (fun h => write_target E made h <> target) us
  end.
Proof.
  induction us as [|x us IH] using rev_ind; [constructor|].
  rewrite last_writer_snoc.
  destruct (bool_decide_reflect (write_target E made x = target)) as [Hx|Hx].
  - exists us, []. repeat split; [exact Hx | constructor].
  - destruct (last_writer E made target us) as [g|].
    + destruct IH as (before & after & -> & Hg & Hafter).
      exists before, (after ++ [x]). rewrite <- app_assoc. repeat split; auto.
      apply Forall_app. split; [exact Hafter | now constructor].
    + apply Forall_app. split; [exact IH | now constructor].
Qed.

(** When all the writes succeed in an existing temporary directory, every
    upload has a plain sanitized name and is written at the entry of that
    name. *)
Lemma write_all_Ok_targets us fs f :
  fs !! os_target (cwd E) made = Some Dir ->
  value_of (write_all E made us fs) = Ok tt ->
  In f us ->
  plain_name (sanitized E f) /\
  write_target E made f = os_target (cwd E) made ++ [sanitized E f].
Proof.
  intros Hdir Hok Hf.
  destruct (write_all_Ok _ _ Hok) as [Htr _].
  assert (In (EvSave f (write_target E made f) (Ok tt))
            (trace_of (write_all E made us fs))) as Hin.
  { rewrite Htr. apply in_map_iff. now exists f. }
  destruct (write_all_Ok_event _ _ _ _ Hdir Hin) as [Hn Ht]. now split.
Qed.
End write_all_lemmas.

Section handler_runs.
Variable E : Env.
Variable config : Config.
Variable request : Request.
Variable project_id : pystr.

(** Lines 75-104. *)
Lemma generate_and_store_run project prompt ref_path additional fs r fs' tr :
  generate_and_store E config project_id project prompt ref_path
    additional fs = (r, fs', tr) ->
  (exists key,
     (DEFAULT_ASPECT_RATIO config = None \/ DEFAULT_RESOLUTION config = None) /\
     (r, fs', tr) = (Raise (KeyError key), fs, [])) \/
  (exists ar res,
     DEFAULT_ASPECT_RATIO config = Some ar /\
     DEFAULT_RESOLUTION config = Some res /\
     generated E project_id
       (mkGenArgs prompt (option_map Path_str ref_path) ar res
          (list_or_None additional))
       fs r fs' tr).
Proof.
  unfold generate_and_store. cbv zeta.
  destruct (DEFAULT_ASPECT_RATIO config) as [ar|] eqn:Har; cbn [config_get];
    [rewrite bind_ret
    |intros [= <- <- <-]; left; eexists; split; [now left | reflexivity]].
  destruct (DEFAULT_RESOLUTION config) as [res|] eqn:Hres; cbn [config_get];
    [rewrite bind_ret
    |intros [= <- <- <-]; left; eexists; split; [now right | reflexivity]].
  intros H. right. exists ar, res. split; [reflexivity|]. split; [reflexivity|].
  revert H. set (a := mkGenArgs _ _ _ _ _). intros H.
  apply bind_inv in H
    as [(image & fs1 & t1 & t2 & Hgen & H & ->)|(e & Hgen & ->)];
    unfold ai_service_generate_image in Hgen;
    destruct (generate_image E a fs) as [g fs1'] eqn:Hg;
    injection Hgen as -> -> <-; [|now apply generate_raises].
  destruct (image_truthy E image) eqn:Himg; cbn [negb] in H.
  2:{ injection H as <- <- <-. now apply generate_no_image. }
  apply bind_inv in H
    as [(rp & fs2 & t3 & t4 & Hsave & H & ->)|(e & Hsave & ->)];
    unfold file_service_save_material_image in Hsave;
    destruct (save_material_image E image project_id fs1) as [sv fs2'] eqn:Hs;
    injection Hsave as -> -> <-; [|eapply store_raises; eassumption].
  apply bind_inv in H
    as [(url & fs3 & t5 & t6 & Hurl & H & ->)|(e & Hurl & ->)];
    unfold lift in Hurl; injection Hurl as Hurl <- <-;
    [|eapply url_raises; eassumption].
  unfold db_session_commit in H.
  apply bind_inv in H
    as [([] & fs4 & t7 & t8 & Hcommit & H & ->)|(e & Hcommit & ->)].
  - apply bind_inv in Hcommit
      as [([] & fs5 & t9 & t10 & Hc & Hemit & ->)|(e & Hc & [=])].
    unfold lift in Hc. injection Hc as Hc <- <-.
    injection Hemit as <- <-. injection H as <- <- <-.
    eapply stored; eassumption.
  - apply bind_inv in Hcommit
      as [([] & fs5 & t9 & t10 & Hc & Hemit & ->)|(e' & Hc & [= <-])].
    + discriminate Hemit.
    + unfold lift in Hc. injection Hc as Hc <- <-.
      eapply commit_raises; eassumption.
Qed.

(** Lines 105-108: the [finally] clause never raises and leaves no
    directory behind. *)
Lemma cleanup_run made fs :
  let dir := os_target (cwd E) made in
  cleanup E (Path_of made) fs =
  if bool_decide (is_Some (fs !! dir))
  then (Ok tt, remove_tree dir fs, [EvRmtree dir])
  else (Ok tt, fs, []).
Proof.
  unfold cleanup, Path_exists, shutil_rmtree. rewrite bind_run.
  unfold value_of, fs_of, trace_of. cbn [fst snd]. cbv zeta.
  rewrite os_target_Path_of.
  destruct (bool_decide (is_Some (fs !! os_target (cwd E) made))); reflexivity.
Qed.

Lemma remove_tree_gone dir fs q :
  dir `prefix_of` q -> remove_tree dir fs !! q = None.
Proof.
  intros Hq. unfold remove_tree. apply map_lookup_filter_None. right.
  intros x _ Hnot. now apply Hnot.
Qed.

Lemma cleanup_gone made fs :
  fs_of (cleanup E (Path_of made) fs) !! os_target (cwd E) made = None.
Proof.
  rewrite cleanup_run. cbv zeta.
  destruct (bool_decide_reflect (is_Some (fs !! os_target (cwd E) made)))
    as [Hsome|Hnone]; unfold fs_of; cbn [fst snd].
  - now apply remove_tree_gone.
  - now apply eq_None_not_Some.
Qed.

Lemma cleanup_value made fs : value_of (cleanup E (Path_of made) fs) = Ok tt.
Proof. rewrite cleanup_run. cbv zeta. now destruct (bool_decide _). Qed.

Lemma cleanup_trace made fs ev :
  In ev (trace_of (cleanup E (Path_of made) fs)) ->
  ev = EvRmtree (os_target (cwd E) made).
Proof.
  rewrite cleanup_run. cbv zeta. destruct (bool_decide _); cbn; [|tauto].
  now intros [<-|[]].
Qed.

(** Lines 58-104. *)
Lemma workspace_body_run w ref_file extra_files r fs' tr :
  workspace_body E config project_id (ws_project w) (ws_prompt w)
    ref_file extra_files (Path_of (ws_made w)) (ws_fs w) = (r, fs', tr) ->
  in_workspace E config project_id w ref_file extra_files r fs' tr.
Proof.
  unfold workspace_body. intros H.
  apply bind_inv in H
    as [(saved & fs1 & t1 & t2 & Hsave & H & ->)|(e & Hsave & ->)];
    rewrite save_reference_files_write_all in Hsave; cbv zeta in Hsave;
    destruct (value_of (write_all E (ws_made w) (uploads ref_file extra_files)
                (ws_fs w))) as [[]|e'] eqn:Hw;
    try discriminate Hsave; injection Hsave as <- <- <-.
  - apply generate_and_store_run in H
      as [(key & Hmiss & [= -> -> ->])|(ar & res & Har & Hres & Hgen)].
    + rewrite app_nil_r. now apply config_missing.
    + cbn [fst snd] in Hgen. eapply generate_called; try eassumption.
      destruct (valid_ref ref_file); exact Hgen.
  - now apply write_raises.
Qed.

(** The body of the outer [try] either ends before it has made a
    temporary directory, with no event, or makes one and runs the inner
    [try] under its [finally]. *)
Lemma handler_body_cases fs :
  (trace_of (handler_body E config request project_id fs) = [] /\
   early_value (value_of (handler_body E config request project_id fs))) \/
  exists w,
    enters_workspace E config request project_id fs w /\
    let temp_dir := Path_of (ws_made w) in
    let inner :=
      try_finally
        (workspace_body E config project_id (ws_project w) (ws_prompt w)
           (ref_file_of request) (extra_files_of request) temp_dir)
        (cleanup E temp_dir) (ws_fs w) in
    handler_body E config request project_id fs =
    (value_of inner, fs_of inner,
     EvMkdtemp (ws_made w) (os_target (cwd E) (ws_made w)) :: trace_of inner).
Proof.
  unfold handler_body.
  destruct (Project_query_get E project_id) as [project|e] eqn:Hq;
    [rewrite bind_lift_Ok | now left].
  destruct (project_truthy E project) eqn:Hp; cbn [negb];
    [|left; split; [reflexivity | now left]].
  assert (exists pr, parse_request request fs = (pr, fs, [])) as [pr Hpr]
    by (eexists; apply parse_request_pure).
  destruct pr as [[[prompt rf] xs]|e];
    [rewrite (bind_Ok_nil _ _ _ _ _ Hpr)
    |rewrite (bind_Raise _ _ _ _ _ _ Hpr); now left].
  destruct (str_bool prompt) eqn:Hprompt; cbn [negb];
    [|left; split; [reflexivity | now right]].
  destruct (GOOGLE_API_KEY config) as [k|] eqn:Hk; cbn [config_get];
    [rewrite bind_ret | now left].
  destruct (GOOGLE_API_BASE config) as [b|] eqn:Hb; cbn [config_get];
    [rewrite bind_ret | now left].
  destruct (AIService_init E k b) as [[]|e] eqn:Hai;
    [rewrite bind_lift_Ok | now left].
  destruct (UPLOAD_FOLDER config) as [u|] eqn:Hu; cbn [config_get];
    [rewrite !bind_ret | now left].
  assert (exists ri, new_FileService E u fs = (ri, (FileService_init E u fs).2, []))
    as [ri Hri].
  { unfold new_FileService. destruct (FileService_init E u fs). now eexists. }
  destruct (FileService_init E u fs) as [ri' fs0] eqn:Hfs. simpl in Hri.
  assert (ri = ri') as ->.
  { unfold new_FileService in Hri. rewrite Hfs in Hri. congruence. }
  destruct ri' as [[]|e];
    [rewrite (bind_Ok_nil _ _ _ _ _ Hri)
    |rewrite (bind_Raise _ _ _ _ _ _ Hri); now left].
  rewrite bind_ret.
  destruct (mkdtemp_pick E u fs0) as [made|e] eqn:Hmk.
  2:{ left. unfold bind at 1 2, tempfile_mkdtemp. now rewrite Hmk. }
  right. exists (mkWorkspace project prompt made (<[os_target (cwd E) made := Dir]> fs0)).
  destruct (parse_request_files _ _ _ _ _ Hpr) as [-> ->].
  split.
  - exists k, b, u, fs0, (ref_file_of request), (extra_files_of request).
    simpl. repeat split; assumption.
  - assert (tempfile_mkdtemp E u fs0 =
            (Ok made, <[os_target (cwd E) made := Dir]> fs0,
             [EvMkdtemp made (os_target (cwd E) made)])) as Hmk'
      by (unfold tempfile_mkdtemp; now rewrite Hmk).
    rewrite (bind_Ok _ _ _ _ _ _ Hmk'). reflexivity.
Qed.

(** The inner [try] under its [finally]. *)
Lemma try_finally_cleanup (body : M Response) made fs :
  try_finally body (cleanup E (Path_of made)) fs =
  (value_of (body fs),
   fs_of (cleanup E (Path_of made) (fs_of (body fs))),
   trace_of (body fs) ++ trace_of (cleanup E (Path_of made) (fs_of (body fs)))).
Proof.
  unfold try_finally. destruct (body fs) as [[r fs1] t1].
  change (fs_of (r, fs1, t1)) with fs1.
  change (value_of (r, fs1, t1)) with r.
  change (trace_of (r, fs1, t1)) with t1.
  pose proof (cleanup_value made fs1) as Hv.
  destruct (cleanup E (Path_of made) fs1) as [[[[]|e] fs2] t2];
    [reflexivity | discriminate Hv].
Qed.

(** A run of the body of the outer [try] that made a temporary directory:
    the workspace, the run of the inner [try] and the clean-up. *)
Lemma handler_body_workspace fs :
  let b := handler_body E config request project_id fs in
  (trace_of b = [] /\ early_value (value_of b)) \/
  exists w fs2 tw,
    let dir := os_target (cwd E) (ws_made w) in
    let c := cleanup E (Path_of (ws_made w)) fs2 in
    enters_workspace E config request project_id fs w /\
    in_workspace E config project_id w (ref_file_of request)
      (extra_files_of request) (value_of b) fs2 tw /\
    fs_of b = fs_of c /\
    trace_of b = EvMkdtemp (ws_made w) dir :: tw ++ trace_of c.
Proof.
  cbv zeta. destruct (handler_body_cases fs) as [Hearly|(w & Hw & Heq)];
    [now left | right].
  cbv zeta in Heq. rewrite Heq, try_finally_cleanup.
  destruct (workspace_body E config project_id (ws_project w) (ws_prompt w)
              (ref_file_of request) (extra_files_of request)
              (Path_of (ws_made w)) (ws_fs w)) as [[r fs2] tw] eqn:Hwb.
  apply workspace_body_run in Hwb.
  exists w, fs2, tw. unfold value_of, fs_of, trace_of. cbn [fst snd].
  repeat split; assumption.
Qed.

(** The handler is the body of the outer [try] with its [except]
    clause. *)
Lemma handler_run fs :
  let b := handler_body E config request project_id fs in
  generate_material_image E config request project_id fs =
  (Ok (match value_of b with
       | Ok r => r
       | Raise e => error_response (py "AI_SERVICE_ERROR") (exn_str e) 503
       end),
   fs_of b,
   trace_of b ++ match value_of b with Ok _ => [] | Raise _ => [EvRollback] end).
Proof.
  cbv zeta. unfold generate_material_image, try_except.
  destruct (handler_body E config request project_id fs) as [[[r|e] fs1] t1];
    unfold value_of, fs_of, trace_of; cbn [fst snd].
  - now rewrite app_nil_r.
  - reflexivity.
Qed.
End handler_runs.

(** ** Events of a run *)

Section handler_events.
Variable E : Env.
Variable config : Config.
Variable request : Request.
Variable project_id : pystr.

Lemma handler_value fs :
  value_of (generate_material_image E config request project_id fs) =
  Ok (match value_of (handler_body E config request project_id fs) with
      | Ok r => r
      | Raise e => error_response (py "AI_SERVICE_ERROR") (exn_str e) 503
      end).
Proof. now rewrite handler_run. Qed.

Lemma handler_fs fs :
  fs_of (generate_material_image E config request project_id fs) =
  fs_of (handler_body E config request project_id fs).
Proof. now rewrite handler_run. Qed.

Lemma handler_trace fs :
  trace_of (generate_material_image E config request project_id fs) =
  trace_of (handler_body E config request project_id fs) ++
  match value_of (handler_body E config request project_id fs) with
  | Ok _ => []
  | Raise _ => [EvRollback]
  end.
Proof. now rewrite handler_run. Qed.

Lemma count_app k t1 t2 : count k (t1 ++ t2) = (count k t1 + count k t2)%nat.
Proof. unfold count. now rewrite List.filter_app, List.length_app. Qed.

Lemma count_other k k' tr :
  Forall (fun ev => kind_of ev = k') tr -> k <> k' -> count k tr = 0%nat.
Proof.
  unfold count. induction 1 as [|ev tr Hev _ IH]; intros Hk; [reflexivity|].
  simpl. rewrite Hev.
  destruct (kind_eqb k' k) eqn:Heq; [|auto].
  destruct k, k'; try discriminate; now destruct Hk.
Qed.

Lemma count_zero_not_In k tr ev :
  count k tr = 0%nat -> In ev tr -> kind_of ev <> k.
Proof.
  unfold count. induction tr as [|x tr IH]; [intros _ []|].
  simpl. destruct (kind_eqb (kind_of x) k) eqn:Hx; [discriminate|].
  intros H0 [<-|Hin]; [|auto].
  intros Hk. rewrite Hk in Hx. now destruct k.
Qed.

Lemma write_all_kinds made us fs :
  Forall (fun ev => kind_of ev = KSave) (trace_of (write_all E made us fs)).
Proof.
  apply List.Forall_forall. intros ev Hev.
  apply write_all_events in Hev as (f & o & -> & _). reflexivity.
Qed.

Lemma cleanup_kinds made fs :
  Forall (fun ev => kind_of ev = KRmtree) (trace_of (cleanup E (Path_of made) fs)).
Proof.
  apply List.Forall_forall. intros ev Hev.
  apply cleanup_trace in Hev as ->. reflexivity.
Qed.

(** What the call and what follows it leave in the trace. *)
Lemma generated_counts a fs r fs' tg :
  generated E project_id a fs r fs' tg ->
  count KMkdtemp tg = 0%nat /\ count KSave tg = 0%nat /\
  count KRmtree tg = 0%nat /\ count KRollback tg = 0%nat /\
  count KGenerate tg = 1%nat /\
  count KCommit tg =
    match r with Ok (success_response _ _) => 1%nat | _ => 0%nat end.
Proof. destruct 1; repeat split. Qed.

(** What the inner [try] leaves in the trace. *)
Lemma in_workspace_counts w ref_file extra_files r fs' tw :
  in_workspace E config project_id w ref_file extra_files r fs' tw ->
  count KMkdtemp tw = 0%nat /\ count KRmtree tw = 0%nat /\
  count KRollback tw = 0%nat /\
  count KCommit tw =
    match r with Ok (success_response _ _) => 1%nat | _ => 0%nat end.
Proof.
  destruct 1 as [e o Ho|key o Ho Hmiss|ar res r fs2 tg o Ho Har Hres Hgen];
    subst o; rewrite ?count_app;
    rewrite !(count_other _ KSave _ (write_all_kinds _ _ _)) by discriminate;
    try (repeat split; reflexivity).
  apply generated_counts in Hgen as (-> & _ & -> & -> & _ & ->).
  repeat split.
Qed.

Lemma count_cons k ev tr :
  count k (ev :: tr) = (count k [ev] + count k tr)%nat.
Proof. apply (count_app k [ev] tr). Qed.

(** What the body of the outer [try] leaves in the trace: no rollback, and
    one commit exactly when it ends with the success response. *)
Lemma handler_body_counts fs :
  let b := handler_body E config request project_id fs in
  count KRollback (trace_of b) = 0%nat /\
  count KCommit (trace_of b) =
    match value_of b with Ok (success_response _ _) => 1%nat | _ => 0%nat end.
Proof.
  cbv zeta.
  destruct (handler_body_workspace E config request project_id fs)
    as [[Hnil Hearly]|(w & fs2 & tw & Hw & Hin_w & Hfs & Htr)].
  - rewrite Hnil. split; [reflexivity|].
    destruct (value_of _) as [r|e]; [|reflexivity].
    now destruct Hearly as [-> | ->].
  - cbv zeta in Htr. rewrite Htr.
    rewrite (count_cons KRollback), (count_cons KCommit), !count_app.
    apply in_workspace_counts in Hin_w as (_ & _ & -> & ->).
    rewrite !(count_other _ KRmtree _ (cleanup_kinds _ _)) by discriminate.
    split; [reflexivity|]. cbn. now rewrite Nat.add_0_r.
Qed.

(** An exception of the body of the outer [try] is answered with 503 and
    its text, after exactly one rollback and no commit. *)
Lemma raised_is_rolled_back fs e :
  value_of (handler_body E config request project_id fs) = Raise e ->
  let out := generate_material_image E config request project_id fs in
  value_of out = Ok (error_response (py "AI_SERVICE_ERROR") (exn_str e) 503) /\
  count KRollback (trace_of out) = 1%nat /\
  count KCommit (trace_of out) = 0%nat /\
  trace_of out =
    trace_of (handler_body E config request project_id fs) ++ [EvRollback].
Proof.
  intros He. cbv zeta. rewrite handler_value, handler_trace, He, !count_app.
  destruct (handler_body_counts fs) as [-> ->]. rewrite He. repeat split.
Qed.

(** An event of the inner [try] belongs to a run that has entered its
    workspace; the trace of such a run is the making of the directory, the
    inner [try], the clean-up and the rollback, if any. *)
Lemma event_in_workspace fs ev :
  In ev (trace_of (generate_material_image E config request project_id fs)) ->
  kind_of ev <> KMkdtemp -> kind_of ev <> KRmtree -> kind_of ev <> KRollback ->
  exists w fs2 tw,
    enters_workspace E config request project_id fs w /\
    in_workspace E config project_id w (ref_file_of request)
      (extra_files_of request)
      (value_of (handler_body E config request project_id fs)) fs2 tw /\
    In ev tw /\
    exists rest,
      trace_of (generate_material_image E config request project_id fs) =
      EvMkdtemp (ws_made w) (os_target (cwd E) (ws_made w)) :: tw ++ rest /\
      saves rest = [].
Proof.
  rewrite handler_trace. intros Hin Hk1 Hk2 Hk3.
  apply in_app_or in Hin as [Hin|Hin].
  2:{ destruct (value_of _); [destruct Hin|].
      destruct Hin as [<-|[]]. now destruct Hk3. }
  destruct (handler_body_workspace E config request project_id fs)
    as [[Hnil _]|(w & fs2 & tw & Hw & Hin_w & Hfs & Htr)].
  - rewrite Hnil in Hin. destruct Hin.
  - cbv zeta in Htr. rewrite Htr in Hin. destruct Hin as [<-|Hin].
    { now destruct Hk1. }
    apply in_app_or in Hin as [Hin|Hin].
    2:{ apply cleanup_trace in Hin as ->. now destruct Hk2. }
    exists w, fs2, tw. repeat split; try assumption.
    eexists. rewrite Htr. cbn [app]. rewrite <- app_assoc. split; [reflexivity|].
    unfold saves. rewrite List.filter_app.
    assert (forall tr k, count k tr = 0%nat ->
              List.filter (fun ev => kind_eqb (kind_of ev) k) tr = []) as Hz.
    { intros tr k. unfold count. now destruct (List.filter _ tr). }
    rewrite (Hz _ KSave (count_other KSave KRmtree _ (cleanup_kinds _ _)
                           ltac:(discriminate))).
    now destruct (value_of _).
Qed.

(** The event of the call of [generate_image] tells how the inner [try]
    went on from there. *)
Lemma generated_event a fs0 r fs' tg a' fsc o :
  generated E project_id a fs0 r fs' tg ->
  In (EvGenerate a' fsc o) tg ->
  a' = a /\ fsc = fs0 /\ exists fs1, generate_image E a fs0 = (o, fs1).
Proof.
  destruct 1; cbn; intros Hin;
    repeat (destruct Hin as [Hin|Hin]; try discriminate Hin);
    try (injection Hin as <- <- <-; repeat split; eauto); destruct Hin.
Qed.

Lemma in_workspace_generate_event w ref_file extra_files r fs' tw a fsc o :
  in_workspace E config project_id w ref_file extra_files r fs' tw ->
  In (EvGenerate a fsc o) tw ->
  let ow := write_all E (ws_made w) (uploads ref_file extra_files) (ws_fs w) in
  value_of ow = Ok tt /\ fsc = fs_of ow /\
  (exists ar res,
     DEFAULT_ASPECT_RATIO config = Some ar /\
     DEFAULT_RESOLUTION config = Some res /\
     a = mkGenArgs (ws_prompt w)
           (option_map (stored_path E (ws_made w)) (valid_ref ref_file))
           ar res
           (list_or_None
              (map (stored_path E (ws_made w)) (List.filter named extra_files)))) /\
  (exists fs1, generate_image E a fsc = (o, fs1)) /\
  exists tg, generated E project_id a fsc r fs' tg /\ tw = trace_of ow ++ tg.
Proof.
  destruct 1 as [e o' Ho|key o' Ho Hmiss|ar res r fs2 tg o' Ho Har Hres Hgen];
    subst o'; intros Hin.
  - apply write_all_events in Hin as (f & o1 & [=] & _).
  - apply write_all_events in Hin as (f & o1 & [=] & _).
  - apply in_app_or in Hin as [Hin|Hin].
    { apply write_all_events in Hin as (f & o1 & [=] & _). }
    destruct (generated_event _ _ _ _ _ _ _ _ Hgen Hin) as (-> & -> & Hcall).
    cbv zeta. repeat split; eauto.
Qed.

Lemma in_workspace_save_event w ref_file extra_files r fs' tw f target o :
  in_workspace E config project_id w ref_file extra_files r fs' tw ->
  In (EvSave f target o) tw ->
  In (EvSave f target o)
    (trace_of (write_all E (ws_made w) (uploads ref_file extra_files) (ws_fs w))).
Proof.
  destruct 1 as [e o' Ho|key o' Ho Hmiss|ar res r fs2 tg o' Ho Har Hres Hgen];
    subst o'; intros Hin; try exact Hin.
  apply in_app_or in Hin as [Hin|Hin]; [exact Hin|].
  exfalso. destruct Hgen; cbn in Hin;
    repeat (destruct Hin as [Hin|Hin]; try discriminate Hin); destruct Hin.
Qed.

(** How the inner [try] ends after a call of [generate_image] that raised,
    or that returned [None]. *)
Lemma generated_raise a fs0 r fs' tg e fs1 :
  generated E project_id a fs0 r fs' tg ->
  generate_image E a fs0 = (Raise e, fs1) -> r = Raise e.
Proof. destruct 1; intros Hg; congruence. Qed.

Lemma generated_None a fs0 r fs' tg fs1 :
  generated E project_id a fs0 r fs' tg ->
  generate_image E a fs0 = (Ok None, fs1) ->
  r = Ok (error_response (py "AI_SERVICE_ERROR")
            (py "Failed to generate image") 503).
Proof.
  destruct 1; intros Hg; try reflexivity; try congruence;
    match goal with
    | H1 : generate_image _ _ _ = (Ok ?i, _), H2 : image_truthy _ ?i = true |- _ =>
        rewrite Hg in H1; injection H1 as <- _; discriminate H2
    end.
Qed.

(** How the inner [try] ends after a call of [save_material_image] that
    raised. *)
Lemma in_workspace_store_event w ref_file extra_files r fs' tw image pid e :
  in_workspace E config project_id w ref_file extra_files r fs' tw ->
  In (EvSaveMaterial image pid (Raise e)) tw -> r = Raise e.
Proof.
  destruct 1 as [e' o' Ho|key o' Ho Hmiss|ar res r fs2 tg o' Ho Har Hres Hgen];
    subst o'; intros Hin;
    try (apply write_all_events in Hin as (f & o1 & [=] & _)).
  apply in_app_or in Hin as [Hin|Hin].
  { apply write_all_events in Hin as (f & o1 & [=] & _). }
  destruct Hgen; cbn in Hin;
    repeat (destruct Hin as [Hin|Hin]; try discriminate Hin);
    try contradiction.
  now injection Hin as _ _ <-.
Qed.
End handler_events.

(** ** Requests *)

Lemma str_or_default o : str_or o [] = default [] o.
Proof. destruct o as [[|c s]|]; reflexivity. Qed.

(** A request that gives a prompt text parses to that text, trimmed. *)
Lemma parse_request_supplied request s fs :
  supplied_prompt request = Some s ->
  parse_request request fs =
  (Ok (strip s, ref_file_of request, extra_files_of request), fs, []).
Proof.
  destruct request as [[j|e]|form files]; simpl; try discriminate.
  - destruct j as [| | | | |l|d]; try discriminate. intros H.
    unfold parse_request. rewrite bind_lift_Ok.
    destruct d as [|kv d]; simpl json_bool; cbv iota.
    + simpl in H. injection H as <-. reflexivity.
    + unfold data_get_prompt. rewrite bind_ret.
      destruct (dict_get (kv :: d) (py "prompt")) as [[]|]; try discriminate;
        injection H as <-; reflexivity.
  - intros [= <-]. unfold parse_request. now rewrite str_or_default.
Qed.

(** A request that parses to a non-empty prompt gave it as its text. *)
Lemma parse_request_prompt request fs p ref_file extra_files :
  parse_request request fs = (Ok (p, ref_file, extra_files), fs, []) ->
  p <> [] ->
  exists s, supplied_prompt request = Some s /\ p = strip s.
Proof.
  destruct request as [[j|e]|form files]; unfold parse_request.
  - rewrite bind_lift_Ok. intros H Hp.
    apply bind_inv in H as [(v & fs1 & t1 & t2 & Hget & H & Ht)|(e & _ & [=])].
    apply bind_inv in H as [(pr & fs2 & t3 & t4 & Hstrip & H & Ht')|(e & _ & [=])].
    injection H as -> _ _ _ _.
    destruct v as [| | | |s0| |]; try discriminate Hstrip.
    injection Hstrip as <- _ _.
    assert (s0 <> []) as Hs0 by (intros ->; now apply Hp).
    exists s0. split; [|reflexivity].
    destruct (json_bool j) eqn:Hj.
    + destruct j as [| | | | | |d]; try discriminate Hget.
      cbn [data_get_prompt] in Hget. injection Hget as Hget _ _.
      cbn [supplied_prompt].
      destruct (dict_get d (py "prompt")) as [v|]; [now subst v|].
      now injection Hget as <-.
    + cbn [data_get_prompt dict_get] in Hget. now injection Hget as <-.
  - rewrite bind_lift_Raise. discriminate.
  - intros [= <- _ _] _. simpl. rewrite str_or_default. eauto.
Qed.

(** ** Extra images without a name *)

Section ext_lemmas.
Context {A B : Type}.

Lemma bind_ext (m : M A) (k1 k2 : A -> M B) fs :
  (forall a fs1, k1 a fs1 = k2 a fs1) -> bind m k1 fs = bind m k2 fs.
Proof.
  intros H. unfold bind. destruct (m fs) as [[[a|e] fs1] t1]; [|reflexivity].
  now rewrite H.
Qed.

Lemma bind_ext_l (m1 m2 : M A) (k : A -> M B) fs :
  m1 fs = m2 fs -> bind m1 k fs = bind m2 k fs.
Proof. intros H. unfold bind. now rewrite H. Qed.

Lemma try_finally_ext (b1 b2 : M A) (c : M unit) fs :
  b1 fs = b2 fs -> try_finally b1 c fs = try_finally b2 c fs.
Proof. intros H. unfold try_finally. now rewrite H. Qed.

Lemma try_except_ext (b1 b2 : M A) (h : exn -> M A) fs :
  b1 fs = b2 fs -> try_except b1 h fs = try_except b2 h fs.
Proof. intros H. unfold try_except. now rewrite H. Qed.
End ext_lemmas.

Lemma filter_named_idem xs :
  List.filter named (List.filter named xs) = List.filter named xs.
Proof.
  induction xs as [|x xs IH]; [reflexivity|]. simpl.
  destruct (named x) eqn:Hx; [|exact IH]. simpl. now rewrite Hx, IH.
Qed.

Lemma without_unnamed_cons k v files :
  without_unnamed_extras ((k, v) :: files) =
  if negb (pystr_eqb k (py "extra_images")) || named v
  then (k, v) :: without_unnamed_extras files
  else without_unnamed_extras files.
Proof. reflexivity. Qed.

Lemma without_unnamed_ref files :
  dict_get (without_unnamed_extras files) (py "ref_image") =
  dict_get files (py "ref_image").
Proof.
  assert (pystr_eqb (py "extra_images") (py "ref_image") = false) as Hne
    by (vm_compute; reflexivity).
  induction files as [|[k v] files IH]; [reflexivity|].
  rewrite without_unnamed_cons.
  destruct (pystr_eqb k (py "extra_images")) eqn:Hk; cbn [negb orb].
  - unfold pystr_eqb in Hk. apply bool_decide_eq_true in Hk. subst k.
    destruct (named v); cbn [dict_get]; rewrite Hne; exact IH.
  - cbn [dict_get]. destruct (pystr_eqb k (py "ref_image")); [reflexivity|exact IH].
Qed.

Lemma getlist_cons {V} k (v : V) d key :
  getlist ((k, v) :: d) key =
  if pystr_eqb k key then v :: getlist d key else getlist d key.
Proof. unfold getlist. cbn. now destruct (pystr_eqb k key). Qed.

Lemma without_unnamed_extras_list files :
  getlist (without_unnamed_extras files) (py "extra_images") =
  List.filter named (getlist files (py "extra_images")).
Proof.
  induction files as [|[k v] files IH]; [reflexivity|].
  rewrite without_unnamed_cons, getlist_cons.
  destruct (pystr_eqb k (py "extra_images")) eqn:Hk; cbn [negb orb].
  - cbn [List.filter]. destruct (named v); [|exact IH].
    rewrite getlist_cons, Hk. now rewrite IH.
  - rewrite getlist_cons, Hk. exact IH.
Qed.

(** The inner [try] does not see the extra images that have no name. *)
Lemma workspace_body_named E config project_id project prompt ref_file xs made fs :
  workspace_body E config project_id project prompt ref_file
    (List.filter named xs) (Path_of made) fs =
  workspace_body E config project_id project prompt ref_file xs
    (Path_of made) fs.
Proof.
  unfold workspace_body. apply bind_ext_l.
  rewrite !save_reference_files_write_all. unfold uploads.
  now rewrite filter_named_idem.
Qed.

(** * The claims *)

Section claims.
Variable E : Env.
Variable config : Config.
Variable request : Request.
Variable project_id : pystr.
Variable fs : FS.

Let out := generate_material_image E config request project_id fs.

(** C3: a request whose project id resolves to no project is answered
    with [not_found('Project')], status 404, whatever its prompt; the
    handler then does nothing else: no temporary directory is made and the
    file system is left as it was. *)
Theorem unknown_project_is_not_found :
  Project_query_get E project_id = Ok None ->
  out = (Ok (not_found (py "Project")), fs, []) /\
  status_code (not_found (py "Project")) = 404 /\
  count KMkdtemp (trace_of out) = 0%nat.
Proof.
  intros Hq. assert (out = (Ok (not_found (py "Project")), fs, [])) as Hout.
  { unfold out, generate_material_image, try_except, handler_body.
    rewrite Hq, bind_lift_Ok. reflexivity. }
  rewrite Hout. repeat split.
Qed.

(** C2, as amended: when the project exists, a request whose prompt text
    is empty or only whitespace once trimmed (JSON or multipart; a missing
    prompt counts as empty) is answered with
    [bad_request("prompt is required")], status 400, and the handler does
    nothing else: no temporary directory is made. *)
Theorem empty_prompt_is_bad_request p s :
  Project_query_get E project_id = Ok (Some p) ->
  Project_bool E p = true ->
  supplied_prompt request = Some s ->
  strip s = [] ->
  out = (Ok (bad_request (py "prompt is required")), fs, []) /\
  status_code (bad_request (py "prompt is required")) = 400 /\
  count KMkdtemp (trace_of out) = 0%nat.
Proof.
  intros Hq Hp Hs Hstrip.
  assert (out = (Ok (bad_request (py "prompt is required")), fs, [])) as Hout.
  { unfold out, generate_material_image, try_except, handler_body.
    rewrite Hq, bind_lift_Ok. cbn [project_truthy]. rewrite Hp. cbn [negb].
    rewrite (bind_Ok_nil _ _ _ _ _ (parse_request_supplied _ _ fs Hs)).
    rewrite Hstrip. reflexivity. }
  rewrite Hout. repeat split.
Qed.

(** C1: every temporary directory the handler makes is gone from the file
    system when the handler returns, whatever the way it returns: with
    the success response, with the 503 of a missing image, or after an
    exception of a write, of the image service, of the storage or of the
    commit. *)
Theorem temp_dir_removed made dir :
  In (EvMkdtemp made dir) (trace_of out) ->
  fs_of out !! dir = None.
Proof.
  unfold out. rewrite handler_trace, handler_fs. intros Hin.
  apply in_app_or in Hin as [Hin|Hin].
  2:{ destruct (value_of _); [destruct Hin | now destruct Hin as [|[]]]. }
  pose proof (handler_body_workspace E config request project_id fs) as Hb.
  cbv zeta in Hb.
  destruct Hb as [[Hnil _]|(w & fs2 & tw & Hw & Hin_w & Hfs & Htr)].
  - rewrite Hnil in Hin. destruct Hin.
  - rewrite Htr in Hin. rewrite Hfs. destruct Hin as [[= <- <-]|Hin].
    + apply cleanup_gone.
    + exfalso. apply in_app_or in Hin as [Hin|Hin].
      * apply in_workspace_counts in Hin_w as (H0 & _).
        now apply (count_zero_not_In _ _ _ H0 Hin).
      * now apply cleanup_trace in Hin.
Qed.

(** C9: the session is committed exactly once, and never rolled back, in a
    run that returns the success response; an exception raised inside the
    handler is followed by exactly one rollback, the last thing the handler
    does before it returns its 503 response, and by no commit. *)
Theorem transaction_boundary :
  (forall image_url relative_path,
     value_of out = Ok (success_response image_url relative_path) ->
     count KCommit (trace_of out) = 1%nat /\
     count KRollback (trace_of out) = 0%nat) /\
  (forall e,
     value_of (handler_body E config request project_id fs) = Raise e ->
     value_of out =
       Ok (error_response (py "AI_SERVICE_ERROR") (exn_str e) 503) /\
     count KRollback (trace_of out) = 1%nat /\
     count KCommit (trace_of out) = 0%nat /\
     exists tr, trace_of out = tr ++ [EvRollback]).
Proof.
  split.
  - intros url rp. unfold out. rewrite handler_value, handler_trace, !count_app.
    destruct (handler_body_counts E config request project_id fs) as [-> ->].
    destruct (value_of (handler_body E config request project_id fs)) as [r|e];
      [|discriminate].
    intros [= ->]. split; reflexivity.
  - intros e He.
    destruct (raised_is_rolled_back E config request project_id fs e He)
      as (Hv & Hr & Hc & Ht).
    repeat split; try assumption. eauto.
Qed.

(** C4, as amended: an exception raised inside the handler, be it by the
    image service, by the storage or by anything else, is answered with a
    503 response that carries the text of the exception, after exactly one
    rollback; when the image service returns no image the answer is 503
    with "Failed to generate image", and the session is neither rolled
    back nor committed. *)
Theorem service_errors_are_503 :
  (forall e,
     value_of (handler_body E config request project_id fs) = Raise e ->
     value_of out =
       Ok (error_response (py "AI_SERVICE_ERROR") (exn_str e) 503) /\
     count KRollback (trace_of out) = 1%nat) /\
  (forall a fsc e,
     In (EvGenerate a fsc (Raise e)) (trace_of out) ->
     value_of out =
       Ok (error_response (py "AI_SERVICE_ERROR") (exn_str e) 503) /\
     count KRollback (trace_of out) = 1%nat) /\
  (forall image pid e,
     In (EvSaveMaterial image pid (Raise e)) (trace_of out) ->
     value_of out =
       Ok (error_response (py "AI_SERVICE_ERROR") (exn_str e) 503) /\
     count KRollback (trace_of out) = 1%nat) /\
  (forall a fsc,
     In (EvGenerate a fsc (Ok None)) (trace_of out) ->
     value_of out =
       Ok (error_response (py "AI_SERVICE_ERROR")
             (py "Failed to generate image") 503) /\
     count KRollback (trace_of out) = 0%nat /\
     count KCommit (trace_of out) = 0%nat).
Proof.
  assert (forall e,
    value_of (handler_body E config request project_id fs) = Raise e ->
    value_of out =
      Ok (error_response (py "AI_SERVICE_ERROR") (exn_str e) 503) /\
    count KRollback (trace_of out) = 1%nat) as Hraised.
  { intros e He.
    destruct (raised_is_rolled_back E config request project_id fs e He)
      as (Hv & Hr & _). now split. }
  split; [exact Hraised|]. split; [|split].
  - intros a fsc e Hin. apply Hraised.
    apply event_in_workspace in Hin as (w & fs2 & tw & _ & Hw & Hin & _);
      try discriminate.
    destruct (in_workspace_generate_event _ _ _ _ _ _ _ _ _ _ _ _ Hw Hin)
      as (_ & _ & _ & (fs1 & Hcall) & tg & Hgen & _).
    exact (generated_raise _ _ _ _ _ _ _ _ _ Hgen Hcall).
  - intros image pid e Hin. apply Hraised.
    apply event_in_workspace in Hin as (w & fs2 & tw & _ & Hw & Hin & _);
      try discriminate.
    exact (in_workspace_store_event _ _ _ _ _ _ _ _ _ _ _ _ Hw Hin).
  - intros a fsc Hin.
    apply event_in_workspace in Hin as (w & fs2 & tw & _ & Hw & Hin & _);
      try discriminate.
    destruct (in_workspace_generate_event _ _ _ _ _ _ _ _ _ _ _ _ Hw Hin)
      as (_ & _ & _ & (fs1 & Hcall) & tg & Hgen & _).
    pose proof (generated_None _ _ _ _ _ _ _ _ Hgen Hcall) as Hr.
    unfold out. rewrite handler_value, handler_trace, !count_app.
    destruct (handler_body_counts E config request project_id fs) as [-> ->].
    rewrite Hr. repeat split.
Qed.

(** C7: whenever [generate_image] is called, its prompt is the prompt text
    of the request, trimmed and otherwise unchanged, and it is not empty;
    its main reference path is absent exactly when the request supplies no
    main reference image with a non-empty name. *)
Theorem prompt_passed_verbatim a fsc o :
  In (EvGenerate a fsc o) (trace_of out) ->
  exists s,
    supplied_prompt request = Some s /\
    prompt a = strip s /\
    prompt a <> [] /\
    (ref_image_path a = None <-> valid_ref (ref_file_of request) = None).
Proof.
  intros Hin.
  apply event_in_workspace in Hin as (w & fs2 & tw & Hw & Hin_w & Hin & _);
    try discriminate.
  destruct (in_workspace_generate_event _ _ _ _ _ _ _ _ _ _ _ _ Hin_w Hin)
    as (_ & _ & (ar & res & _ & _ & ->) & _).
  destruct Hw as (k & b & u & fs0 & rf & xs & _ & _ & Hparse & _ & _ & Hp & _).
  assert (ws_prompt w <> []) as Hne by (intros Heq; now rewrite Heq in Hp).
  destruct (parse_request_prompt _ _ _ _ _ Hparse Hne) as (s & Hs & Heq).
  exists s. cbn [prompt ref_image_path]. repeat split; try assumption.
  - now destruct (valid_ref (ref_file_of request)).
  - now intros ->.
Qed.

(** C8: when the storage returns relative paths of the form the spec gives,
    a run that succeeds returns a [relative_path] of the form
    [{project_id}/materials/<name>] and the [image_url] that
    [get_file_url(project_id, 'materials', <name>)] returned, where <name>
    is the final part of [relative_path]. *)
Theorem success_names_the_material image_url relative_path :
  storage_follows_spec E ->
  value_of out = Ok (success_response image_url relative_path) ->
  exists file_name,
    relative_path = material_relative_path project_id file_name /\
    Path_name (Path_of relative_path) = file_name /\
    get_file_url E project_id (py "materials") file_name = Ok image_url.
Proof.
  intros Hspec. unfold out. rewrite handler_value.
  destruct (value_of (handler_body E config request project_id fs))
    as [r|e] eqn:Hb; [|discriminate].
  intros [= ->].
  destruct (handler_body_workspace E config request project_id fs)
    as [[_ Hearly]|(w & fs2 & tw & _ & Hin_w & _)].
  { rewrite Hb in Hearly. now destruct Hearly. }
  rewrite Hb in Hin_w.
  inversion Hin_w as [| |ar res r fs3 tg o' Ho Har Hres Hgen]; subst.
  inversion Hgen as [| | | | |image fs1 rp fs4 url Hcall Htrue Hsave Hurl Hcommit];
    subst.
  destruct (Hspec _ _ _ _ _ Hsave) as (name & Hname & ->).
  assert (Path_name (Path_of (material_relative_path project_id name)) = name)
    as Hpn.
  { unfold material_relative_path.
    change (py "/materials/" ++ name) with (py "/materials" ++ 47 :: name).
    rewrite app_assoc. now apply Path_name_of_joined. }
  exists name. rewrite Hpn in Hurl. now repeat split.
Qed.
End claims.

Lemma saves_app t1 t2 : saves (t1 ++ t2) = saves t1 ++ saves t2.
Proof. apply List.filter_app. Qed.

Lemma saves_all tr : Forall (fun ev => kind_of ev = KSave) tr -> saves tr = tr.
Proof.
  induction 1 as [|ev tr Hev _ IH]; [reflexivity|].
  unfold saves in *. simpl. now rewrite Hev, IH.
Qed.

Lemma saves_none tr : count KSave tr = 0%nat -> saves tr = [].
Proof. unfold count, saves. now destruct (List.filter _ tr). Qed.

(** A run that made a temporary directory: the directory is the one of its
    workspace, and after the events of the inner [try] come only the
    removal of the directory and the rollback. *)
Lemma mkdtemp_in_workspace E config request project_id fs made dir :
  let out := generate_material_image E config request project_id fs in
  In (EvMkdtemp made dir) (trace_of out) ->
  exists w fs2 tw rest,
    enters_workspace E config request project_id fs w /\
    made = ws_made w /\ dir = os_target (cwd E) made /\
    in_workspace E config project_id w (ref_file_of request)
      (extra_files_of request)
      (value_of (handler_body E config request project_id fs)) fs2 tw /\
    trace_of out = EvMkdtemp made dir :: tw ++ rest /\
    Forall (fun ev => kind_of ev = KRmtree \/ kind_of ev = KRollback) rest.
Proof.
  cbv zeta. rewrite handler_trace. intros Hin.
  apply in_app_or in Hin as [Hin|Hin].
  2:{ destruct (value_of _); [destruct Hin | now destruct Hin as [|[]]]. }
  destruct (handler_body_workspace E config request project_id fs)
    as [[Hnil _]|(w & fs2 & tw & Hw & Hin_w & Hfs & Htr)].
  - rewrite Hnil in Hin. destruct Hin.
  - cbv zeta in Htr. rewrite Htr in Hin |- *.
    assert (made = ws_made w /\ dir = os_target (cwd E) (ws_made w))
      as [-> ->].
    { destruct Hin as [Heq|Hin]; [now injection Heq | exfalso].
      apply in_app_or in Hin as [Hin|Hin].
      - apply in_workspace_counts in Hin_w as (H0 & _).
        now apply (count_zero_not_In _ _ _ H0 Hin).
      - now apply cleanup_trace in Hin. }
    exists w, fs2, tw. eexists. split; [exact Hw|].
    split; [reflexivity|]. split; [reflexivity|]. split; [exact Hin_w|].
    split; [cbn [app]; rewrite <- app_assoc; reflexivity|].
    apply Forall_app. split.
    + eapply List.Forall_impl; [|apply cleanup_kinds].
      intros ev Hev. cbn beta in *. now left.
    + destruct (value_of _); [constructor|].
      apply List.Forall_cons; [now right | constructor].
Qed.

Lemma saves_rest rest :
  Forall (fun ev => kind_of ev = KRmtree \/ kind_of ev = KRollback) rest ->
  saves rest = [].
Proof.
  induction 1 as [|ev rest [Hev|Hev] _ IH]; [reflexivity| |];
    unfold saves in *; cbn; now rewrite Hev.
Qed.

Lemma generated_calls E project_id a fs0 r fs2 tg :
  generated E project_id a fs0 r fs2 tg ->
  exists o, In (EvGenerate a fs0 o) tg.
Proof. destruct 1; eexists; left; reflexivity. Qed.

(** C6, as amended: a multipart request is handled as if its extra images
    without a name were not there (same response, same file system, same
    events); a run that makes no temporary directory writes nothing. In a
    run that made its temporary directory the named uploads, the main
    reference image first and then the extra images in the order of the
    request, are written one after the other until a write raises. When
    every write succeeds, the writes of the run are exactly those, the
    image service is called if the two defaults are configured, and each
    call has as [additional_ref_images] the paths of the named extra images
    in that order, or [None] when there is none. When a write raises, the
    uploads after it are not written, the image service is not called and
    the answer is the 503 of that exception. *)
Theorem extra_images_materialized E config form files project_id fs :
  let out :=
    generate_material_image E config (FormRequest form files) project_id fs in
  let extras := getlist files (py "extra_images") in
  let ups := uploads (dict_get files (py "ref_image")) extras in
  generate_material_image E config
    (FormRequest form (without_unnamed_extras files)) project_id fs = out /\
  ((forall made dir, ~ In (EvMkdtemp made dir) (trace_of out)) ->
   saves (trace_of out) = []) /\
  forall made dir,
    In (EvMkdtemp made dir) (trace_of out) ->
    let wrote f := EvSave f (write_target E made f) (Ok tt) in
    (saves (trace_of out) = map wrote ups /\
     (DEFAULT_ASPECT_RATIO config <> None ->
      DEFAULT_RESOLUTION config <> None ->
      exists a fsc o, In (EvGenerate a fsc o) (trace_of out)) /\
     forall a fsc o,
       In (EvGenerate a fsc o) (trace_of out) ->
       (List.filter named extras = [] -> additional_ref_images a = None) /\
       (List.filter named extras <> [] ->
        additional_ref_images a =
          Some (map (stored_path E made) (List.filter named extras)))) \/
    (exists before f after e,
       ups = before ++ f :: after /\
       saves (trace_of out) =
         map wrote before ++ [EvSave f (write_target E made f) (Raise e)] /\
       (forall a fsc o, ~ In (EvGenerate a fsc o) (trace_of out)) /\
       value_of out =
         Ok (error_response (py "AI_SERVICE_ERROR") (exn_str e) 503)).
Proof.
  cbv zeta. split; [|split].
  { unfold generate_material_image. apply try_except_ext.
    unfold handler_body. apply bind_ext. intros project fs1.
    destruct (negb (project_truthy E project)); [reflexivity|].
    unfold parse_request. rewrite !bind_ret.
    rewrite without_unnamed_ref, without_unnamed_extras_list.
    destruct (negb (str_bool _)); [reflexivity|].
    do 7 (apply bind_ext; intros ? ?).
    apply try_finally_ext. apply workspace_body_named. }
  { intros Hnone. rewrite handler_trace in Hnone |- *.
    destruct (handler_body_workspace E config (FormRequest form files)
                project_id fs)
      as [[Hnil _]|(w & fs2 & tw & _ & _ & _ & Htr)].
    - rewrite Hnil. now destruct (value_of _).
    - cbv zeta in Htr. rewrite Htr in Hnone. exfalso.
      apply (Hnone (ws_made w) (os_target (cwd E) (ws_made w))). now left. }
  intros made dir Hmk.
  apply mkdtemp_in_workspace in Hmk
    as (w & fs2 & tw & rest & Hw & -> & -> & Hin_w & Htr & Hrest).
  change (ref_file_of (FormRequest form files))
    with (dict_get files (py "ref_image")) in Hin_w.
  change (extra_files_of (FormRequest form files))
    with (getlist files (py "extra_images")) in Hin_w.
  set (extras := getlist files (py "extra_images")) in *.
  set (ups := uploads (dict_get files (py "ref_image")) extras) in *.
  assert (forall ev, In ev rest -> kind_of ev <> KGenerate) as Hrest_gen.
  { intros ev Hev. rewrite List.Forall_forall in Hrest.
    destruct (Hrest ev Hev) as [-> | ->]; discriminate. }
  rewrite Htr.
  change (EvMkdtemp ?m ?d :: ?t) with ([EvMkdtemp m d] ++ t).
  rewrite !saves_app, (saves_rest _ Hrest), app_nil_r.
  change (saves [EvMkdtemp (ws_made w) (os_target (cwd E) (ws_made w))])
    with (@nil Event). cbn [app].
  inversion Hin_w as [e o' Ho Hv|key o' Ho Hm Hv
                     |ar res r' fs3 tg o' Ho Har Hres Hgen Hv]; subst o'.
  - right. destruct (write_all_Raise _ _ _ _ _ Ho)
      as (before & f & after & Hups & Htw).
    exists before, f, after, e. split; [exact Hups|].
    rewrite (saves_all _ (write_all_kinds _ _ _ _)). split; [exact Htw|].
    split.
    + intros a fsc o [Heq|Hin]; [discriminate|].
      apply in_app_or in Hin as [Hin|Hin].
      * apply write_all_events in Hin as (g & o1 & Heq & _). discriminate.
      * now apply (Hrest_gen _ Hin).
    + rewrite handler_value. now rewrite <- Hv.
  - left. rewrite (saves_all _ (write_all_kinds _ _ _ _)).
    destruct (write_all_Ok _ _ _ _ Ho) as [Htw _].
    split; [exact Htw|]. split.
    + intros Har Hres. now destruct Hm.
    + intros a fsc o [Heq|Hin]; [discriminate|].
      apply in_app_or in Hin as [Hin|Hin].
      * apply write_all_events in Hin as (g & o1 & Heq & _). discriminate.
      * now destruct (Hrest_gen _ Hin).
  - left. rewrite saves_app.
    pose proof (generated_counts _ _ _ _ _ _ _ Hgen) as (_ & Hs & _).
    rewrite (saves_none _ Hs), app_nil_r.
    rewrite (saves_all _ (write_all_kinds _ _ _ _)).
    destruct (write_all_Ok _ _ _ _ Ho) as [Htw _].
    split; [exact Htw|]. split.
    + intros _ _. destruct (generated_calls _ _ _ _ _ _ _ Hgen) as [o Hin].
      eexists _, _, o. right. apply in_or_app. left.
      apply in_or_app. right. exact Hin.
    + intros a fsc o [Heq|Hin]; [discriminate|].
      apply in_app_or in Hin as [Hin|Hin];
        [|now destruct (Hrest_gen _ Hin)].
      apply in_app_or in Hin as [Hin|Hin].
      { apply write_all_events in Hin as (g & o1 & Heq & _). discriminate. }
      destruct (generated_event _ _ _ _ _ _ _ _ _ _ Hgen Hin) as (-> & _).
      cbn [additional_ref_images].
      destruct (List.filter named extras) as [|x xs]; split;
        try reflexivity; intros H; try discriminate; now destruct H.
Qed.

Lemma enters_workspace_Dir E config request project_id fs w :
  enters_workspace E config request project_id fs w ->
  ws_fs w !! os_target (cwd E) (ws_made w) = Some Dir.
Proof.
  intros (k & b & u & fs0 & rf & xs & H). 
  destruct H as (_ & _ & _ & _ & _ & _ & _ & _ & _ & _ & _ & _ & ->).
  apply lookup_insert_eq.
Qed.

(** X16: every write of an upload that the handler attempts goes to the
    temporary directory of the request or to an entry directly inside it,
    never to a path outside it: to the entry named by the sanitized name
    of the upload when that name is not empty; and a write that succeeds
    is always strictly inside the directory. *)
Theorem uploads_written_inside_workspace E config request project_id fs
    f target o :
  let out := generate_material_image E config request project_id fs in
  In (EvSave f target o) (trace_of out) ->
  exists made dir,
    In (EvMkdtemp made dir) (trace_of out) /\
    In f (uploads (ref_file_of request) (extra_files_of request)) /\
    (target = dir \/ strictly_inside dir target) /\
    (sanitized E f <> [] ->
     target = dir ++ [sanitized E f] /\ strictly_inside dir target) /\
    (o = Ok tt -> strictly_inside dir target).
Proof.
  cbv zeta. intros Hin.
  apply event_in_workspace in Hin
    as (w & fs2 & tw & Hw & Hin_w & Hin & rest & Htr & _);
    try discriminate.
  apply (in_workspace_save_event _ _ _ _ _ _ _ _ _ _ _ _ Hin_w) in Hin.
  exists (ws_made w), (os_target (cwd E) (ws_made w)).
  rewrite Htr. split; [now left|].
  destruct (write_all_events _ _ _ _ _ Hin) as (g & o' & Heq & Hg).
  injection Heq as <- -> <-. split; [exact Hg|].
  destruct (write_target_cases E (ws_made w) f) as [[Hn Ht]|[Hn Ht]].
  - split; [now left|]. split; [intros Hne; now destruct Hne|].
    intros ->. 
    destruct (write_all_Ok_event _ _ _ _ _ _
                (enters_workspace_Dir _ _ _ _ _ _ Hw) Hin) as [Hp Ht'].
    now exists (sanitized E f).
  - assert (strictly_inside (os_target (cwd E) (ws_made w))
              (write_target E (ws_made w) f)) as Hs
      by (now exists (sanitized E f)).
    split; [now right|]. split; [now split|]. now intros _.
Qed.

(** C10: whenever [generate_image] is called, each path of the temporary
    directory that was written holds the bytes of the last upload whose
    name sanitizes to the name of that path, earlier uploads of that name
    being overwritten; uploads whose names sanitize to the same name have the
    same stored path, so that the paths passed on, one for the main
    reference image and one for each named extra image, repeat that path. *)
Theorem same_name_overwrites E config request project_id fs a fsc o :
  let out := generate_material_image E config request project_id fs in
  let ups := uploads (ref_file_of request) (extra_files_of request) in
  In (EvGenerate a fsc o) (trace_of out) ->
  exists made dir,
    In (EvMkdtemp made dir) (trace_of out) /\
    ref_image_path a =
      option_map (stored_path E made) (valid_ref (ref_file_of request)) /\
    additional_ref_images a =
      list_or_None
        (map (stored_path E made) (List.filter named (extra_files_of request))) /\
    (forall f g, sanitized E f = sanitized E g ->
                 stored_path E made f = stored_path E made g) /\
    forall f, In f ups ->
      os_target (cwd E) (stored_path E made f) = dir ++ [sanitized E f] /\
      exists before g after,
        ups = before ++ g :: after /\
        sanitized E g = sanitized E f /\
        (forall h, In h after -> sanitized E h <> sanitized E f) /\
        fsc !! (dir ++ [sanitized E f]) = Some (File (stream g)).
Proof.
  cbv zeta. intros Hin.
  apply event_in_workspace in Hin
    as (w & fs2 & tw & Hw & Hin_w & Hin & rest & Htr & _);
    try discriminate.
  destruct (in_workspace_generate_event _ _ _ _ _ _ _ _ _ _ _ _ Hin_w Hin)
    as (Hok & -> & (ar & res & _ & _ & ->) & _).
  pose proof (enters_workspace_Dir _ _ _ _ _ _ Hw) as Hdir.
  set (made := ws_made w) in *. set (dir := os_target (cwd E) made) in *.
  set (ups := uploads (ref_file_of request) (extra_files_of request)) in *.
  exists made, dir. rewrite Htr. split; [now left|].
  split; [reflexivity|]. split; [reflexivity|].
  split; [intros f g Hfg; unfold stored_path; now rewrite Hfg|].
  intros f Hf.
  destruct (write_all_Ok_targets E made ups _ f Hdir Hok Hf) as [Hn Ht].
  fold dir in Ht. split; [exact Ht|].
  destruct (write_all_Ok _ _ _ _ Hok) as [_ ->].
  rewrite <- Ht, written_lookup.
  pose proof (last_writer_split E made (write_target E made f) ups) as Hlast.
  destruct (last_writer E made (write_target E made f) ups) as [g|].
  - destruct Hlast as (before & after & Hups & Hg & Hafter).
    exists before, g, after. split; [exact Hups|].
    assert (forall h, In h ups ->
              write_target E made h = dir ++ [sanitized E h]) as Htargets
      by (intros h Hh; now apply (write_all_Ok_targets E made ups _ h Hdir Hok)).
    split; [|split; [|reflexivity]].
    + rewrite Htargets, Ht in Hg by (rewrite Hups; apply in_elt).
      apply app_inv_head in Hg. now injection Hg.
    + intros h Hh Heq. rewrite List.Forall_forall in Hafter.
      apply (Hafter h Hh). rewrite Htargets, Ht.
      * now rewrite Heq.
      * rewrite Hups. apply in_or_app. right. now right.
  - exfalso. rewrite List.Forall_forall in Hlast. now apply (Hlast f Hf).
Qed.

(** * The claims on the concrete deployment *)

Import Scenario.

Lemma In_by_decide {A} `{EqDecision A} (x : A) l :
  bool_decide (x ∈ l) = true -> In x l.
Proof. intros H. apply list_elem_of_In. now apply bool_decide_eq_true in H. Qed.

Lemma not_In_by_decide {A} `{EqDecision A} (x : A) l :
  bool_decide (x ∈ l) = false -> ~ In x l.
Proof.
  intros H Hin. apply list_elem_of_In in Hin.
  now apply bool_decide_eq_false in H.
Qed.

Lemma unknown_project_witness :
  Project_query_get posix_env (py "p2") = Ok None /\
  generate_material_image posix_env app_config json_cube (py "p2") disk =
    (Ok (not_found (py "Project")), disk, []).
Proof.
  split; [reflexivity|].
  apply (unknown_project_is_not_found posix_env app_config json_cube (py "p2") disk).
  reflexivity.
Defined.

Lemma empty_prompt_witness :
  supplied_prompt json_blank = Some (py "  ") /\
  strip (py "  ") = [] /\
  generate_material_image posix_env app_config json_blank (py "p1") disk =
    (Ok (bad_request (py "prompt is required")), disk, []).
Proof.
  split; [reflexivity|]. split; [reflexivity|].
  apply (empty_prompt_is_bad_request posix_env app_config json_blank (py "p1")
           disk (mkProject (py "p1") 0) (py "  ")); reflexivity.
Defined.

(** C2 as stated fails: a blank prompt sent for a project that does not
    exist is answered with 404, not with 400. *)
Lemma empty_prompt_unknown_project :
  supplied_prompt json_blank = Some (py "  ") /\
  strip (py "  ") = [] /\
  value_of (generate_material_image posix_env app_config json_blank (py "p2") disk)
    = Ok (not_found (py "Project")) /\
  status_code (not_found (py "Project")) <> 400.
Proof. repeat split; try reflexivity. discriminate. Qed.

Lemma temp_dir_removed_witness :
  let out :=
    generate_material_image posix_env app_config form_uploads (py "p1") disk in
  In (EvMkdtemp tmp_made tmp_dir) (trace_of out) /\ fs_of out !! tmp_dir = None.
Proof.
  split; [apply In_by_decide; vm_compute; reflexivity|].
  apply (temp_dir_removed posix_env app_config form_uploads (py "p1") disk tmp_made).
  apply In_by_decide. vm_compute. reflexivity.
Defined.

Lemma transaction_boundary_witness :
  let out :=
    generate_material_image posix_env app_config json_cube (py "p1") disk in
  value_of out =
    Ok (success_response (py "/files/p1/materials/m1.png")
          (py "p1/materials/m1.png")) /\
  count KCommit (trace_of out) = 1%nat /\
  count KRollback (trace_of out) = 0%nat.
Proof.
  split; [vm_compute; reflexivity|].
  apply (proj1 (transaction_boundary posix_env app_config json_cube (py "p1") disk)
           (py "/files/p1/materials/m1.png") (py "p1/materials/m1.png")).
  vm_compute. reflexivity.
Defined.

Lemma service_errors_witness :
  let out :=
    generate_material_image failing_env app_config json_cube (py "p1") disk in
  value_of (handler_body failing_env app_config json_cube (py "p1") disk) =
    Raise (Raised (py "quota exceeded")) /\
  value_of out =
    Ok (error_response (py "AI_SERVICE_ERROR") (py "quota exceeded") 503) /\
  count KRollback (trace_of out) = 1%nat.
Proof.
  split; [vm_compute; reflexivity|].
  apply (proj1 (service_errors_are_503 failing_env app_config json_cube
                  (py "p1") disk) (Raised (py "quota exceeded"))).
  vm_compute. reflexivity.
Defined.

(** C4 as stated fails: when the image service returns no image the
    handler answers 503 without rolling the session back. *)
Lemma no_image_is_not_rolled_back :
  let out :=
    generate_material_image no_image_env app_config json_cube (py "p1") disk in
  In (EvGenerate cube_args (<[tmp_dir := Dir]> disk) (Ok None)) (trace_of out) /\
  value_of out =
    Ok (error_response (py "AI_SERVICE_ERROR")
          (py "Failed to generate image") 503) /\
  ~ In EvRollback (trace_of out).
Proof.
  split; [|split].
  - apply In_by_decide. vm_compute. reflexivity.
  - vm_compute. reflexivity.
  - apply not_In_by_decide. vm_compute. reflexivity.
Qed.

Lemma prompt_passed_witness :
  let out :=
    generate_material_image posix_env app_config form_uploads (py "p1") disk in
  In (EvGenerate uploads_args uploads_fs (Ok (Some the_image))) (trace_of out) /\
  exists s,
    supplied_prompt form_uploads = Some s /\
    prompt uploads_args = strip s /\
    prompt uploads_args <> [] /\
    (ref_image_path uploads_args = None <->
     valid_ref (ref_file_of form_uploads) = None).
Proof.
  split; [apply In_by_decide; vm_compute; reflexivity|].
  apply (prompt_passed_verbatim posix_env app_config form_uploads (py "p1") disk
           uploads_args uploads_fs (Ok (Some the_image))).
  apply In_by_decide. vm_compute. reflexivity.
Defined.

Lemma posix_storage_follows_spec : storage_follows_spec posix_env.
Proof.
  intros image pid fs rp fs' [= <- _]. exists (py "m1.png"). split.
  - split; [|reflexivity]. vm_compute. intuition discriminate.
  - reflexivity.
Defined.

Lemma success_names_witness :
  let out :=
    generate_material_image posix_env app_config json_cube (py "p1") disk in
  storage_follows_spec posix_env /\
  value_of out =
    Ok (success_response (py "/files/p1/materials/m1.png")
          (py "p1/materials/m1.png")) /\
  exists file_name,
    py "p1/materials/m1.png" = material_relative_path (py "p1") file_name /\
    Path_name (Path_of (py "p1/materials/m1.png")) = file_name /\
    get_file_url posix_env (py "p1") (py "materials") file_name =
      Ok (py "/files/p1/materials/m1.png").
Proof.
  split; [exact posix_storage_follows_spec|].
  split; [vm_compute; reflexivity|].
  apply (success_names_the_material posix_env app_config json_cube (py "p1") disk
           (py "/files/p1/materials/m1.png") (py "p1/materials/m1.png")
           posix_storage_follows_spec).
  vm_compute. reflexivity.
Defined.

Lemma extra_images_witness :
  let out :=
    generate_material_image posix_env app_config form_uploads (py "p1") disk in
  let extras := getlist uploads_files (py "extra_images") in
  let ups := uploads (dict_get uploads_files (py "ref_image")) extras in
  let wrote f := EvSave f (write_target posix_env tmp_made f) (Ok tt) in
  In (EvMkdtemp tmp_made tmp_dir) (trace_of out) /\
  ((saves (trace_of out) = map wrote ups /\
    (DEFAULT_ASPECT_RATIO app_config <> None ->
     DEFAULT_RESOLUTION app_config <> None ->
     exists a fsc o, In (EvGenerate a fsc o) (trace_of out)) /\
    forall a fsc o,
      In (EvGenerate a fsc o) (trace_of out) ->
      (List.filter named extras = [] -> additional_ref_images a = None) /\
      (List.filter named extras <> [] ->
       additional_ref_images a =
         Some (map (stored_path posix_env tmp_made) (List.filter named extras)))) \/
   (exists before f after e,
      ups = before ++ f :: after /\
      saves (trace_of out) =
        map wrote before ++
        [EvSave f (write_target posix_env tmp_made f) (Raise e)] /\
      (forall a fsc o, ~ In (EvGenerate a fsc o) (trace_of out)) /\
      value_of out =
        Ok (error_response (py "AI_SERVICE_ERROR") (exn_str e) 503))).
Proof.
  split; [apply In_by_decide; vm_compute; reflexivity|].
  apply (proj2 (proj2 (extra_images_materialized posix_env app_config
                         uploads_form uploads_files (py "p1") disk))
           tmp_made tmp_dir).
  apply In_by_decide. vm_compute. reflexivity.
Defined.

(** C6 as stated fails: an extra image that is present and has a name is
    not written when the write of an upload before it raises, here for a
    name longer than a directory entry may be; the request is answered
    with 503. *)
Lemma named_extra_is_not_materialized :
  let out :=
    generate_material_image posix_env app_config form_too_long (py "p1") disk in
  In ok_png (extra_files_of form_too_long) /\
  filename ok_png = Some (py "ok.png") /\
  In (EvMkdtemp tmp_made tmp_dir) (trace_of out) /\
  saves (trace_of out) =
    [EvSave too_long (tmp_dir ++ [long_name])
       (Raise (Raised (py "[Errno 36] File name too long: " ++
                       repr (tmp_made ++ py "/" ++ long_name))))] /\
  (forall target o, ~ In (EvSave ok_png target o) (trace_of out)) /\
  value_of out =
    Ok (error_response (py "AI_SERVICE_ERROR")
          (py "[Errno 36] File name too long: " ++
           repr (tmp_made ++ py "/" ++ long_name)) 503).
Proof.
  cbv zeta.
  assert (saves (trace_of (generate_material_image posix_env app_config
                             form_too_long (py "p1") disk)) =
          [EvSave too_long (tmp_dir ++ [long_name])
             (Raise (Raised (py "[Errno 36] File name too long: " ++
                             repr (tmp_made ++ py "/" ++ long_name))))])
    as Hsaves by (vm_compute; reflexivity).
  split; [right; left; reflexivity|]. split; [reflexivity|].
  split; [apply In_by_decide; vm_compute; reflexivity|].
  split; [exact Hsaves|]. split; [|vm_compute; reflexivity].
  intros target o Hin.
  assert (In (EvSave ok_png target o)
            (saves (trace_of (generate_material_image posix_env app_config
                                form_too_long (py "p1") disk)))) as Hs
    by (apply filter_In; split; [exact Hin | reflexivity]).
  rewrite Hsaves in Hs. destruct Hs as [Heq|[]]. discriminate Heq.
Qed.

Lemma uploads_inside_witness :
  let out :=
    generate_material_image posix_env app_config form_uploads (py "p1") disk in
  let target := tmp_dir ++ [py "evil.png"] in
  In (EvSave evil_png target (Ok tt)) (trace_of out) /\
  exists made dir,
    In (EvMkdtemp made dir) (trace_of out) /\
    In evil_png (uploads (ref_file_of form_uploads) (extra_files_of form_uploads)) /\
    (target = dir \/ strictly_inside dir target) /\
    (sanitized posix_env evil_png <> [] ->
     target = dir ++ [sanitized posix_env evil_png] /\
     strictly_inside dir target) /\
    (Ok tt = Ok tt -> strictly_inside dir target).
Proof.
  split; [apply In_by_decide; vm_compute; reflexivity|].
  apply (uploads_written_inside_workspace posix_env app_config form_uploads
           (py "p1") disk evil_png (tmp_dir ++ [py "evil.png"]) (Ok tt)).
  apply In_by_decide. vm_compute. reflexivity.
Defined.

(** C5 fails on the code at a main reference image declared as "../..":
    its sanitized name is empty, the fallback name of line 61 is applied
    to the declared name and not to the sanitized one, so the handler
    opens the temporary directory itself for writing, which is not a path
    strictly inside it; the write raises, the upload is not stored and
    the request is answered with 503. *)
Lemma dot_dot_is_not_stored_inside :
  let out :=
    generate_material_image posix_env app_config form_dot_dot (py "p1") disk in
  filename dot_dot = Some (py "../..") /\
  sanitized posix_env dot_dot = [] /\
  In (EvMkdtemp tmp_made tmp_dir) (trace_of out) /\
  saves (trace_of out) =
    [EvSave dot_dot tmp_dir (Raise (IsADirectoryError tmp_made))] /\
  ~ strictly_inside tmp_dir tmp_dir /\
  value_of out =
    Ok (error_response (py "AI_SERVICE_ERROR")
          (exn_str (IsADirectoryError tmp_made)) 503).
Proof.
  cbv zeta. split; [reflexivity|]. split; [vm_compute; reflexivity|].
  split; [apply In_by_decide; vm_compute; reflexivity|].
  split; [vm_compute; reflexivity|].
  split; [|vm_compute; reflexivity].
  intros (n & _ & H). apply (f_equal (@length _)) in H.
  rewrite length_app in H. simpl in H. lia.
Qed.

Lemma same_name_witness :
  let out :=
    generate_material_image posix_env app_config form_uploads (py "p1") disk in
  let ups := uploads (ref_file_of form_uploads) (extra_files_of form_uploads) in
  In (EvGenerate uploads_args uploads_fs (Ok (Some the_image))) (trace_of out) /\
  sanitized posix_env a_b_first = sanitized posix_env a_b_second /\
  uploads_fs !! (tmp_dir ++ [py "a_b.png"]) = Some (File (stream a_b_second)) /\
  exists made dir,
    In (EvMkdtemp made dir) (trace_of out) /\
    ref_image_path uploads_args =
      option_map (stored_path posix_env made)
        (valid_ref (ref_file_of form_uploads)) /\
    additional_ref_images uploads_args =
      list_or_None
        (map (stored_path posix_env made)
           (List.filter named (extra_files_of form_uploads))) /\
    (forall f g, sanitized posix_env f = sanitized posix_env g ->
                 stored_path posix_env made f = stored_path posix_env made g) /\
    forall f, In f ups ->
      os_target (cwd posix_env) (stored_path posix_env made f) =
        dir ++ [sanitized posix_env f] /\
      exists before g after,
        ups = before ++ g :: after /\
        sanitized posix_env g = sanitized posix_env f /\
        (forall h, In h after -> sanitized posix_env h <> sanitized posix_env f) /\
        uploads_fs !! (dir ++ [sanitized posix_env f]) = Some (File (stream g)).
Proof.
  split; [apply In_by_decide; vm_compute; reflexivity|].
  split; [vm_compute; reflexivity|]. split; [vm_compute; reflexivity|].
  apply (same_name_overwrites posix_env app_config form_uploads (py "p1") disk
           uploads_args uploads_fs (Ok (Some the_image))).
  apply In_by_decide. vm_compute. reflexivity.
Defined.

(** ** The exits of the handler, one by one *)

(** A JSON request with a prompt: the success response, and the material
    stored while the temporary directory is gone. *)
Example json_request_succeeds :
  let out :=
    generate_material_image posix_env app_config json_cube (py "p1") disk in
  value_of out =
    Ok (success_response (py "/files/p1/materials/m1.png")
          (py "p1/materials/m1.png")) /\
  map kind_of (trace_of out) =
    [KMkdtemp; KGenerate; KSaveMaterial; KCommit; KRmtree] /\
  fs_of out !! tmp_dir = None.
Proof. cbv zeta. repeat split; vm_compute; reflexivity. Qed.

(** The uploads of a form are written before the call, the two that
    sanitize to "a_b.png" at the same place, and removed after it. *)
Example form_request_succeeds :
  let out :=
    generate_material_image posix_env app_config form_uploads (py "p1") disk in
  map kind_of (trace_of out) =
    [KMkdtemp; KSave; KSave; KSave; KGenerate; KSaveMaterial; KCommit; KRmtree] /\
  sanitized posix_env evil_png = py "evil.png" /\
  sanitized posix_env a_b_first = py "a_b.png" /\
  sanitized posix_env a_b_second = py "a_b.png" /\
  fs_of out !! tmp_dir = None /\
  fs_of out !! (tmp_dir ++ [py "a_b.png"]) = None.
Proof. cbv zeta. repeat split; vm_compute; reflexivity. Qed.

(** No image: 503 without rollback, the temporary directory removed. *)
Example no_image_cleans_up :
  let out :=
    generate_material_image no_image_env app_config json_cube (py "p1") disk in
  status_code
    (error_response (py "AI_SERVICE_ERROR") (py "Failed to generate image") 503)
    = 503 /\
  map kind_of (trace_of out) = [KMkdtemp; KGenerate; KRmtree] /\
  fs_of out !! tmp_dir = None.
Proof. cbv zeta. repeat split; vm_compute; reflexivity. Qed.

(** The image service raises: 503 after clean-up and rollback. *)
Example failing_service_cleans_up :
  let out :=
    generate_material_image failing_env app_config json_cube (py "p1") disk in
  map kind_of (trace_of out) = [KMkdtemp; KGenerate; KRmtree; KRollback] /\
  fs_of out !! tmp_dir = None.
Proof. cbv zeta. repeat split; vm_compute; reflexivity. Qed.

(** A write raises: 503 after clean-up and rollback, no call of the image
    service. *)
Example failing_write_cleans_up :
  let out :=
    generate_material_image posix_env app_config form_dot_dot (py "p1") disk in
  map kind_of (trace_of out) = [KMkdtemp; KSave; KRmtree; KRollback] /\
  fs_of out !! tmp_dir = None.
Proof. cbv zeta. repeat split; vm_compute; reflexivity. Qed.

(** A full disk: the first upload is made empty, its write raises, the
    directory is removed with it and the answer is 503 after a rollback. *)
Example full_disk_cleans_up :
  let out :=
    generate_material_image full_disk_env app_config form_uploads (py "p1") disk in
  map kind_of (trace_of out) = [KMkdtemp; KSave; KRmtree; KRollback] /\
  value_of out =
    Ok (error_response (py "AI_SERVICE_ERROR")
          (py "[Errno 28] No space left on device") 503) /\
  fs_of out !! tmp_dir = None /\
  fs_of out !! (tmp_dir ++ [py "evil.png"]) = None.
Proof. cbv zeta. repeat split; vm_compute; reflexivity. Qed.

(** A JSON prompt that is a float. *)
Example json_float_prompt :
  generate_material_image posix_env app_config Conditions.json_float (py "p1")
    disk =
    (Ok (error_response (py "AI_SERVICE_ERROR")
           (py "'float' object has no attribute 'strip'") 503),
     disk, [EvRollback]).
Proof. vm_compute. reflexivity. Qed.

(** pathlib keeps a root of exactly two slashes and folds three or more
    into one; the kernel resolves all of them from the root. *)
Example double_slash_is_kept :
  Path_str (joinpath (Path_of (py "//srv/uploads/tmp")) (py "a.png")) =
    py "//srv/uploads/tmp/a.png" /\
  Path_str (joinpath (Path_of (py "///srv/uploads/tmp")) (py "a.png")) =
    py "/srv/uploads/tmp/a.png" /\
  os_target [py "home"] (py "//srv/uploads/tmp/a.png") =
    [py "srv"; py "uploads"; py "tmp"; py "a.png"].
Proof. repeat split; vm_compute; reflexivity. Qed.

(** A JSON prompt that is not text has no [strip]: the handler answers 503
    with the text of the [AttributeError]. *)
Example json_null_prompt :
  supplied_prompt json_null = None /\
  generate_material_image posix_env app_config json_null (py "p1") disk =
    (Ok (error_response (py "AI_SERVICE_ERROR")
           (py "'NoneType' object has no attribute 'strip'") 503),
     disk, [EvRollback]).
Proof. split; vm_compute; reflexivity. Qed.

(** * Further properties of the handler *)

Import Conditions.

Section further.
Variable E : Env.
Variable config : Config.
Variable request : Request.
Variable project_id : pystr.
Variable fs : FS.

Let out := generate_material_image E config request project_id fs.

(** How the inner [try] can end with a response. *)
Lemma in_workspace_response w ref_file extra_files r fs' tw :
  in_workspace E config project_id w ref_file extra_files (Ok r) fs' tw ->
  (exists image_url relative_path,
     r = success_response image_url relative_path) \/
  r = error_response (py "AI_SERVICE_ERROR") (py "Failed to generate image") 503.
Proof.
  inversion 1 as [| |ar res r' fs2 tg o' Ho Har Hres Hgen]; subst.
  inversion Hgen; subst; eauto.
Qed.

(** X1: a response the handler returns is one of four: the refusal of an
    unknown project, the refusal of a missing prompt, the success
    response, or a 503 with code AI_SERVICE_ERROR. *)
Theorem responses_are_of_four_kinds r :
  value_of out = Ok r ->
  r = not_found (py "Project") \/
  r = bad_request (py "prompt is required") \/
  (exists image_url relative_path,
     r = success_response image_url relative_path) \/
  (exists message, r = error_response (py "AI_SERVICE_ERROR") message 503).
Proof.
  unfold out. rewrite handler_value. intros [= <-].
  destruct (value_of (handler_body E config request project_id fs))
    as [r|e] eqn:Hb; [|right; right; right; eauto].
  destruct (handler_body_workspace E config request project_id fs)
    as [[_ Hearly]|(w & fs2 & tw & _ & Hin_w & _)]; rewrite Hb in *.
  - destruct Hearly as [-> | ->]; auto.
  - apply in_workspace_response in Hin_w as [Hs | ->]; [auto|].
    right; right; right; eauto.
Qed.

(** X2: a JSON object whose prompt is not text (a number, null, a list...)
    is not refused with 400: [.strip()] raises, and the handler answers 503
    with the text of the [AttributeError] after a rollback, without having
    made a temporary directory. *)
Theorem json_prompt_not_text_is_503 p d v :
  Project_query_get E project_id = Ok (Some p) ->
  Project_bool E p = true ->
  request = JsonRequest (Ok (JDict d)) ->
  dict_get d (py "prompt") = Some v ->
  (forall s, v <> JStr s) ->
  out =
    (Ok (error_response (py "AI_SERVICE_ERROR")
           (exn_str (AttributeError (json_type_name v) (py "strip"))) 503),
     fs, [EvRollback]).
Proof.
  intros Hq Hp Hreq Hd Hv. unfold out. rewrite Hreq.
  unfold generate_material_image, try_except, handler_body.
  rewrite Hq, bind_lift_Ok. cbn [project_truthy]. rewrite Hp. cbn [negb].
  assert (parse_request (JsonRequest (Ok (JDict d))) fs =
          (Raise (AttributeError (json_type_name v) (py "strip")), fs, []))
    as Hparse.
  { unfold parse_request. rewrite bind_lift_Ok.
    destruct d as [|kv d]; [discriminate Hd|]. cbn [json_bool].
    unfold data_get_prompt. rewrite bind_ret, Hd.
    destruct v; try reflexivity. now destruct (Hv s). }
  rewrite (bind_Raise _ _ _ _ _ _ Hparse). reflexivity.
Qed.

(** X3: a JSON body that is false in Python ([null], [false], [0], [""],
    [[]], [{}]) is read as an empty object, hence as a missing prompt: 400
    when the project exists. *)
Theorem json_falsy_body_is_bad_request p j :
  Project_query_get E project_id = Ok (Some p) ->
  Project_bool E p = true ->
  request = JsonRequest (Ok j) ->
  json_bool j = false ->
  out = (Ok (bad_request (py "prompt is required")), fs, []).
Proof.
  intros Hq Hp Hreq Hj. unfold out. rewrite Hreq.
  unfold generate_material_image, try_except, handler_body.
  rewrite Hq, bind_lift_Ok. cbn [project_truthy]. rewrite Hp. cbn [negb].
  assert (parse_request (JsonRequest (Ok j)) fs = (Ok ([], None, []), fs, []))
    as Hparse.
  { unfold parse_request. rewrite bind_lift_Ok, Hj. reflexivity. }
  rewrite (bind_Ok_nil _ _ _ _ _ Hparse). reflexivity.
Qed.

(** X4: a JSON body that is true in Python and is not an object (a
    non-empty list or text, a number, [true]) has no [get]: the handler
    answers 503 with the text of the [AttributeError] after a rollback,
    without having made a temporary directory. *)
Theorem json_body_not_object_is_503 p j :
  Project_query_get E project_id = Ok (Some p) ->
  Project_bool E p = true ->
  request = JsonRequest (Ok j) ->
  json_bool j = true ->
  (forall d, j <> JDict d) ->
  out =
    (Ok (error_response (py "AI_SERVICE_ERROR")
           (exn_str (AttributeError (json_type_name j) (py "get"))) 503),
     fs, [EvRollback]).
Proof.
  intros Hq Hp Hreq Hj Hd. unfold out. rewrite Hreq.
  unfold generate_material_image, try_except, handler_body.
  rewrite Hq, bind_lift_Ok. cbn [project_truthy]. rewrite Hp. cbn [negb].
  assert (parse_request (JsonRequest (Ok j)) fs =
          (Raise (AttributeError (json_type_name j) (py "get")), fs, []))
    as Hparse.
  { unfold parse_request. rewrite bind_lift_Ok, Hj.
    destruct j; try reflexivity. now destruct (Hd d). }
  rewrite (bind_Raise _ _ _ _ _ _ Hparse). reflexivity.
Qed.

(** X5: when GOOGLE_API_KEY, GOOGLE_API_BASE or UPLOAD_FOLDER is not set,
    the handler makes no temporary directory, writes no upload, never calls
    the image service and never succeeds: its trace is empty or the
    rollback alone. For a request that passes the two checks and a missing
    GOOGLE_API_KEY the answer is the 503 of the [KeyError]. *)
Theorem missing_service_key :
  GOOGLE_API_KEY config = None \/ GOOGLE_API_BASE config = None \/
  UPLOAD_FOLDER config = None ->
  (trace_of out = [] \/ trace_of out = [EvRollback]) /\
  (forall image_url relative_path,
     value_of out <> Ok (success_response image_url relative_path)) /\
  (forall p s,
     Project_query_get E project_id = Ok (Some p) ->
     Project_bool E p = true ->
     supplied_prompt request = Some s -> strip s <> [] ->
     GOOGLE_API_KEY config = None ->
     out =
       (Ok (error_response (py "AI_SERVICE_ERROR") (py "'GOOGLE_API_KEY'") 503),
        fs, [EvRollback])).
Proof.
  intros Hmiss.
  assert (trace_of (handler_body E config request project_id fs) = [] /\
          early_value (value_of (handler_body E config request project_id fs)))
    as [Hnil Hearly].
  { destruct (handler_body_workspace E config request project_id fs)
      as [H|(w & fs2 & tw & Hw & _)]; [exact H|].
    destruct Hw as (k & b & u & fs0 & rf & xs & H).
    destruct H as (_ & _ & _ & _ & _ & _ & Hk & Hb & _ & Hu & _).
    destruct Hmiss as [H|[H|H]]; congruence. }
  split; [|split].
  - unfold out. rewrite handler_trace, Hnil.
    destruct (value_of _); auto.
  - unfold out. rewrite handler_value. intros url rp.
    destruct (value_of (handler_body E config request project_id fs)) as [r|e];
      [|discriminate].
    intros [= ->]. now destruct Hearly.
  - intros p s Hq Hp Hs Hne Hkey.
    unfold out, generate_material_image, try_except, handler_body.
    rewrite Hq, bind_lift_Ok. cbn [project_truthy]. rewrite Hp. cbn [negb].
    rewrite (bind_Ok_nil _ _ _ _ _ (parse_request_supplied _ _ fs Hs)).
    destruct (strip s) as [|c r] eqn:Hstrip; [now destruct Hne|].
    cbn [str_bool negb]. rewrite Hkey. reflexivity.
Qed.

(** X6: the image service is called only when DEFAULT_ASPECT_RATIO and
    DEFAULT_RESOLUTION are both set, and then with their values; when one
    of them is missing the handler never calls it and never succeeds. *)
Theorem generate_uses_configured_format :
  (forall a fsc o,
     In (EvGenerate a fsc o) (trace_of out) ->
     DEFAULT_ASPECT_RATIO config = Some (aspect_ratio a) /\
     DEFAULT_RESOLUTION config = Some (resolution a)) /\
  (DEFAULT_ASPECT_RATIO config = None \/ DEFAULT_RESOLUTION config = None ->
   count KGenerate (trace_of out) = 0%nat /\
   forall image_url relative_path,
     value_of out <> Ok (success_response image_url relative_path)).
Proof.
  split.
  - intros a fsc o Hin.
    apply event_in_workspace in Hin as (w & fs2 & tw & _ & Hin_w & Hin & _);
      try discriminate.
    destruct (in_workspace_generate_event _ _ _ _ _ _ _ _ _ _ _ _ Hin_w Hin)
      as (_ & _ & (ar & res & Har & Hres & ->) & _).
    now split.
  - intros Hmiss.
    assert (forall r fs2 tw w,
      in_workspace E config project_id w (ref_file_of request)
        (extra_files_of request) r fs2 tw ->
      count KGenerate tw = 0%nat /\
      forall url rp, r <> Ok (success_response url rp)) as Hw.
    { intros r fs2 tw w Hin_w.
      inversion Hin_w as [e o' Ho|key o' Ho Hm|ar res r' fs3 tg o' Ho Har Hres _];
        subst.
      - split; [|discriminate].
        apply (count_other _ KSave _ (write_all_kinds _ _ _ _)). discriminate.
      - split; [|discriminate].
        apply (count_other _ KSave _ (write_all_kinds _ _ _ _)). discriminate.
      - destruct Hmiss; congruence. }
    unfold out. rewrite handler_trace, handler_value, count_app.
    destruct (handler_body_workspace E config request project_id fs)
      as [[Hnil Hearly]|(w & fs2 & tw & _ & Hin_w & _ & Htr)].
    + rewrite Hnil. split; [now destruct (value_of _)|].
      intros url rp. destruct (value_of _) as [r|e]; [|discriminate].
      intros [= ->]. now destruct Hearly.
    + cbv zeta in Htr. rewrite Htr.
      rewrite (count_cons KGenerate), !count_app.
      destruct (Hw _ _ _ _ Hin_w) as [-> Hns].
      rewrite (count_other KGenerate KRmtree _ (cleanup_kinds _ _ _))
        by discriminate.
      split; [now destruct (value_of _)|].
      intros url rp. destruct (value_of _) as [r|e]; [|discriminate].
      intros [= ->]. now apply (Hns url rp).
Qed.

(** X7: a JSON request has no uploads: the handler writes nothing into the
    temporary directory, and every call of the image service has neither a
    main reference path nor additional reference images. *)
Theorem json_request_writes_nothing get_json :
  request = JsonRequest get_json ->
  (forall f target o, ~ In (EvSave f target o) (trace_of out)) /\
  (forall a fsc o,
     In (EvGenerate a fsc o) (trace_of out) ->
     ref_image_path a = None /\ additional_ref_images a = None).
Proof.
  intros Hreq. split.
  - intros f target o Hin.
    apply event_in_workspace in Hin as (w & fs2 & tw & _ & Hin_w & Hin & _);
      try discriminate.
    apply (in_workspace_save_event _ _ _ _ _ _ _ _ _ _ _ _ Hin_w) in Hin.
    rewrite Hreq in Hin. exact Hin.
  - intros a fsc o Hin.
    apply event_in_workspace in Hin as (w & fs2 & tw & _ & Hin_w & Hin & _);
      try discriminate.
    destruct (in_workspace_generate_event _ _ _ _ _ _ _ _ _ _ _ _ Hin_w Hin)
      as (_ & _ & (ar & res & _ & _ & ->) & _).
    rewrite Hreq. now split.
Qed.

Lemma map_kind_saves tr :
  Forall (fun ev => kind_of ev = KSave) tr ->
  map kind_of tr = repeat KSave (length tr).
Proof.
  induction 1 as [|ev tr Hev _ IH]; [reflexivity|]. cbn. now rewrite Hev, IH.
Qed.

Lemma generated_kinds a fs0 r fs' tg :
  generated E project_id a fs0 r fs' tg ->
  map kind_of tg `prefix_of` [KGenerate; KSaveMaterial; KCommit] /\
  (In KCommit (map kind_of tg) ->
   exists image_url relative_path,
     r = Ok (success_response image_url relative_path)) /\
  (count KSaveMaterial tg <= 1)%nat.
Proof.
  destruct 1; cbn; (split; [|split]).
  all: try (unfold count; cbn; lia).
  all: try (first [now exists [KSaveMaterial; KCommit]
                  |now exists [KCommit] | now exists []]).
  all: intros Hkc; repeat (destruct Hkc as [Hkc|Hkc]; try discriminate Hkc);
    try contradiction; eauto.
Qed.

(** X9: the events of a run come in one order: the temporary directory is
    made first, then the uploads are written, then the image service is
    called, then the image is stored, then the session is committed, then
    the directory is removed, and only then the session is rolled back;
    any later step may be missing, and a committed run is not rolled
    back. *)
Theorem trace_order :
  let ks := map kind_of (trace_of out) in
  ks = [] \/ ks = [KRollback] \/
  exists n called cleaned rolled,
    ks = KMkdtemp :: repeat KSave n ++ called ++ cleaned ++ rolled /\
    called `prefix_of` [KGenerate; KSaveMaterial; KCommit] /\
    cleaned `prefix_of` [KRmtree] /\
    rolled `prefix_of` [KRollback] /\
    (In KCommit called -> rolled = []).
Proof.
  cbv zeta. unfold out. rewrite handler_trace.
  destruct (handler_body_workspace E config request project_id fs)
    as [[Hnil _]|(w & fs2 & tw & _ & Hin_w & _ & Htr)].
  { rewrite Hnil. destruct (value_of _); auto. }
  right; right. cbv zeta in Htr. rewrite Htr. clear Htr.
  assert (map kind_of (trace_of (cleanup E (Path_of (ws_made w)) fs2))
            `prefix_of` [KRmtree]) as Hcp.
  { rewrite cleanup_run. cbv zeta.
    destruct (bool_decide _); [now exists [] | now exists [KRmtree]]. }
  destruct (value_of (handler_body E config request project_id fs)) as [r|e].
  - exists (length (trace_of (write_all E (ws_made w)
               (uploads (ref_file_of request) (extra_files_of request)) (ws_fs w)))).
    inversion Hin_w as [| |ar res r' fs3 tg o' Ho Har Hres Hgen]; subst;
      subst o'.
    destruct (generated_kinds _ _ _ _ _ Hgen) as (Hgp & _).
    exists (map kind_of tg),
      (map kind_of (trace_of (cleanup E (Path_of (ws_made w)) fs2))), [].
    rewrite !map_app, map_cons, !map_app, <- ?app_assoc.
    rewrite map_kind_saves by apply write_all_kinds.
    split; [cbn [map]; rewrite ?app_nil_r; reflexivity|].
    split; [exact Hgp|]. split; [exact Hcp|].
    split; [now exists [KRollback] | reflexivity].
  - exists (length (trace_of (write_all E (ws_made w)
               (uploads (ref_file_of request) (extra_files_of request)) (ws_fs w)))).
    assert (exists tg,
      tw = trace_of (write_all E (ws_made w)
             (uploads (ref_file_of request) (extra_files_of request)) (ws_fs w))
           ++ tg /\
      map kind_of tg `prefix_of` [KGenerate; KSaveMaterial; KCommit] /\
      ~ In KCommit (map kind_of tg)) as (tg & -> & Hgp & Hnc).
    { inversion Hin_w as [e' o' Ho|key o' Ho Hm|ar res r' fs3 tg o' Ho Har Hres Hgen];
        subst; subst o'.
      - exists []. rewrite app_nil_r. split; [reflexivity|].
        split; [now exists [KGenerate; KSaveMaterial; KCommit] | intros []].
      - exists []. rewrite app_nil_r. split; [reflexivity|].
        split; [now exists [KGenerate; KSaveMaterial; KCommit] | intros []].
      - exists tg. destruct (generated_kinds _ _ _ _ _ Hgen) as (Hgp & Hc & _).
        split; [reflexivity|]. split; [exact Hgp|].
        intros Hk. now destruct (Hc Hk) as (? & ? & ?). }
    exists (map kind_of tg),
      (map kind_of (trace_of (cleanup E (Path_of (ws_made w)) fs2))), [KRollback].
    rewrite !map_app, map_cons, !map_app, <- ?app_assoc.
    rewrite map_kind_saves by apply write_all_kinds.
    split; [rewrite <- app_comm_cons, <- ?app_assoc; reflexivity|].
    split; [exact Hgp|]. split; [exact Hcp|].
    split; [now exists [] | intros Hk; now destruct (Hnc Hk)].
Qed.

Lemma count_pos_In k tr :
  count k tr <> 0%nat -> exists ev, In ev tr /\ kind_of ev = k.
Proof.
  unfold count. induction tr as [|x tr IH]; [intros H; now destruct H|].
  cbn. destruct (kind_eqb (kind_of x) k) eqn:Hx.
  - intros _. exists x. split; [now left|].
    destruct (kind_of x), k; try discriminate; reflexivity.
  - intros H. destruct (IH H) as (ev & Hev & Hk). exists ev. auto.
Qed.

Lemma In_count ev tr : In ev tr -> count (kind_of ev) tr <> 0%nat.
Proof.
  intros Hin H0. now apply (count_zero_not_In _ _ _ H0 Hin).
Qed.

(** X10: the session is committed in exactly the runs that return the
    success response, and rolled back in exactly the runs in which the body
    of the outer [try] raised: an error response that the handler builds
    itself (404, 400, the 503 of a missing image) comes with neither. *)
Theorem commit_and_rollback_exactly :
  (In EvCommit (trace_of out) <->
   exists image_url relative_path,
     value_of out = Ok (success_response image_url relative_path)) /\
  (In EvRollback (trace_of out) <->
   exists e, value_of (handler_body E config request project_id fs) = Raise e).
Proof.
  unfold out. rewrite handler_value, handler_trace.
  destruct (handler_body_counts E config request project_id fs) as [Hr Hc].
  cbv zeta in Hr, Hc.
  set (b := handler_body E config request project_id fs) in *.
  split; split.
  - intros Hin. apply in_app_or in Hin as [Hin|Hin].
    + apply In_count in Hin. cbn [kind_of] in Hin.
      destruct (value_of b) as [[url rp| | |]|e]; try (now destruct Hin); eauto.
    + destruct (value_of b); [destruct Hin | now destruct Hin as [|[]]].
  - intros (url & rp & Hv).
    destruct (value_of b) as [r|e]; [|discriminate]. injection Hv as ->.
    apply in_or_app. left.
    destruct (count_pos_In KCommit (trace_of b)) as (ev & Hev & Hk);
      [rewrite Hc; discriminate|].
    now destruct ev.
  - intros Hin. apply in_app_or in Hin as [Hin|Hin].
    + apply In_count in Hin. now destruct Hin.
    + destruct (value_of b) as [r|e]; [destruct Hin | eauto].
  - intros (e & ->). apply in_or_app. right. now left.
Qed.

Lemma in_workspace_call_counts w ref_file extra_files r fs' tw :
  in_workspace E config project_id w ref_file extra_files r fs' tw ->
  (count KGenerate tw <= 1)%nat /\ (count KSaveMaterial tw <= 1)%nat.
Proof.
  destruct 1 as [e o Ho|key o Ho Hmiss|ar res r fs2 tg o Ho Har Hres Hgen];
    subst o; rewrite ?count_app;
    rewrite !(count_other _ KSave _ (write_all_kinds _ _ _ _)) by discriminate;
    try (split; lia).
  destruct (generated_counts _ _ _ _ _ _ _ Hgen) as (_ & _ & _ & _ & -> & _).
  destruct (generated_kinds _ _ _ _ _ Hgen) as (_ & _ & Hs).
  split; lia.
Qed.

Lemma cleanup_count k made fs0 :
  (count k (trace_of (cleanup E (Path_of made) fs0)) <= 1)%nat.
Proof.
  rewrite cleanup_run. cbv zeta.
  destruct (bool_decide _); destruct k; unfold count; cbn; lia.
Qed.

(** X8: no step is taken twice in one request: there is one temporary
    directory at most, one call of the image service at most (no retry),
    one stored image, one commit, one removal and one rollback at most. *)
Theorem no_step_twice k :
  k <> KSave -> (count k (trace_of out) <= 1)%nat.
Proof.
  intros Hk. unfold out. rewrite handler_trace, count_app.
  destruct (handler_body_counts E config request project_id fs) as [Hr Hc].
  cbv zeta in Hr, Hc.
  assert (forall b : result Response,
            (count k (match b with Ok _ => [] | Raise _ => [EvRollback] end)
             <= match k with KRollback => 1 | _ => 0 end)%nat) as Hrb.
  { intros [r|e]; destruct k; unfold count; cbn; lia. }
  specialize (Hrb (value_of (handler_body E config request project_id fs))).
  destruct (handler_body_workspace E config request project_id fs)
    as [[Hnil _]|(w & fs2 & tw & _ & Hin_w & _ & Htr)].
  { rewrite Hnil. change (count k []) with 0%nat. destruct k; lia. }
  cbv zeta in Htr. rewrite Htr in *. clear Htr.
  rewrite (count_cons k), count_app.
  rewrite (count_cons KRollback), count_app in Hr.
  rewrite (count_cons KCommit), count_app in Hc.
  destruct (in_workspace_counts _ _ _ _ _ _ _ _ _ Hin_w) as (Hm & Hrm & Hro & Hco).
  destruct (in_workspace_call_counts _ _ _ _ _ _ Hin_w) as (Hg & Hs).
  pose proof (cleanup_count k (ws_made w) fs2) as Hcl.
  assert (count KCommit tw <= 1)%nat as Hco'.
  { rewrite Hco. destruct (value_of _) as [[]|]; lia. }
  destruct k; try (now destruct Hk);
    try rewrite (count_other _ KRmtree _ (cleanup_kinds _ _ _)) by discriminate;
    unfold count at 1; cbn [List.filter kind_of kind_eqb length]; lia.
Qed.

(** X14: a run returns the success response only after the image service
    returned an image that counts as one, the storage stored that image
    for this project and returned the [relative_path] of the response,
    [get_file_url] returned its [image_url] for the final part of that path,
    and the commit passed. *)
Theorem success_is_earned image_url relative_path :
  value_of out = Ok (success_response image_url relative_path) ->
  exists a fsc image,
    In (EvGenerate a fsc (Ok image)) (trace_of out) /\
    image_truthy E image = true /\
    In (EvSaveMaterial image project_id (Ok relative_path)) (trace_of out) /\
    get_file_url E project_id (py "materials")
      (Path_name (Path_of relative_path)) = Ok image_url /\
    session_commit E = Ok tt.
Proof.
  unfold out. rewrite handler_value, handler_trace.
  destruct (value_of (handler_body E config request project_id fs))
    as [r|e] eqn:Hb; [|discriminate].
  intros [= ->].
  destruct (handler_body_workspace E config request project_id fs)
    as [[_ Hearly]|(w & fs2 & tw & _ & Hin_w & _ & Htr)].
  { rewrite Hb in Hearly. now destruct Hearly. }
  rewrite Hb in Hin_w. cbv zeta in Htr. rewrite Htr, app_nil_r.
  inversion Hin_w as [| |ar res r fs3 tg o' Ho Har Hres Hgen]; subst.
  inversion Hgen as [| | | | |image fs1 rp fs4 url Hcall Htrue Hsave Hurl Hcommit];
    subst.
  eexists _, _, image. repeat split; try eassumption.
  - right. apply in_or_app. left. apply in_or_app. right. now left.
  - right. apply in_or_app. left. apply in_or_app. right. right. now left.
Qed.

(** X11: when an upload that the handler has to write has a name that
    sanitizes to the empty name (".." for one), the image service is never
    called and the request never succeeds. *)
Theorem empty_sanitized_name_blocks f :
  In f (uploads (ref_file_of request) (extra_files_of request)) ->
  sanitized E f = [] ->
  (forall a fsc o, ~ In (EvGenerate a fsc o) (trace_of out)) /\
  (forall image_url relative_path,
     value_of out <> Ok (success_response image_url relative_path)).
Proof.
  intros Hf Hempty.
  assert (forall a fsc o, ~ In (EvGenerate a fsc o) (trace_of out)) as Hno.
  { intros a fsc o Hin.
    apply event_in_workspace in Hin as (w & fs2 & tw & Hw & Hin_w & Hin & _);
      try discriminate.
    destruct (in_workspace_generate_event _ _ _ _ _ _ _ _ _ _ _ _ Hin_w Hin)
      as (Hok & _).
    destruct (write_all_Ok_targets E (ws_made w) _ _ f
                (enters_workspace_Dir _ _ _ _ _ _ Hw) Hok Hf) as [[Hne _] _].
    now apply Hne. }
  split; [exact Hno|].
  intros url rp. unfold out. rewrite handler_value.
  destruct (value_of (handler_body E config request project_id fs))
    as [r|e] eqn:Hb; [|discriminate].
  intros [= ->].
  destruct (handler_body_workspace E config request project_id fs)
    as [[_ Hearly]|(w & fs2 & tw & Hw & Hin_w & _)]; rewrite Hb in *.
  { now destruct Hearly. }
  inversion Hin_w as [| |ar res r fs3 tg o' Hok Har Hres Hgen]; subst.
  destruct (write_all_Ok_targets E (ws_made w) _ _ f
              (enters_workspace_Dir _ _ _ _ _ _ Hw) Hok Hf) as [[Hne _] _].
  now apply Hne.
Qed.

(** A request that has entered its workspace runs the inner [try] under
    its [finally]. *)
Lemma enters_workspace_run w :
  enters_workspace E config request project_id fs w ->
  let inner :=
    try_finally
      (workspace_body E config project_id (ws_project w) (ws_prompt w)
         (ref_file_of request) (extra_files_of request) (Path_of (ws_made w)))
      (cleanup E (Path_of (ws_made w))) (ws_fs w) in
  handler_body E config request project_id fs =
  (value_of inner, fs_of inner,
   EvMkdtemp (ws_made w) (os_target (cwd E) (ws_made w)) :: trace_of inner).
Proof.
  intros (k & b & u & fs0 & rf & xs & H).
  destruct H as (Hq & Hp & Hparse & -> & -> & Hprompt & Hk & Hb & Hai & Hu
                 & Hinit & Hmk & Hfs).
  cbv zeta. unfold handler_body.
  rewrite Hq, bind_lift_Ok, Hp. cbn [negb].
  rewrite (bind_Ok_nil _ _ _ _ _ Hparse), Hprompt. cbn [negb].
  rewrite Hk, Hb, Hu. cbn [config_get]. rewrite !bind_ret, Hai, bind_lift_Ok.
  rewrite bind_ret.
  assert (new_FileService E u fs = (Ok tt, fs0, [])) as Hnew
    by (unfold new_FileService; now rewrite Hinit).
  rewrite (bind_Ok_nil _ _ _ _ _ Hnew), bind_ret.
  assert (tempfile_mkdtemp E u fs0 =
          (Ok (ws_made w), ws_fs w,
           [EvMkdtemp (ws_made w) (os_target (cwd E) (ws_made w))])) as Hmk'
    by (unfold tempfile_mkdtemp; now rewrite Hmk, Hfs).
  rewrite (bind_Ok _ _ _ _ _ _ Hmk'). reflexivity.
Qed.

Lemma write_target_plain made f :
  sanitized E f <> [] ->
  write_target E made f = os_target (cwd E) made ++ [sanitized E f].
Proof.
  intros Hne. destruct (write_target_cases E made f) as [[Hn _]|[_ Ht]];
    [now destruct Hne | exact Ht].
Qed.

(** The writes all succeed when the uploads have non-empty sanitized names,
    the temporary directory holds no directory and the system refuses
    none of them. *)
Lemma write_all_succeeds made us fs0 :
  fs0 !! os_target (cwd E) made = Some Dir ->
  (forall n, fs0 !! (os_target (cwd E) made ++ [n]) <> Some Dir) ->
  (forall f, In f us -> sanitized E f <> []) ->
  (forall f fs', In f us ->
     open_fault E (stored_path E made f) fs' = None /\
     write_fault E (stored_path E made f) (stream f) fs' = None) ->
  value_of (write_all E made us fs0) = Ok tt.
Proof.
  revert fs0. induction us as [|f us IH]; intros fs0 Hdir Hsub Hnames Hos;
    [reflexivity|].
  rewrite write_all_cons.
  rewrite (write_target_plain made f) by (apply Hnames; now left).
  set (dir := os_target (cwd E) made) in *.
  set (n := sanitized E f).
  destruct (Hos f fs0 (or_introl eq_refl)) as [Hopen_ok Hwrite_ok].
  assert (open_for_writing E fs0 (dir ++ [n]) (stored_path E made f) = Ok tt)
    as ->.
  { unfold open_for_writing, parent. rewrite Hopen_ok, removelast_last, Hdir.
    pose proof (Hsub n) as Hn.
    destruct (fs0 !! (dir ++ [n])) as [[|c]|]; [now destruct Hn | |]; reflexivity. }
  rewrite Hwrite_ok.
  cbv zeta. unfold value_of at 1. cbn [fst].
  assert (dir <> dir ++ [n]) as Hneq.
  { intros Heq. apply (f_equal (@length _)) in Heq.
    rewrite length_app in Heq. cbn in Heq. lia. }
  apply IH.
  - rewrite lookup_insert_ne by (intros Heq; now apply Hneq). exact Hdir.
  - intros n'. destruct (decide (dir ++ [n] = dir ++ [n'])) as [Heq|Hne].
    + rewrite <- Heq, lookup_insert_eq. discriminate.
    + rewrite lookup_insert_ne by exact Hne. apply Hsub.
  - intros g Hg. apply Hnames. now right.
  - intros g fs' Hg. apply Hos. now right.
Qed.

(** X12: when the project exists, the request gives a prompt text that is
    not blank, every key of the configuration is set, the uploads to write
    have non-empty sanitized names, [mkdtemp] makes a fresh directory, the
    system refuses none of the writes and every collaborator does its
    work, the handler returns the success response. *)
Theorem request_succeeds p s :
  Project_query_get E project_id = Ok (Some p) ->
  Project_bool E p = true ->
  supplied_prompt request = Some s ->
  strip s <> [] ->
  config_complete config ->
  all_well E ->
  mkdtemp_is_fresh E config fs ->
  writes_allowed E config request fs ->
  (forall f,
     In f (uploads (ref_file_of request) (extra_files_of request)) ->
     sanitized E f <> []) ->
  exists image_url relative_path,
    value_of out = Ok (success_response image_url relative_path).
Proof.
  intros Hq Hp Hs Hne (Hk & Hb & Hu & Har & Hres) Hwell Hfresh Hos Hnames.
  destruct (GOOGLE_API_KEY config) as [k|] eqn:Ek; [|now destruct Hk].
  destruct (GOOGLE_API_BASE config) as [b|] eqn:Eb; [|now destruct Hb].
  destruct (UPLOAD_FOLDER config) as [u|] eqn:Eu; [|now destruct Hu].
  destruct (FileService_init E u fs) as [ri fs0] eqn:Einit.
  pose proof (FileService_returns E Hwell u fs) as Hri.
  rewrite Einit in Hri. cbn in Hri. subst ri.
  destruct (mkdtemp_returns E Hwell u fs0) as (made & Hmade).
  set (w := mkWorkspace (Some p) (strip s) made
              (<[os_target (cwd E) made := Dir]> fs0)).
  assert (enters_workspace E config request project_id fs w) as Hw.
  { exists k, b, u, fs0, (ref_file_of request), (extra_files_of request).
    cbn. repeat split; try assumption; try reflexivity.
    - apply (parse_request_supplied _ _ fs Hs).
    - destruct (strip s); [now destruct Hne | reflexivity].
    - apply (AIService_returns E Hwell). }
  unfold out. rewrite handler_value, (enters_workspace_run w Hw). cbv zeta.
  unfold value_of at 1. cbn [fst]. rewrite try_finally_cleanup.
  unfold value_of at 1. cbn [fst].
  destruct (workspace_body E config project_id (ws_project w) (ws_prompt w)
              (ref_file_of request) (extra_files_of request)
              (Path_of (ws_made w)) (ws_fs w)) as [[r fs2] tw] eqn:Hwb.
  apply workspace_body_run in Hwb.
  assert (value_of (write_all E made
            (uploads (ref_file_of request) (extra_files_of request))
            (<[os_target (cwd E) made := Dir]> fs0)) = Ok tt) as Hwrites.
  { apply write_all_succeeds.
    - apply lookup_insert_eq.
    - intros n. rewrite lookup_insert_ne.
      + pose proof (Hfresh u made) as Hf. rewrite Einit in Hf.
        cbn [snd] in Hf.
        rewrite (Hf ltac:(first [exact Eu | reflexivity]) Hmade);
          [discriminate | now exists [n]].
      + intros Heq. apply (f_equal (@length _)) in Heq.
        rewrite length_app in Heq. cbn in Heq. lia.
    - exact Hnames.
    - intros f fs' Hf. pose proof (Hos u made f fs') as Ho.
      rewrite Einit in Ho. cbn [snd] in Ho.
      exact (Ho ltac:(first [exact Eu | reflexivity]) Hmade Hf). }
  unfold value_of at 1. cbn [fst].
  inversion Hwb as [e o' Ho|key o' Ho Hm|ar res r' fs3 tg o' Ho Har' Hres' Hgen];
    subst; subst o'; cbn [ws_made ws_fs w] in *.
  - rewrite Hwrites in Ho. discriminate.
  - destruct Hm as [Hm|Hm]; [now destruct Har | now destruct Hres].
  - inversion Hgen as [e fs1 Hcall|image fs1 Hcall Ht|image fs1 e fs4 Hcall Ht Hsave
                      |image fs1 rp fs4 e Hcall Ht Hsave Hurl
                      |image fs1 rp fs4 url e Hcall Ht Hsave Hurl Hcommit
                      |image fs1 rp fs4 url Hcall Ht Hsave Hurl Hcommit]; subst.
    + match type of Hcall with generate_image E ?a ?f = _ =>
        destruct (image_returned E Hwell a f) as (i & Hi & _) end.
      rewrite Hcall in Hi. discriminate.
    + match type of Hcall with generate_image E ?a ?f = _ =>
        destruct (image_returned E Hwell a f) as (i & Hi & Hti) end.
      rewrite Hcall in Hi. cbn in Hi. injection Hi as <-. congruence.
    + destruct (image_stored E Hwell image project_id fs1) as (rp & Hrp).
      rewrite Hsave in Hrp. discriminate.
    + destruct (url_returned E Hwell project_id (py "materials")
                  (Path_name (Path_of rp))) as (url & Hu').
      congruence.
    + rewrite (commit_passes E Hwell) in Hcommit. discriminate.
    + eauto.
Qed.

(** What the writes leave alone: every path that is not the temporary
    directory or below it. *)
Lemma write_all_outside (made : pystr) (us : list FileStorage) (fs0 : FS)
    (q : list pystr) :
  ~ os_target (cwd E) made `prefix_of` q ->
  fs_of (write_all E made us fs0) !! q = fs0 !! q.
Proof.
  intros Hq. revert fs0. induction us as [|f us IH]; intros fs0; [reflexivity|].
  assert (write_target E made f <> q) as Hne.
  { intros <-. apply Hq.
    destruct (write_target_cases E made f) as [[_ ->]|[_ ->]];
      [reflexivity | now exists [sanitized E f]]. }
  rewrite write_all_cons.
  destruct (open_for_writing E fs0 _ _) as [[]|e]; [|reflexivity].
  destruct (write_fault E _ _ fs0) as [[e reached]|].
  - unfold fs_of. cbn [fst snd]. now apply lookup_insert_ne.
  - cbv zeta. unfold fs_of at 1. cbn [fst snd].
    fold (fs_of (write_all E made us
                   (<[write_target E made f := File (stream f)]> fs0))).
    rewrite IH. now apply lookup_insert_ne.
Qed.

Lemma remove_tree_other (dir : list pystr) (fs0 : FS) (q : list pystr) :
  ~ dir `prefix_of` q -> remove_tree dir fs0 !! q = fs0 !! q.
Proof.
  intros Hq. unfold remove_tree.
  destruct (fs0 !! q) as [x|] eqn:Hx.
  - apply map_lookup_filter_Some. split; [exact Hx | exact Hq].
  - apply map_lookup_filter_None. now left.
Qed.

Lemma generated_fs a fs0 r fs2 tg :
  services_leave_files E ->
  generated E project_id a fs0 r fs2 tg -> fs2 = fs0.
Proof.
  intros (_ & Hgen & Hsave) H.
  inversion H as [e fs1 Hcall|image fs1 Hcall Ht|image fs1 e fs4 Hcall Ht Hs
                 |image fs1 rp fs4 e Hcall Ht Hs Hurl
                 |image fs1 rp fs4 url e Hcall Ht Hs Hurl Hcommit
                 |image fs1 rp fs4 url Hcall Ht Hs Hurl Hcommit]; subst;
    pose proof (Hgen a fs0) as H1; rewrite Hcall in H1; cbn in H1; subst;
    try reflexivity;
    pose proof (Hsave image project_id fs0) as H2; rewrite Hs in H2;
    exact H2.
Qed.

(** A run of the body of the outer [try] with no event ends on the file
    system the constructor of the storage service left. *)
Lemma handler_body_early_fs :
  trace_of (handler_body E config request project_id fs) = [] ->
  fs_of (handler_body E config request project_id fs) = fs \/
  exists u,
    fs_of (handler_body E config request project_id fs) =
    snd (FileService_init E u fs).
Proof.
  unfold handler_body.
  destruct (Project_query_get E project_id) as [project|e] eqn:Hq;
    [rewrite bind_lift_Ok | now left].
  destruct (project_truthy E project) eqn:Hp; cbn [negb]; [|now left].
  assert (exists pr, parse_request request fs = (pr, fs, [])) as [pr Hpr]
    by (eexists; apply parse_request_pure).
  destruct pr as [[[prompt rf] xs]|e];
    [rewrite (bind_Ok_nil _ _ _ _ _ Hpr)
    |rewrite (bind_Raise _ _ _ _ _ _ Hpr); now left].
  destruct (str_bool prompt) eqn:Hprompt; cbn [negb]; [|now left].
  destruct (GOOGLE_API_KEY config) as [k|] eqn:Hk; cbn [config_get];
    [rewrite bind_ret | now left].
  destruct (GOOGLE_API_BASE config) as [b|] eqn:Hb; cbn [config_get];
    [rewrite bind_ret | now left].
  destruct (AIService_init E k b) as [[]|e] eqn:Hai;
    [rewrite bind_lift_Ok | now left].
  destruct (UPLOAD_FOLDER config) as [u|] eqn:Hu; cbn [config_get];
    [rewrite !bind_ret | now left].
  assert (exists ri, new_FileService E u fs = (ri, (FileService_init E u fs).2, []))
    as [ri Hri].
  { unfold new_FileService. destruct (FileService_init E u fs). now eexists. }
  destruct (FileService_init E u fs) as [ri' fs0] eqn:Hfs. simpl in Hri.
  assert (ri = ri') as ->.
  { unfold new_FileService in Hri. rewrite Hfs in Hri. congruence. }
  intros Ht. right. exists u. rewrite Hfs. cbn [snd]. revert Ht.
  destruct ri' as [[]|e];
    [rewrite (bind_Ok_nil _ _ _ _ _ Hri)
    |rewrite (bind_Raise _ _ _ _ _ _ Hri); reflexivity].
  rewrite bind_ret.
  destruct (mkdtemp_pick E u fs0) as [made|e] eqn:Hmk.
  2:{ intros _.
      assert (tempfile_mkdtemp E u fs0 = (Raise e, fs0, [])) as Hmk'
        by (unfold tempfile_mkdtemp; now rewrite Hmk).
      now rewrite (bind_Raise _ _ _ _ _ _ Hmk'). }
  assert (tempfile_mkdtemp E u fs0 =
          (Ok made, <[os_target (cwd E) made := Dir]> fs0,
           [EvMkdtemp made (os_target (cwd E) made)])) as Hmk'
    by (unfold tempfile_mkdtemp; now rewrite Hmk).
  rewrite (bind_Ok _ _ _ _ _ _ Hmk'). discriminate.
Qed.

(** X13: when the services leave the local files as they find them and
    [mkdtemp] makes its directory where nothing exists, the handler leaves
    the file system exactly as it found it, whatever the request and
    however the run ends: nothing an upload wrote survives the request. *)
Theorem disk_is_left_as_found :
  services_leave_files E ->
  mkdtemp_is_fresh E config fs ->
  fs_of out = fs.
Proof.
  intros Hleave Hfresh. unfold out. rewrite handler_fs.
  destruct (handler_body_workspace E config request project_id fs)
    as [[Ht _]|(w & fs2 & tw & Hw & Hin & Hfs & _)].
  - destruct (handler_body_early_fs Ht) as [H|[u H]]; [exact H|].
    rewrite H. apply Hleave.
  - cbv zeta in Hfs. rewrite Hfs.
    destruct Hw as (k & b & u & fs0 & rf & xs & Hw).
    destruct Hw as (_ & _ & _ & _ & _ & _ & _ & _ & _ & Hu & Hinit & Hmk & Hwfs).
    pose proof (proj1 Hleave u fs) as Hfs0. rewrite Hinit in Hfs0.
    cbn in Hfs0. subst fs0.
    specialize (Hfresh u (ws_made w)). rewrite Hinit in Hfresh.
    cbn [snd] in Hfresh. specialize (Hfresh Hu Hmk).
    set (dir := os_target (cwd E) (ws_made w)) in *.
    assert (fs2 = fs_of (write_all E (ws_made w)
                           (uploads (ref_file_of request)
                              (extra_files_of request)) (ws_fs w))) as ->.
    { inversion Hin as [e o' Ho|key o' Ho Hm
                       |ar res r' fs3 tg o' Ho Har' Hres' Hgen];
        subst; try reflexivity.
      exact (generated_fs _ _ _ _ _ Hleave Hgen). }
    rewrite cleanup_run. cbv zeta. fold dir.
    rewrite bool_decide_eq_true_2.
    2:{ exists Dir. apply write_all_keeps_Dir. rewrite Hwfs.
        apply lookup_insert_eq. }
    unfold fs_of. cbn [fst snd]. apply map_eq. intros q.
    destruct (decide (dir `prefix_of` q)) as [Hq|Hq].
    + rewrite (remove_tree_gone _ _ _ Hq). symmetry. now apply Hfresh.
    + rewrite (remove_tree_other _ _ _ Hq).
      fold (fs_of (write_all E (ws_made w)
                     (uploads (ref_file_of request) (extra_files_of request))
                     (ws_fs w))).
      rewrite (write_all_outside _ _ _ _ Hq), Hwfs.
      apply lookup_insert_ne. intros <-. now apply Hq.
Qed.

(** X15: when [request.get_json()] raises, as it does on a body that is
    not JSON, the exception is caught by the handler's own [except]: the
    answer is 503 with the text of the exception after a rollback, not the
    400 of the framework, and no temporary directory is made. *)
Theorem json_body_unreadable_is_503 p e :
  Project_query_get E project_id = Ok (Some p) ->
  Project_bool E p = true ->
  request = JsonRequest (Raise e) ->
  out =
    (Ok (error_response (py "AI_SERVICE_ERROR") (exn_str e) 503),
     fs, [EvRollback]).
Proof.
  intros Hq Hp Hreq. unfold out. rewrite Hreq.
  unfold generate_material_image, try_except, handler_body.
  rewrite Hq, bind_lift_Ok. cbn [project_truthy]. rewrite Hp. cbn [negb].
  assert (parse_request (JsonRequest (Raise e)) fs = (Raise e, fs, []))
    as Hparse by reflexivity.
  rewrite (bind_Raise _ _ _ _ _ _ Hparse). reflexivity.
Qed.

End further.

(** ** The further properties on the concrete deployment *)

Lemma tmp_dir_is_fresh q : tmp_dir `prefix_of` q -> disk !! q = None.
Proof.
  intros [k ->]. unfold disk, tmp_dir. cbn [app].
  rewrite !lookup_insert_ne by discriminate.
  apply lookup_singleton_ne. discriminate.
Qed.

Lemma posix_mkdtemp_is_fresh : mkdtemp_is_fresh posix_env app_config disk.
Proof.
  intros u made Hu Hmk. cbn in Hu. injection Hu as <-.
  cbn [posix_env FileService_init mkdtemp_pick snd] in *. injection Hmk as <-.
  intros q Hq. apply tmp_dir_is_fresh. revert Hq.
  match goal with
  | |- ?d `prefix_of` q -> _ =>
      assert (d = tmp_dir) as -> by (vm_compute; reflexivity)
  end.
  intros Hq. exact Hq.
Qed.

Lemma remote_mkdtemp_is_fresh : mkdtemp_is_fresh remote_env app_config disk.
Proof.
  intros u made Hu Hmk. cbn in Hu. injection Hu as <-.
  cbn [remote_env posix_env FileService_init mkdtemp_pick snd] in *.
  injection Hmk as <-.
  intros q Hq. apply tmp_dir_is_fresh. revert Hq.
  match goal with
  | |- ?d `prefix_of` q -> _ =>
      assert (d = tmp_dir) as -> by (vm_compute; reflexivity)
  end.
  intros Hq. exact Hq.
Qed.

Lemma posix_allows_uploads :
  writes_allowed posix_env app_config form_uploads disk.
Proof.
  intros u made f fs' Hu Hmk Hf. cbn in Hu. injection Hu as <-.
  cbn [posix_env FileService_init mkdtemp_pick snd] in Hmk.
  injection Hmk as <-. split; [|reflexivity].
  vm_compute in Hf. destruct Hf as [<-|[<-|[<-|[]]]]; vm_compute; reflexivity.
Qed.

Lemma posix_all_well : all_well posix_env.
Proof.
  split; intros; try reflexivity; try (eexists; reflexivity).
  exists (Some the_image). split; reflexivity.
Qed.

Lemma remote_leaves_files : services_leave_files remote_env.
Proof. repeat split. Qed.

Lemma responses_witness :
  let r :=
    error_response (py "AI_SERVICE_ERROR") (py "Failed to generate image") 503 in
  value_of
    (generate_material_image no_image_env app_config json_cube (py "p1") disk)
  = Ok r /\
  (r = not_found (py "Project") \/
   r = bad_request (py "prompt is required") \/
   (exists image_url relative_path,
      r = success_response image_url relative_path) \/
   (exists message, r = error_response (py "AI_SERVICE_ERROR") message 503)).
Proof.
  split; [vm_compute; reflexivity|].
  apply (responses_are_of_four_kinds no_image_env app_config json_cube
           (py "p1") disk).
  vm_compute. reflexivity.
Defined.

Lemma json_prompt_not_text_witness :
  dict_get [(py "prompt", JNum 7)] (py "prompt") = Some (JNum 7) /\
  generate_material_image posix_env app_config json_number (py "p1") disk =
    (Ok (error_response (py "AI_SERVICE_ERROR")
           (py "'int' object has no attribute 'strip'") 503),
     disk, [EvRollback]).
Proof.
  split; [reflexivity|].
  apply (json_prompt_not_text_is_503 posix_env app_config json_number (py "p1")
           disk (mkProject (py "p1") 0) [(py "prompt", JNum 7)] (JNum 7));
    try reflexivity.
  intros s. discriminate.
Defined.

Lemma json_falsy_body_witness :
  json_bool JNull = false /\
  generate_material_image posix_env app_config json_null_body (py "p1") disk =
    (Ok (bad_request (py "prompt is required")), disk, []).
Proof.
  split; [reflexivity|].
  apply (json_falsy_body_is_bad_request posix_env app_config json_null_body
           (py "p1") disk (mkProject (py "p1") 0) JNull); reflexivity.
Defined.

Lemma json_body_not_object_witness :
  json_bool (JList [JStr (py "a red cube")]) = true /\
  generate_material_image posix_env app_config json_list_body (py "p1") disk =
    (Ok (error_response (py "AI_SERVICE_ERROR")
           (py "'list' object has no attribute 'get'") 503),
     disk, [EvRollback]).
Proof.
  split; [reflexivity|].
  apply (json_body_not_object_is_503 posix_env app_config json_list_body
           (py "p1") disk (mkProject (py "p1") 0)
           (JList [JStr (py "a red cube")])); try reflexivity.
  intros d. discriminate.
Defined.

Lemma missing_service_key_witness :
  GOOGLE_API_KEY config_no_key = None /\
  generate_material_image posix_env config_no_key json_cube (py "p1") disk =
    (Ok (error_response (py "AI_SERVICE_ERROR") (py "'GOOGLE_API_KEY'") 503),
     disk, [EvRollback]).
Proof.
  split; [reflexivity|].
  apply (proj2 (proj2 (missing_service_key posix_env config_no_key json_cube
                         (py "p1") disk (or_introl eq_refl)))
           (mkProject (py "p1") 0) (py "a red cube")); try reflexivity.
  vm_compute. discriminate.
Defined.

Lemma generate_uses_configured_format_witness :
  let out :=
    generate_material_image posix_env app_config form_uploads (py "p1") disk in
  In (EvGenerate uploads_args uploads_fs (Ok (Some the_image))) (trace_of out) /\
  DEFAULT_ASPECT_RATIO app_config = Some (aspect_ratio uploads_args) /\
  DEFAULT_RESOLUTION app_config = Some (resolution uploads_args).
Proof.
  split; [apply In_by_decide; vm_compute; reflexivity|].
  apply (proj1 (generate_uses_configured_format posix_env app_config
                  form_uploads (py "p1") disk)
           uploads_args uploads_fs (Ok (Some the_image))).
  apply In_by_decide. vm_compute. reflexivity.
Defined.

Lemma json_request_writes_nothing_witness :
  let out :=
    generate_material_image posix_env app_config json_cube (py "p1") disk in
  (forall f target o, ~ In (EvSave f target o) (trace_of out)) /\
  (forall a fsc o,
     In (EvGenerate a fsc o) (trace_of out) ->
     ref_image_path a = None /\ additional_ref_images a = None).
Proof.
  apply (json_request_writes_nothing posix_env app_config json_cube (py "p1")
           disk (Ok (JDict [(py "prompt", JStr (py "a red cube"))]))).
  reflexivity.
Defined.

Lemma trace_order_witness :
  let ks :=
    map kind_of
      (trace_of
         (generate_material_image posix_env app_config form_uploads (py "p1")
            disk)) in
  ks = [] \/ ks = [KRollback] \/
  exists n called cleaned rolled,
    ks = KMkdtemp :: repeat KSave n ++ called ++ cleaned ++ rolled /\
    called `prefix_of` [KGenerate; KSaveMaterial; KCommit] /\
    cleaned `prefix_of` [KRmtree] /\
    rolled `prefix_of` [KRollback] /\
    (In KCommit called -> rolled = []).
Proof.
  apply (trace_order posix_env app_config form_uploads (py "p1") disk).
Defined.

Lemma commit_and_rollback_witness :
  let out :=
    generate_material_image posix_env app_config form_uploads (py "p1") disk in
  In EvCommit (trace_of out) /\
  exists image_url relative_path,
    value_of out = Ok (success_response image_url relative_path).
Proof.
  split; [apply In_by_decide; vm_compute; reflexivity|].
  apply (proj1 (proj1 (commit_and_rollback_exactly posix_env app_config
                         form_uploads (py "p1") disk))).
  apply In_by_decide. vm_compute. reflexivity.
Defined.

Lemma no_step_twice_witness :
  KGenerate <> KSave /\
  (count KGenerate
     (trace_of
        (generate_material_image posix_env app_config form_uploads (py "p1")
           disk)) <= 1)%nat.
Proof.
  split; [discriminate|].
  apply (no_step_twice posix_env app_config form_uploads (py "p1") disk
           KGenerate).
  discriminate.
Defined.

Lemma success_is_earned_witness :
  let out :=
    generate_material_image posix_env app_config json_cube (py "p1") disk in
  value_of out =
    Ok (success_response (py "/files/p1/materials/m1.png")
          (py "p1/materials/m1.png")) /\
  exists a fsc image,
    In (EvGenerate a fsc (Ok image)) (trace_of out) /\
    image_truthy posix_env image = true /\
    In (EvSaveMaterial image (py "p1") (Ok (py "p1/materials/m1.png")))
      (trace_of out) /\
    get_file_url posix_env (py "p1") (py "materials")
      (Path_name (Path_of (py "p1/materials/m1.png"))) =
      Ok (py "/files/p1/materials/m1.png") /\
    session_commit posix_env = Ok tt.
Proof.
  split; [vm_compute; reflexivity|].
  apply (success_is_earned posix_env app_config json_cube (py "p1") disk
           (py "/files/p1/materials/m1.png") (py "p1/materials/m1.png")).
  vm_compute. reflexivity.
Defined.

Lemma empty_sanitized_name_witness :
  let out :=
    generate_material_image posix_env app_config form_dot_dot (py "p1") disk in
  In dot_dot (uploads (ref_file_of form_dot_dot) (extra_files_of form_dot_dot)) /\
  sanitized posix_env dot_dot = [] /\
  (forall a fsc o, ~ In (EvGenerate a fsc o) (trace_of out)) /\
  (forall image_url relative_path,
     value_of out <> Ok (success_response image_url relative_path)).
Proof.
  split; [apply In_by_decide; vm_compute; reflexivity|].
  split; [vm_compute; reflexivity|].
  apply (empty_sanitized_name_blocks posix_env app_config form_dot_dot (py "p1")
           disk dot_dot).
  - apply In_by_decide. vm_compute. reflexivity.
  - vm_compute. reflexivity.
Defined.

Lemma request_succeeds_witness :
  supplied_prompt form_uploads = Some (py " a red cube ") /\
  strip (py " a red cube ") <> [] /\
  config_complete app_config /\
  exists image_url relative_path,
    value_of
      (generate_material_image posix_env app_config form_uploads (py "p1") disk)
    = Ok (success_response image_url relative_path).
Proof.
  split; [reflexivity|]. split; [vm_compute; discriminate|].
  split; [repeat split; discriminate|].
  apply (request_succeeds posix_env app_config form_uploads (py "p1") disk
           (mkProject (py "p1") 0) (py " a red cube ")).
  - reflexivity.
  - reflexivity.
  - reflexivity.
  - vm_compute. discriminate.
  - repeat split; discriminate.
  - exact posix_all_well.
  - exact posix_mkdtemp_is_fresh.
  - exact posix_allows_uploads.
  - intros f Hf. vm_compute in Hf.
    destruct Hf as [<-|[<-|[<-|[]]]]; vm_compute; discriminate.
Defined.

Lemma disk_is_left_as_found_witness :
  fs_of
    (generate_material_image remote_env app_config form_uploads (py "p1") disk)
  = disk.
Proof.
  apply (disk_is_left_as_found remote_env app_config form_uploads (py "p1") disk).
  - exact remote_leaves_files.
  - exact remote_mkdtemp_is_fresh.
Defined.

Lemma json_body_unreadable_witness :
  generate_material_image posix_env app_config json_unreadable (py "p1") disk =
    (Ok (error_response (py "AI_SERVICE_ERROR")
           (py "400 Bad Request: Failed to decode JSON object") 503),
     disk, [EvRollback]).
Proof.
  apply (json_body_unreadable_is_503 posix_env app_config json_unreadable
           (py "p1") disk (mkProject (py "p1") 0)
           (Raised (py "400 Bad Request: Failed to decode JSON object")));
    reflexivity.
Defined.
